(* ===== verification/_CoqProject ===== *)
-Q . S2P
Prelude.v
JsString.v
Regex.v
KeyPoints.v
JsValue.v
Json.v
Effects.v
Extractor.v
Summarize.v
Tts.v
Worker.v
Database.v
DbTypes.v
Lifecycle.v
MainIpc.v
Query.v
App.v
View.v
Async.v
Bridge.v
Pipeline.v
