(* ===== verification/Prelude.v ===== *)
(** * A verification development of Maximus Resource Scraper

    The repository is an Electron desktop application that turns web
    articles and YouTube videos into an educational summary, five key
    learning points and a spoken rendition of the summary.

    ** The program and how its parts interact

    - [src/contentProcessor.js] runs in a [worker_threads] worker, one per
      job.  [processContent] extracts text from the source (article fetch,
      YouTube metadata and transcript, or a stub for the other source
      types), sends one prompt to the OpenRouter chat-completion API,
      parses the raw answer into key points and a narrative excerpt, and
      synthesises the excerpt with Windows speech through PowerShell
      ([generateTTS]), saving the WAV file under [outputs/].  It posts
      one message to the parent: a result object or [{error}].
    - [src/main.js] is the Electron main process.  Its [process-content]
      IPC handler starts the worker, waits for its message and writes the
      result into SQLite ([sources], [summaries], [outputs]).  It also
      forwards arbitrary queries ([db-query], [db-run]).
    - [src/preload.js] exposes those three IPC calls to the renderer.
    - [src/src/App.js] is the React renderer: projects, sources, the
      "Process" button and the list of summaries.

    ** Files of this development (in dependency order)

    - [Prelude] (this file): the scope [js_scope], the tactics and hint
      databases shared by every file ([js], [js_len]), [find_index]
      ([Array.prototype.findIndex] with [None] for [-1]), generic list
      lemmas, and [eventually], the inductive liveness combinator over an
      environment that chooses among moves.
    - [JsString]: the string built-ins the code calls ([length],
      [substring], [toLowerCase], [trim], [includes], [startsWith],
      [split], [join]) on strings as lists of UTF-16 code units ([list N]),
      so that lengths are those JavaScript computes.  [toLowerCase] is the
      class [LowerCase]: the Unicode case mapping is not written out, every
      theorem holds for any instance that lowers ASCII, the witnesses use
      the ASCII instance.
    - [Regex]: the regular expressions of [contentProcessor.js] (the list
      markers and their [replace] chain, lines 211-212; the [<title>]
      pattern, line 67; the video-id pattern, line 71) as executable
      matchers with JavaScript's leftmost, greedy and lazy semantics.
    - [KeyPoints] (Section [Parser]): the response parser, lines 187-248:
      header detection, the scan that collects points, the placeholder
      fallback and the text sent to speech synthesis.
    - [JsValue]: the JSON values axios and the transcript library return,
      property reads with V8's [TypeError] messages, ToString and
      truthiness.
    - [Effects]: the worker's world and the monad [M] (state and
      exceptions, [let*], [try_catch]).  The world holds the services'
      answers as an oracle indexed by the number of the call, the clock as
      a function of the number of the reading, the environment, the module
      directory, the file system as a [gmap], the errors the disk raises
      for writes, and the trace of side effects.  Every state-changing call
      of the code ([axios], [fetchTranscript], [exec], [fs.*],
      [postMessage]) is one primitive of [M].  Frames ([emits]) say which
      events a computation may append; [total] and [raises_disk] say which
      exceptions it may throw.
    - [Extractor]: lines 53-142 ([extract], the article branch, the
      YouTube branch with its [try] and [catch] blocks, transcript
      sampling).
    - [Summarize]: lines 144-185 (the key check, prompt, chat request,
      reading [choices[0].message.content] and the debug log that calls
      [summary.substring]).
    - [Tts]: [generateTTS] (lines 11-50) and the podcast file (252-265).
    - [Worker] (Section [Worker]): [processContent], lines 53-273, with
      its top-level [catch] and the single [postMessage].
    - [Json]: [JSON.stringify] of the key points ([main.js], line 154) and
      [JSON.parse] ([App.js], line 231) over code units, on fuel.
    - [Database]: the SQLite tables of [initDatabase] ([main.js], lines
      34-87) as [gmap]s with their [sqlite_sequence] entry, and [exec],
      the seven statements the program runs (TEXT affinity, NOT NULL then
      CHECK constraints, AUTOINCREMENT with its 64-bit limit, no foreign
      key enforcement, as SQLite without [PRAGMA foreign_keys]).
    - [DbTypes]: the column types the schema's constraints guarantee, as
      an invariant of the database.
    - [Lifecycle] (Section [Lifecycle] over [process.env.NODE_ENV],
      [process.platform] and [__dirname]): the main process's module
      variables, [createWindow], the promise of [initDatabase] and the app
      events ([main.js], lines 7-104) as a state machine [life_step] over
      the events Electron and SQLite deliver.
    - [MainIpc] (Section [Handler] over [contentData.sourceId]): the
      [process-content] handler ([main.js], lines 132-183) as a state
      machine whose events are the worker's [message], [error] and [exit],
      the callbacks of the awaited [db.run] calls and the renderer's
      statements in between; [reachable] is its step relation's closure,
      the promise settles once.
    - [Query]: the renderer's four [SELECT]s ([App.js], lines 20-40) with
      SQLite's rowid order and parameter limit, and their abstract
      specification [query_spec].
    - [App]: the renderer's handlers ([App.js]) as functions of the
      component state and the database, and the rendering of the key
      points and of the podcast file name.
    - [View]: the JSX tree of [App] ([App.js], lines 119-253) as [render],
      and the listeners of that tree and the mount effect as [handle_ui]
      over the events of the user; [ui_reachable] closes the initial state
      under them and under the statements the rest of the program runs.
    - [Async]: [loadSources] ([App.js], lines 27-52) await by await: the
      [dbQuery] calls in flight ([astate], [inflight]), the click on a
      project (lines 143-146) and the settling of any call in flight, in
      any order ([astep]); [resume] runs the code after an await.
    - [Bridge]: [preload.js] ([electronAPI]), the generic [db-query] and
      [db-run] handlers ([main.js], lines 107-129) and Electron's dispatch
      of [ipcRenderer.invoke] to them.  The driver is the class
      [SqlEngine], with the contract [SqlEngineSpec] that fixes it on the
      renderer's statements; [program_engine] is an instance.
    - [Pipeline]: the worker's posted message delivered to the handler.

    ** Theorems

    - Worker: the job always ends normally and posts exactly one message,
      last; which failures abort the job (missing key, article fetch, a
      refused podcast write) and which degrade (speech engine failure).
    - KeyPoints: 3 to 5 points of 11 to 199 code units or the
      placeholders; points in source order; exact results for well-formed
      blocks; the excerpt for speech is at most 2003 code units; concrete
      answers where the code parts from the spec.
    - Summarize and Extractor: the request sent, the prompt bound, the
      transcript sampling windows, each branch of extraction, the null
      content error.
    - Tts: only disk errors escape podcast saving; the temporary text file
      is left behind when the engine fails.
    - Regex: each matcher against a declarative description of its
      language; the video-id pattern finds nothing exactly when neither
      URL shape is followed by an id unit.
    - Database and DbTypes: well-formedness of every reachable database,
      source ids never reused although the renderer deletes sources
      (AUTOINCREMENT against [sqlite_sequence]), the 64-bit rowid limit,
      the CHECK constraint, the inert cascade; the column types of every reachable database.
    - MainIpc: the promise settles once (rule induction on [reachable]);
      for every interleaving a resolved reply names a stored summary row
      with its summary and key points; the happy path; partial writes
      when a later statement fails; on any database, an orphan summary
      and a resolved reply when the source is deleted meanwhile; liveness: whatever else interleaves, the
      callbacks of a run's own statements (at most three) finish it and
      settle the promise ([run_settles], by a measure on the phases).
    - Lifecycle: windows exist only after the database is ready, with
      context isolation and the preload script; at most one window, named
      by [mainWindow]; a database failure leaves the process without a
      window and without quitting; closing the last window quits except
      on macOS, where [activate] reopens one.
    - View: over every state the user can reach (an invariant on the
      component state and the database), the forms never send a source
      type the CHECK refuses, and rendering never throws on the data the
      program writes (the handler's writes are shown to be such data);
      the Summaries list shows exactly the stored key points, in order.
    - Async: when a click's replies settle before anything else,
      [loadSources] await by await ends where the atomic
      [App.selectProject] does, and the page then lists exactly the
      project's sources, their summaries and those summaries' outputs,
      as the tables hold them; when two clicks' replies settle out of
      order, the page shows the later project with the earlier project's
      sources.
    - Query and Bridge (refinement): each query returns exactly the rows
      its specification allows, which determines it; every call the
      renderer makes through the bridge and the handlers returns what the
      renderer's model computes, for every engine meeting the contract.
    - Json (termination): the parser stops within the fuel [parse_json]
      gives; any more fuel gives the same result.
    - App and Pipeline: the key points the renderer parses are those of
      the reply (JSON roundtrip); Add keeps source URLs non-blank while
      Save stores a blank one; after Create the new project is listed
      last, trimmed, under a fresh id; after Add the page lists the new source
      under a fresh id, after Delete it lists the project's other sources
      and none of the deleted source's summaries, which stay in the
      database; the request [summarize] sends, field by field; the file name shown for a podcast path; a job without
      a key ends in a rejected reply and no database write.

    ** Bounds and fuel

    No loop of the code needs fuel: every scan is a structural [Fixpoint]
    on a list.  [JSON.parse] is a [Fixpoint] on fuel; [parse_json] gives
    twice the length of the text plus one.  A successful parse consumes
    at least one code unit, an array or object level costs two units of
    fuel for at least one code unit, so [parse_json_fuel] proves that any
    larger fuel computes the same result: the fuel never cuts a parse
    short.  The liveness of the handler needs no fuel: its measure is the
    number of statements a run still awaits.  Lengths, the clock
    and [sourceId] are unbounded [nat] or [Z]: JavaScript numbers are
    doubles and these values stay far below 2^53.  Rowids are bounded by
    2^63 - 1 as SQLite bounds them.

    ** Not modelled

    React's reconciliation and the interleaving of the [await]s of the
    renderer handlers other than [loadSources] (each of them runs
    atomically; a reply in flight is computed when it is sent, which is
    the database it is served on, since no modelled event of [Async]
    writes the database), console logging, the semantics of arbitrary SQL
    through [db-query] and [db-run] (left to the [SqlEngine] instance),
    the outcome of the three [CREATE TABLE] statements that have no
    callback, the size and developer tools of the window as Electron
    renders them, the [CURRENT_TIMESTAMP] columns, and the external
    services themselves,
    whose answers are inputs of the model (an oracle for the network and
    the speech engine, a function for disk errors, events for the worker
    and the database callbacks). *)

From Stdlib Require Import String Ascii NArith ZArith Lia.
From stdpp Require Import base list numbers.

Declare Scope js_scope.
Delimit Scope js_scope with js.

(** A JavaScript string is a sequence of UTF-16 code units. *)
Abbreviation jsstr := (list N) (only parsing).

(** Conversion of an ASCII literal of the source into code units. *)
Definition js (s : string) : list N :=
  map N_of_ascii (list_ascii_of_string s).
Arguments js s%_string.


(** Hint databases of the development: [js] for resolution and
    [js_len] for rewriting lengths of the string operations. *)
Create HintDb js discriminated.
Create Rewrite HintDb js_len.

#[export] Hint Rewrite @length_app @length_map @length_rev : js_len.

(** [js_len] normalises lengths and closes the arithmetic. *)
Ltac js_len := autorewrite with js_len in *; simpl in *; lia.

(** Case analysis on the boolean tests of the code, keeping equations. *)
Ltac case_if :=
  match goal with
  | |- context [if ?b then _ else _] => let E := fresh "E" in destruct b eqn:E
  end.

(** Turns the boolean comparisons on code units among the hypotheses
    into propositions for [lia]. *)
Ltac bool_facts :=
  repeat match goal with
  | H : (_ && _) = true |- _ => apply andb_true_iff in H as [? ?]
  | H : (_ && _) = false |- _ => apply andb_false_iff in H as [H|H]
  | H : (_ || _) = true |- _ => apply orb_true_iff in H as [H|H]
  | H : (_ || _) = false |- _ => apply orb_false_iff in H as [? ?]
  | H : (_ =? _)%N = true |- _ => apply N.eqb_eq in H
  | H : (_ =? _)%N = false |- _ => apply N.eqb_neq in H
  | H : (_ <=? _)%N = true |- _ => apply N.leb_le in H
  | H : (_ <=? _)%N = false |- _ => apply N.leb_gt in H
  | H : (_ <? _)%N = true |- _ => apply N.ltb_lt in H
  | H : (_ <? _)%N = false |- _ => apply N.ltb_ge in H
  end.

(** ** Generic list lemmas shared by the components *)

Lemma firstn_length_le_self {A} (n : nat) (l : list A) :
  length (firstn n l) <= n.
Proof. rewrite length_firstn. lia. Qed.

Lemma firstn_prefix {A} (n : nat) (l : list A) :
  exists r, l = firstn n l ++ r.
Proof. exists (skipn n l). by rewrite firstn_skipn. Qed.

Lemma Forall_firstn {A} (P : A -> Prop) (n : nat) (l : list A) :
  Forall P l -> Forall P (firstn n l).
Proof. intros H. rewrite <- (firstn_skipn n l) in H. by apply Forall_app in H as [? _]. Qed.

Lemma Forall_app_single {A} (P : A -> Prop) (l : list A) (x : A) :
  Forall P l -> P x -> Forall P (l ++ [x]).
Proof. intros. apply Forall_app; auto. Qed.

#[export] Hint Resolve Forall_firstn Forall_app_single : js.

(** ** The index search of the code ([for ... break], [findIndex]) *)

(** [None] stands for the [-1] of JavaScript. *)
Fixpoint find_index {A} (p : A -> bool) (l : list A) : option nat :=
  match l with
  | [] => None
  | x :: l' => if p x then Some 0 else option_map S (find_index p l')
  end.

Lemma find_index_None {A} (p : A -> bool) (l : list A) :
  find_index p l = None <-> Forall (fun x => p x = false) l.
Proof.
  induction l as [|x l IH]; simpl; [split; auto|].
  destruct (p x) eqn:E; [split; [done|by inversion 1; congruence]|].
  rewrite Forall_cons_iff, <- IH. destruct (find_index p l); naive_solver.
Qed.

(** The index found is the first element satisfying [p]. *)
Lemma find_index_Some {A} (p : A -> bool) (l : list A) (i : nat) :
  find_index p l = Some i ->
  exists x, l !! i = Some x /\ p x = true /\
    Forall (fun y => p y = false) (take i l).
Proof.
  revert i. induction l as [|x l IH]; intros i; simpl; [done|].
  destruct (p x) eqn:E.
  - intros [= <-]. exists x. by repeat split.
  - destruct (find_index p l) as [j|]; simpl; [|done]. intros [= <-].
    destruct (IH j eq_refl) as (y & Hy & Hp & Hf). exists y. by repeat split; [..|constructor].
Qed.

Lemma find_index_take {A} (p : A -> bool) (l : list A) (i : nat) :
  find_index p l = Some i -> l = take i l ++ drop i l /\ i < length l.
Proof.
  intros (x & Hx & _)%find_index_Some. split; [by rewrite take_drop|].
  by apply lookup_lt_Some in Hx.
Qed.

Lemma find_index_first {A} (p : A -> bool) (pre : list A) (x : A) (l : list A) :
  Forall (fun y => p y = false) pre -> p x = true ->
  find_index p (pre ++ x :: l) = Some (length pre).
Proof.
  intros Hpre Hx. induction Hpre as [|y pre Hy _ IH]; simpl; [by rewrite Hx|].
  by rewrite Hy, IH.
Qed.

(** A decidable proposition on concrete data, proved by evaluation. *)
(** ** Liveness under an environment

    [eventually step P s]: whatever the environment chooses, a state of
    [P] is reached from [s]; [step s mid] says that every move the
    environment can make from [s] ends in [mid].  This is the inductive
    combinator of coqutil's small-step semantics. *)
Inductive eventually {S : Type} (step : S -> (S -> Prop) -> Prop) (P : S -> Prop) (s : S) : Prop :=
| eventually_done : P s -> eventually step P s
| eventually_step (mid : S -> Prop) :
    step s mid -> (forall s', mid s' -> eventually step P s') -> eventually step P s.

Ltac decide_by_compute := apply (bool_decide_unpack _); vm_compute; exact I.

Lemma find_index_ext {A} (p q : A -> bool) (l : list A) :
  Forall (fun x => p x = q x) l -> find_index p l = find_index q l.
Proof. induction 1 as [|x l Hx _ IH]; simpl; [done|]. by rewrite Hx, IH. Qed.
