(* ===== verification/JsString.v ===== *)
(** * JavaScript string built-ins on UTF-16 code units

    The string methods that [src/contentProcessor.js] calls, with the
    semantics of ECMAScript: a string is a list of 16-bit code units, its
    [length] is the number of code units, [substring] clamps and swaps its
    arguments, [trim] and the regular-expression class [\s] remove the
    WhiteSpace and LineTerminator code points, [split] on a one-unit
    separator keeps empty pieces.  [toLowerCase] is the class [LowerCase]:
    its ASCII part is fixed, the rest of the Unicode case mapping is left
    to the instance. *)

From Stdlib Require Import String Ascii NArith ZArith Lia.
From stdpp Require Import base list numbers sets.
From S2P Require Import Prelude.

Local Open Scope N_scope.

(** ** [String.prototype.substring] *)

(** ToIntegerOrInfinity of an integer argument, clamped to [0, len]. *)
Definition clamp (z : Z) (len : nat) : nat :=
  Z.to_nat (Z.max 0 (Z.min z (Z.of_nat len))).

Definition substring (s : jsstr) (i j : Z) : jsstr :=
  let a := clamp i (length s) in
  let b := clamp j (length s) in
  take (Nat.max a b - Nat.min a b) (drop (Nat.min a b) s).

(** [s.substring(i)]: the end defaults to the length. *)
Definition substring_from (s : jsstr) (i : Z) : jsstr :=
  substring s i (Z.of_nat (length s)).

(** ** [String.prototype.toLowerCase] *)

Definition ascii_lower_unit (c : N) : N :=
  if (65 <=? c) && (c <=? 90) then c + 32 else c.

Definition is_ascii (s : jsstr) : Prop := Forall (fun c => c < 128) s.

(** The Unicode default case conversion, of which the code only relies on
    the ASCII letters: on an ASCII string it lowers A-Z and nothing else. *)
Class LowerCase := {
  to_lower : jsstr -> jsstr;
  to_lower_ascii : forall s, is_ascii s -> to_lower s = map ascii_lower_unit s
}.

(** The instance used to evaluate the model on ASCII inputs. *)
#[export] Instance ascii_lower_case : LowerCase := {|
  to_lower := map ascii_lower_unit;
  to_lower_ascii := fun _ _ => eq_refl
|}.

(** ** White space: [trim] and the class [\s] *)

(** WhiteSpace and LineTerminator code points of ECMAScript (TAB, LF, VT,
    FF, CR, SPACE, NBSP, OGHAM SPACE MARK, U+2000 to U+200A, LS, PS, NNBSP,
    MMSP, IDEOGRAPHIC SPACE, ZWNBSP). *)
Definition is_js_space (c : N) : bool :=
  existsb (N.eqb c) [9; 10; 11; 12; 13; 32; 160; 5760; 8232; 8233; 8239; 8287; 12288; 65279]
  || ((8192 <=? c) && (c <=? 8202)).

Fixpoint drop_while (p : N -> bool) (s : jsstr) : jsstr :=
  match s with
  | [] => []
  | c :: s' => if p c then drop_while p s' else s
  end.

Definition trim_start (s : jsstr) : jsstr := drop_while is_js_space s.
Definition trim_end (s : jsstr) : jsstr := rev (drop_while is_js_space (rev s)).
Definition trim (s : jsstr) : jsstr := trim_end (trim_start s).

(** ** [includes], [startsWith] *)

Fixpoint is_prefix (p s : jsstr) : bool :=
  match p, s with
  | [], _ => true
  | a :: p', b :: s' => (a =? b) && is_prefix p' s'
  | _ :: _, [] => false
  end.

Definition starts_with (s pat : jsstr) : bool := is_prefix pat s.

Fixpoint includes (s pat : jsstr) : bool :=
  is_prefix pat s ||
  match s with
  | [] => false
  | _ :: s' => includes s' pat
  end.

(** ** [split] on a one-unit separator and [join] *)

Fixpoint split_on (sep : N) (s : jsstr) : list jsstr :=
  match s with
  | [] => [[]]
  | c :: s' =>
      let rest := split_on sep s' in
      if c =? sep then [] :: rest
      else match rest with
           | [] => [[c]]
           | h :: t => (c :: h) :: t
           end
  end.

Fixpoint join (sep : jsstr) (l : list jsstr) : jsstr :=
  match l with
  | [] => []
  | [x] => x
  | x :: l' => x ++ sep ++ join sep l'
  end.

(** The newline code unit. *)
Definition LF : N := 10.

(** A text written as its lines, as the answers of the model are. *)
Definition js_lines (ls : list string) : jsstr := join [LF] (map js ls).

(** * Lemmas *)

Local Close Scope N_scope.

Lemma substring_length (s : jsstr) (i j : Z) :
  length (substring s i j) =
  Nat.max (clamp i (length s)) (clamp j (length s)) -
  Nat.min (clamp i (length s)) (clamp j (length s)).
Proof.
  unfold substring, clamp. rewrite length_take, length_drop. lia.
Qed.

(** [s.substring(0, n)] is the prefix of length [n]. *)
Lemma substring_0 (s : jsstr) (n : Z) :
  (0 <= n)%Z -> substring s 0 n = take (Z.to_nat n) s.
Proof.
  intros Hn. unfold substring, clamp.
  replace (Z.to_nat (Z.max 0 (Z.min 0 (Z.of_nat (length s))))) with 0%nat by lia.
  rewrite Nat.min_0_l, Nat.max_0_l, Nat.sub_0_r, drop_0.
  destruct (decide (Z.to_nat n <= length s)%nat).
  - f_equal. lia.
  - rewrite (take_ge s (Z.to_nat n)) by lia. apply take_ge. lia.
Qed.

Lemma substring_0_length_le (s : jsstr) (n : Z) :
  (0 <= n)%Z -> (length (substring s 0 n) <= Z.to_nat n)%nat.
Proof. intros. rewrite substring_0 by done. apply firstn_length_le_self. Qed.

Lemma substring_length_le (s : jsstr) (i j : Z) :
  (length (substring s i j) <= length s)%nat.
Proof. rewrite substring_length. unfold clamp. lia. Qed.

(** [s.substring(i, j)] inside the string is the window [i, j). *)
Lemma substring_window (s : jsstr) (i j : Z) :
  (0 <= i <= j)%Z -> (j <= Z.of_nat (length s))%Z ->
  substring s i j = take (Z.to_nat (j - i)) (drop (Z.to_nat i) s).
Proof.
  intros Hij Hj. unfold substring, clamp.
  replace (Z.to_nat (Z.max 0 (Z.min i (Z.of_nat (length s))))) with (Z.to_nat i) by lia.
  replace (Z.to_nat (Z.max 0 (Z.min j (Z.of_nat (length s))))) with (Z.to_nat j) by lia.
  f_equal; [lia|f_equal; lia].
Qed.

(** [s.substring(i)] is the suffix from [i]. *)
Lemma substring_from_drop (s : jsstr) (i : Z) :
  (0 <= i <= Z.of_nat (length s))%Z -> substring_from s i = drop (Z.to_nat i) s.
Proof.
  intros Hi. unfold substring_from. rewrite substring_window by lia.
  apply take_ge. rewrite length_drop. lia.
Qed.

Lemma drop_while_suffix (p : N -> bool) (s : jsstr) :
  exists pre, s = pre ++ drop_while p s /\ Forall (fun c => p c = true) pre.
Proof.
  induction s as [|c s IH]; simpl.
  - by exists [].
  - destruct (p c) eqn:E.
    + destruct IH as [pre [Hs Hpre]]. exists (c :: pre). rewrite Hs at 1. split; [done|by constructor].
    + by exists [].
Qed.

Lemma drop_while_head (p : N -> bool) (s : jsstr) c r :
  drop_while p s = c :: r -> p c = false.
Proof.
  induction s as [|d s IH]; simpl; [done|].
  destruct (p d) eqn:E; [apply IH|]. by intros [= -> _].
Qed.

Lemma drop_while_length (p : N -> bool) (s : jsstr) :
  (length (drop_while p s) <= length s)%nat.
Proof. destruct (drop_while_suffix p s) as [pre [Hs _]]. rewrite Hs at 2. js_len. Qed.

(** [trim] deletes white space at both ends and nothing in between. *)
Lemma trim_spec (s : jsstr) :
  exists pre post, s = pre ++ trim s ++ post /\
    Forall (fun c => is_js_space c = true) pre /\
    Forall (fun c => is_js_space c = true) post.
Proof.
  destruct (drop_while_suffix is_js_space s) as [pre [Hs Hpre]].
  change (drop_while is_js_space s) with (trim_start s) in Hs.
  unfold trim, trim_end. set (t := trim_start s) in *.
  destruct (drop_while_suffix is_js_space (rev t)) as [post [Hr Hpost]].
  exists pre, (rev post). split; [|split; [done|by apply Forall_rev]].
  rewrite Hs at 1. f_equal.
  rewrite <- (rev_involutive t) at 1. rewrite Hr at 1. by rewrite rev_app_distr.
Qed.

Lemma drop_while_all (p : N -> bool) (s : jsstr) :
  Forall (fun c => p c = true) s -> drop_while p s = [].
Proof. induction 1 as [|c s Hc _ IH]; simpl; [done|]. by rewrite Hc. Qed.

(** [trim] leaves nothing exactly when the string is white space. *)
Lemma trim_nil_iff (s : jsstr) :
  trim s = [] <-> Forall (fun c => is_js_space c = true) s.
Proof.
  split.
  - intros Ht. destruct (trim_spec s) as (pre & post & Hs & Hpre & Hpost).
    rewrite Hs, Ht. by apply Forall_app.
  - intros Hs. unfold trim, trim_start. by rewrite drop_while_all.
Qed.

Lemma trim_nil_trim (s : jsstr) : trim (trim s) = [] <-> trim s = [].
Proof.
  rewrite !trim_nil_iff. destruct (trim_spec s) as (pre & post & Hs & Hpre & Hpost).
  split; [intros H; rewrite Hs; by apply Forall_app; split; [|apply Forall_app]|].
  intros H. rewrite Hs in H. by apply Forall_app in H as [_ [H _]%Forall_app].
Qed.

Lemma trim_length (s : jsstr) : (length (trim s) <= length s)%nat.
Proof. destruct (trim_spec s) as (pre & post & Hs & _). rewrite Hs at 2. js_len. Qed.

Lemma is_prefix_spec (p s : jsstr) :
  is_prefix p s = true <-> exists r, s = p ++ r.
Proof.
  revert s. induction p as [|a p IH]; intros [|b s]; simpl.
  - split; eauto.
  - split; eauto.
  - split; [done|]. by intros [r ?].
  - rewrite andb_true_iff, N.eqb_eq, IH. split.
    + intros [-> [r ->]]. by exists r.
    + intros [r [= -> ->]]. eauto.
Qed.

Lemma is_prefix_app_same (a b c : jsstr) : is_prefix (a ++ b) (a ++ c) = is_prefix b c.
Proof. induction a as [|x a IH]; simpl; [done|]. by rewrite N.eqb_refl. Qed.

Lemma is_prefix_app_self (a c : jsstr) : is_prefix a (a ++ c) = true.
Proof. apply is_prefix_spec. by exists c. Qed.

Lemma includes_spec (s pat : jsstr) :
  includes s pat = true <-> exists a b, s = a ++ pat ++ b.
Proof.
  induction s as [|c s IH]; simpl; rewrite orb_true_iff, is_prefix_spec.
  - split.
    + intros [[r Hr] | H]; [by exists [], r | discriminate].
    + intros (a & b & Hab). left. exists b. destruct a; simpl in *; [done|discriminate].
  - rewrite IH. split.
    + intros [[r Hr] | (a & b & ->)]; [by exists [], r | by exists (c :: a), b].
    + intros ([|d a] & b & Hab); simpl in Hab; [left; eauto|].
      injection Hab as -> ->. right. eauto.
Qed.

Lemma includes_app_r (a pat b : jsstr) : includes (a ++ pat ++ b) pat = true.
Proof. apply includes_spec. eauto. Qed.

(** The code unit of the separator occurs in no piece of [split]. *)
Lemma split_on_pieces (sep : N) (s : jsstr) :
  Forall (fun piece => sep ∉ piece) (split_on sep s).
Proof.
  induction s as [|c s IH]; simpl.
  - repeat constructor. set_solver.
  - destruct (c =? sep)%N eqn:E; [constructor; [set_solver | done]|].
    apply N.eqb_neq in E.
    destruct (split_on sep s) as [|h t]; [repeat constructor; set_solver|].
    apply Forall_cons in IH as [Hh Ht]. constructor; [|done].
    rewrite elem_of_cons. intros [-> | ?]; [done | by apply Hh].
Qed.

Lemma split_on_nonempty (sep : N) (s : jsstr) : split_on sep s <> [].
Proof.
  destruct s as [|c s]; simpl; [done|].
  case_if; [done|]. by destruct (split_on sep s).
Qed.

Lemma join_cons2 (sep x y : jsstr) (l : list jsstr) :
  join sep (x :: y :: l) = x ++ sep ++ join sep (y :: l).
Proof. done. Qed.

(** [join] undoes [split]: [s.split(c).join(c) = s]. *)
Lemma join_split (sep : N) (s : jsstr) : join [sep] (split_on sep s) = s.
Proof.
  induction s as [|c s IH]; [done|]. cbn [split_on].
  pose proof (split_on_nonempty sep s) as Hne.
  destruct (split_on sep s) as [|h t]; [done|].
  destruct (c =? sep)%N eqn:E.
  - apply N.eqb_eq in E as ->. by rewrite join_cons2, IH.
  - destruct t as [|h' t]; [simpl in *; by rewrite IH|].
    rewrite join_cons2 in IH |- *. rewrite <- app_comm_cons. by rewrite IH.
Qed.

Lemma split_on_no_sep (sep : N) (a : jsstr) : sep ∉ a -> split_on sep a = [a].
Proof.
  induction a as [|c a IH]; simpl; [done|]. rewrite not_elem_of_cons. intros [Hc Ha].
  rewrite IH by done. case_if; [|done]. apply N.eqb_eq in E. congruence.
Qed.

Lemma split_on_app_sep (sep : N) (a b : jsstr) :
  sep ∉ a -> split_on sep (a ++ sep :: b) = a :: split_on sep b.
Proof.
  induction a as [|c a IH]; simpl.
  - by rewrite N.eqb_refl.
  - rewrite not_elem_of_cons. intros [Hc Ha]. rewrite IH by done.
    case_if; [apply N.eqb_eq in E; congruence|done].
Qed.

(** A separator ends the pieces before it. *)
Lemma split_on_app_sep_split (sep : N) (a b : jsstr) :
  split_on sep (a ++ sep :: b) = split_on sep a ++ split_on sep b.
Proof.
  induction a as [|c a IH]; simpl; [by rewrite N.eqb_refl|]. rewrite IH.
  case_if; [done|]. pose proof (split_on_nonempty sep a) as Hne.
  by destruct (split_on sep a).
Qed.

(** [split] undoes [join] when no piece holds the separator. *)
Lemma split_join (sep : N) (ls : list jsstr) :
  ls <> [] -> Forall (fun p => sep ∉ p) ls -> split_on sep (join [sep] ls) = ls.
Proof.
  intros Hne Hls. induction Hls as [|a ls Ha Hls IH]; [done|].
  destruct ls as [|b ls]; [by apply split_on_no_sep|].
  rewrite join_cons2. cbn [app]. rewrite split_on_app_sep by done. by rewrite IH.
Qed.

(** The pieces of an ASCII string are ASCII. *)
Lemma split_on_ascii (sep : N) (s : jsstr) :
  is_ascii s -> Forall is_ascii (split_on sep s).
Proof.
  unfold is_ascii. induction 1 as [|c s Hc Hs IH]; simpl; [by repeat constructor|].
  case_if; [by constructor; [constructor|]|].
  destruct (split_on sep s) as [|h t]; [by repeat constructor|].
  apply Forall_cons_iff in IH as [Hh Ht]. by repeat constructor.
Qed.

Lemma take_ascii (n : nat) (s : jsstr) : is_ascii s -> is_ascii (take n s).
Proof. apply Forall_firstn. Qed.

#[export] Hint Resolve includes_app_r split_on_nonempty : js.
