(* ===== verification/Regex.v ===== *)
(** * The regular expressions of [contentProcessor.js]

    Each regular expression of the code becomes a matcher on code units.
    Anchored patterns ([^\d+\.], [^[•\-\*]], [^\(\d+\)]) return the rest
    of the line after the match; [replace(re, '')] without the [g] flag
    removes that first match.  The unanchored title pattern (line 67,
    flag [i]) and video-id pattern (line 71) are searched from the left,
    trying the pattern at each position in turn, as the backtracking
    engine does.  Each matcher is shown equal to the set of strings its
    pattern denotes. *)

From Stdlib Require Import String Ascii NArith ZArith Lia.
From stdpp Require Import base list numbers.
From S2P Require Import Prelude JsString.

Local Open Scope N_scope.

(** ** Character classes *)

(** [\d] is the ASCII digits only. *)
Definition is_digit (c : N) : bool := (48 <=? c) && (c <=? 57).

(** The maximal prefix whose units satisfy [p], and the rest. *)
Fixpoint span (p : N -> bool) (s : jsstr) : jsstr * jsstr :=
  match s with
  | [] => ([], [])
  | c :: s' => if p c then let '(a, b) := span p s' in (c :: a, b) else ([], s)
  end.

(** ** The list markers of line 211 *)

(** [/^\d+\./]: one or more digits then a dot; the rest after the dot. *)
Definition match_num_dot (s : jsstr) : option jsstr :=
  match span is_digit s with
  | (_ :: _, c :: r) => if c =? 46 then Some r else None
  | _ => None
  end.

(** [/^[•\-\*]/]: a bullet U+2022, a hyphen or an asterisk. *)
Definition is_bullet (c : N) : bool := (c =? 8226) || (c =? 45) || (c =? 42).

Definition match_bullet (s : jsstr) : option jsstr :=
  match s with
  | c :: r => if is_bullet c then Some r else None
  | [] => None
  end.

(** [/^\(\d+\)/]: a parenthesised number. *)
Definition match_paren_num (s : jsstr) : option jsstr :=
  match s with
  | c :: s' =>
      if c =? 40 then
        match span is_digit s' with
        | (_ :: _, d :: r) => if d =? 41 then Some r else None
        | _ => None
        end
      else None
  | [] => None
  end.

(** The truth value of a match result ([null] is falsy, an array truthy). *)
Definition matched {A} (o : option A) : bool :=
  match o with Some _ => true | None => false end.

(** The test of line 211: [line.match(/^\d+\./) || line.match(/^[•\-\*]/)
    || line.match(/^\(\d+\)/)]. *)
Definition is_point_line (line : jsstr) : bool :=
  matched (match_num_dot line) || matched (match_bullet line)
  || matched (match_paren_num line).

(** [s.replace(/^X\s*/, '')]: remove the marker and the white space after
    it when the marker matches, otherwise leave the string. *)
Definition strip_marker (m : jsstr -> option jsstr) (s : jsstr) : jsstr :=
  match m s with
  | Some r => drop_while is_js_space r
  | None => s
  end.

(** Line 212: the three replacements, applied one after the other. *)
Definition clean_point (line : jsstr) : jsstr :=
  strip_marker match_paren_num (strip_marker match_bullet (strip_marker match_num_dot line)).

(** ** The title pattern of line 67: [/<title>(.*?)<\/title>/i] *)

Definition ascii_upper_unit (c : N) : N :=
  if (97 <=? c) && (c <=? 122) then c - 32 else c.

(** Under [i] without [u], two units match when their upper cases agree,
    and a unit above 127 is never identified with an ASCII one. *)
Definition ci_eq (c p : N) : bool := ascii_upper_unit c =? ascii_upper_unit p.

Fixpoint ci_prefix (p s : jsstr) : bool :=
  match p, s with
  | [], _ => true
  | a :: p', b :: s' => ci_eq b a && ci_prefix p' s'
  | _ :: _, [] => false
  end.

(** [.] matches every unit but the line terminators LF, CR, LS and PS. *)
Definition is_line_terminator (c : N) : bool :=
  (c =? 10) || (c =? 13) || (c =? 8232) || (c =? 8233).

Definition title_open : jsstr := js "<title>".
Definition title_close : jsstr := js "</title>".

(** The lazy [(.*?)]: the shortest capture followed by [</title>]. *)
Fixpoint lazy_capture (s : jsstr) : option jsstr :=
  if ci_prefix title_close s then Some []
  else match s with
       | [] => None
       | c :: s' =>
           if is_line_terminator c then None
           else match lazy_capture s' with
                | Some t => Some (c :: t)
                | None => None
                end
       end.

Definition title_at (s : jsstr) : option jsstr :=
  if ci_prefix title_open s then lazy_capture (drop 7 s) else None.

(** [content.match(...)] and its group 1: the leftmost match. *)
Fixpoint title_match (s : jsstr) : option jsstr :=
  match title_at s with
  | Some t => Some t
  | None => match s with [] => None | _ :: s' => title_match s' end
  end.

(** ** The video-id pattern of line 71:
    [/(?:youtube\.com\/watch\?v=|youtu\.be\/)([^&\n?#]+)/] *)

(** [[^&\n?#]]. *)
Definition id_char (c : N) : bool :=
  negb ((c =? 38) || (c =? 10) || (c =? 63) || (c =? 35)).

Definition watch_prefix : jsstr := js "youtube.com/watch?v=".
Definition short_prefix : jsstr := js "youtu.be/".

(** One alternative followed by the greedy [([^&\n?#]+)]. *)
Definition id_after (pfx s : jsstr) : option jsstr :=
  if is_prefix pfx s then
    match span id_char (drop (length pfx) s) with
    | (c :: id, _) => Some (c :: id)
    | _ => None
    end
  else None.

Definition video_id_at (s : jsstr) : option jsstr :=
  match id_after watch_prefix s with
  | Some id => Some id
  | None => id_after short_prefix s
  end.

(** [contentData.url.match(...)] and its group 1. *)
Fixpoint video_id (s : jsstr) : option jsstr :=
  match video_id_at s with
  | Some id => Some id
  | None => match s with [] => None | _ :: s' => video_id s' end
  end.

Local Close Scope N_scope.

(** * Lemmas *)

Lemma span_spec (p : N -> bool) (s a b : jsstr) :
  span p s = (a, b) ->
  s = a ++ b /\ Forall (fun c => p c = true) a /\ (forall c r, b = c :: r -> p c = false).
Proof.
  revert a b. induction s as [|c s IH]; intros a b; simpl.
  - intros [= <- <-]. repeat split; [constructor | done].
  - destruct (p c) eqn:E.
    + destruct (span p s) as [a' b'] eqn:Hs. intros [= <- <-].
      destruct (IH a' b' eq_refl) as (-> & Ha & Hb). repeat split; [by constructor | done].
    + intros [= <- <-]. repeat split; [constructor | by intros ?? [= <- _]].
Qed.

(** [span] splits a string at the first unit outside the class. *)
Lemma span_app (p : N -> bool) (a b : jsstr) :
  Forall (fun c => p c = true) a -> (forall c r, b = c :: r -> p c = false) ->
  span p (a ++ b) = (a, b).
Proof.
  intros Ha Hb. induction Ha as [|c a Hc Ha IH]; simpl.
  - destruct b as [|c r]; simpl; [done|]. by rewrite (Hb c r eq_refl).
  - by rewrite Hc, IH.
Qed.

Ltac span_cases H :=
  let a := fresh "a" in let b := fresh "b" in let E := fresh "Espan" in
  destruct (span _ _) as [a b] eqn:E; apply span_spec in E as (-> & ? & ?).

(** C39. [match_num_dot] accepts exactly the strings of [/^\d+\./]. *)
Lemma match_num_dot_spec (s r : jsstr) :
  match_num_dot s = Some r <->
  exists ds, ds <> [] /\ Forall (fun c => is_digit c = true) ds /\ s = ds ++ 46%N :: r.
Proof.
  unfold match_num_dot. split.
  - span_cases H. destruct a as [|d ds]; [done|].
    destruct b as [|c b]; [done|]. case_if; [|done].
    apply N.eqb_eq in E as ->. intros [= ->]. by exists (d :: ds).
  - intros (ds & Hne & Hds & ->). rewrite span_app by (done || by intros ?? [= <- _]).
    destruct ds; [done|]. by rewrite N.eqb_refl.
Qed.

Lemma match_paren_num_spec (s r : jsstr) :
  match_paren_num s = Some r <->
  exists ds, ds <> [] /\ Forall (fun c => is_digit c = true) ds /\ s = 40%N :: ds ++ 41%N :: r.
Proof.
  unfold match_paren_num. split.
  - destruct s as [|c s]; [done|]. case_if; [|done]. apply N.eqb_eq in E as ->.
    span_cases H. destruct a as [|d ds]; [done|].
    destruct b as [|c b]; [done|]. case_if; [|done].
    apply N.eqb_eq in E as ->. intros [= ->]. by exists (d :: ds).
  - intros (ds & Hne & Hds & ->). rewrite N.eqb_refl.
    rewrite span_app by (done || by intros ?? [= <- _]).
    destruct ds; [done|]. by rewrite N.eqb_refl.
Qed.

(** ** The cleaned point is a suffix of the line *)

Lemma drop_while_suffix_of (p : N -> bool) (s : jsstr) : drop_while p s `suffix_of` s.
Proof. destruct (drop_while_suffix p s) as [pre [Hs _]]. exists pre. done. Qed.

Lemma match_num_dot_suffix (s r : jsstr) : match_num_dot s = Some r -> r `suffix_of` s.
Proof.
  intros (ds & _ & _ & ->)%match_num_dot_spec. exists (ds ++ [46%N]). by rewrite <- app_assoc.
Qed.

Lemma match_bullet_suffix (s r : jsstr) : match_bullet s = Some r -> r `suffix_of` s.
Proof.
  destruct s as [|c s]; simpl; [done|]. case_if; [|done]. intros [= <-]. by exists [c].
Qed.

Lemma match_paren_num_suffix (s r : jsstr) : match_paren_num s = Some r -> r `suffix_of` s.
Proof.
  intros (ds & _ & _ & ->)%match_paren_num_spec. exists (40%N :: ds ++ [41%N]).
  simpl. by rewrite <- app_assoc.
Qed.

Lemma strip_marker_suffix (m : jsstr -> option jsstr) (s : jsstr) :
  (forall r, m s = Some r -> r `suffix_of` s) -> strip_marker m s `suffix_of` s.
Proof.
  intros Hm. unfold strip_marker. destruct (m s) as [r|] eqn:E; [|done].
  etrans; [apply drop_while_suffix_of | by apply Hm].
Qed.

(** What line 212 keeps of a line is a suffix of it. *)
Lemma clean_point_suffix (line : jsstr) : clean_point line `suffix_of` line.
Proof.
  unfold clean_point.
  etrans; [apply strip_marker_suffix, match_paren_num_suffix|].
  etrans; [apply strip_marker_suffix, match_bullet_suffix|].
  apply strip_marker_suffix, match_num_dot_suffix.
Qed.

#[export] Hint Resolve clean_point_suffix drop_while_suffix_of : js.

(** ** The video id *)

(** A non-empty maximal run of id units, followed by [post]. *)
Definition id_run (id post : jsstr) : Prop :=
  id <> [] /\ Forall (fun c => id_char c = true) id /\
  (forall c r, post = c :: r -> id_char c = false).

Lemma id_after_spec (pfx s id : jsstr) :
  id_after pfx s = Some id -> exists post, s = pfx ++ id ++ post /\ id_run id post.
Proof.
  unfold id_after. case_if; [|done]. apply is_prefix_spec in E as [r ->].
  rewrite drop_app_length. span_cases H.
  destruct a as [|c a]; [done|]. intros [= <-]. by exists b.
Qed.

Lemma video_id_at_spec (s id : jsstr) :
  video_id_at s = Some id ->
  exists pfx post, s = pfx ++ id ++ post /\ (pfx = watch_prefix \/ pfx = short_prefix) /\
    id_run id post.
Proof.
  unfold video_id_at. destruct (id_after watch_prefix s) as [i|] eqn:E1.
  - intros [= <-]. destruct (id_after_spec _ _ _ E1) as (post & ? & ?). eauto 10.
  - intros (post & ? & ?)%id_after_spec. eauto 10.
Qed.

(** The id found is a non-empty maximal run of units outside [&], LF,
    [?] and [#], right after one of the two URL shapes. *)
Lemma video_id_spec (url id : jsstr) :
  video_id url = Some id ->
  exists pre pfx post, url = pre ++ pfx ++ id ++ post /\
    (pfx = watch_prefix \/ pfx = short_prefix) /\ id_run id post.
Proof.
  induction url as [|c url IH]; cbn [video_id];
    match goal with |- context [video_id_at ?u] => destruct (video_id_at u) as [i|] eqn:E end;
    try (intros [= <-]; destruct (video_id_at_spec _ _ E) as (pfx & post & ? & ?);
         by exists [], pfx, post).
  intros (pre & pfx & post & -> & ?)%IH. by exists (c :: pre), pfx, post.
Qed.

Lemma id_after_none (pfx s : jsstr) :
  id_after pfx s = None <-> forall c r, s = pfx ++ c :: r -> id_char c = false.
Proof.
  unfold id_after. destruct (is_prefix pfx s) eqn:E.
  - apply is_prefix_spec in E as [t ->]. rewrite drop_app_length.
    destruct t as [|c0 t]; simpl.
    + split; [|done]. intros _ c r Heq. apply app_inv_head in Heq. discriminate.
    + destruct (id_char c0) eqn:Ec.
      * destruct (span id_char t). split; [discriminate|]. intros H. by rewrite (H c0 t eq_refl) in Ec.
      * split; [|done]. intros _ c r Heq. apply app_inv_head in Heq. by injection Heq as <- _.
  - split; [|done]. intros _ c r ->. exfalso.
    assert (is_prefix pfx (pfx ++ c :: r) = true) by (apply is_prefix_spec; eauto). congruence.
Qed.

Lemma video_id_at_none (s : jsstr) :
  video_id_at s = None <->
  forall pfx c r, s = pfx ++ c :: r -> pfx = watch_prefix \/ pfx = short_prefix -> id_char c = false.
Proof.
  unfold video_id_at. destruct (id_after watch_prefix s) eqn:E1.
  - split; [discriminate|]. intros H.
    assert (id_after watch_prefix s = None) by (apply id_after_none; intros c r Heq; eauto). congruence.
  - rewrite id_after_none. rewrite id_after_none in E1. split.
    + intros H2 pfx c r -> [-> | ->]; eauto.
    + intros H c r ->. eauto.
Qed.

(** C38. The video-id pattern finds nothing exactly when no occurrence of
    [youtube.com/watch?v=] or [youtu.be/] in the URL is followed by a
    unit of [[^&\n?#]]: whatever the rest of the URL, a link of another
    shape (a [/shorts/] or [/embed/] link, a [m.youtube.com/v/] link)
    gives no id, and the extractor falls back to the stub. With
    [video_id_spec], the id found is a maximal run right after the
    leftmost such occurrence. *)
Theorem video_id_none (url : jsstr) :
  video_id url = None <->
  forall pre pfx c r, url = pre ++ pfx ++ c :: r -> pfx = watch_prefix \/ pfx = short_prefix ->
    id_char c = false.
Proof.
  induction url as [|c0 url IH]; cbn [video_id].
  - split; [|done]. intros _ pre pfx c r Heq. apply (f_equal length) in Heq.
    rewrite !length_app in Heq. simpl in Heq. lia.
  - destruct (video_id_at (c0 :: url)) eqn:E.
    + split; [discriminate|]. intros H.
      assert (video_id_at (c0 :: url) = None) by (apply video_id_at_none; intros pfx c r Heq; exact (H [] pfx c r Heq)).
      congruence.
    + rewrite IH. rewrite video_id_at_none in E. split.
      * intros H [|c1 pre] pfx c r Heq Hp; simpl in Heq; [by eapply E|].
        injection Heq as -> Heq. by eapply H.
      * intros H pre pfx c r Heq Hp. apply (H (c0 :: pre) pfx c r); [by rewrite Heq|done].
Qed.

(** ** The title *)

Lemma ci_prefix_spec (p s : jsstr) :
  ci_prefix p s = true ->
  exists o r, s = o ++ r /\ length o = length p /\ ci_prefix p o = true.
Proof.
  revert s. induction p as [|a p IH]; intros [|b s]; simpl; try done.
  - intros _. by exists [], [].
  - intros _. by exists [], (b :: s).
  - intros [Hab (o & r & -> & Hl & Ho)%IH]%andb_true_iff.
    exists (b :: o), r. simpl. by rewrite Hab, Ho, Hl.
Qed.

Definition no_line_terminator (t : jsstr) : Prop :=
  Forall (fun c => is_line_terminator c = false) t.

(** The lazy capture stops at the first [</title>] and never crosses a
    line terminator. *)
Lemma lazy_capture_spec (s t : jsstr) :
  lazy_capture s = Some t ->
  exists post, s = t ++ post /\ ci_prefix title_close post = true /\ no_line_terminator t.
Proof.
  revert t. induction s as [|c s IH]; intros t; simpl; [done|].
  case_if; [intros [= <-]; exists (c :: s); split; [done|split; [done|constructor]]|].
  case_if; [done|]. destruct (lazy_capture s) as [t'|] eqn:Et; [|done].
  intros [= <-]. destruct (IH t' eq_refl) as (post & -> & Hc & Ht).
  exists post. split; [done|split; [done|by constructor]].
Qed.

Lemma lazy_capture_shortest (s t : jsstr) (k : nat) :
  lazy_capture s = Some t -> k < length t -> ci_prefix title_close (drop k s) = false.
Proof.
  revert t k. induction s as [|c s IH]; intros t k; simpl; [done|].
  case_if; [intros [= <-]; simpl; lia|].
  case_if; [done|]. destruct (lazy_capture s) as [t'|] eqn:Et; [|done].
  intros [= <-] Hk. destruct k as [|k]; [done|]. apply (IH t'); [done|simpl in Hk; lia].
Qed.

Lemma title_at_spec (s t : jsstr) :
  title_at s = Some t ->
  exists o post, s = o ++ t ++ post /\ length o = 7 /\
    ci_prefix title_open o = true /\ ci_prefix title_close post = true /\ no_line_terminator t.
Proof.
  unfold title_at. case_if; [|done]. intros Ht.
  apply ci_prefix_spec in E as (o & r & -> & Hl & Ho).
  rewrite drop_app_le, drop_ge, app_nil_l in Ht by (simpl in Hl; lia).
  apply lazy_capture_spec in Ht as (post & -> & Hc & Ht). by exists o, post.
Qed.

(** Group 1 of the title pattern: a [<title>] tag in any case, then the
    capture without line terminator, then a [</title>] tag. *)
Lemma title_match_spec (s t : jsstr) :
  title_match s = Some t ->
  exists pre o post, s = pre ++ o ++ t ++ post /\ length o = 7 /\
    ci_prefix title_open o = true /\ ci_prefix title_close post = true /\ no_line_terminator t.
Proof.
  induction s as [|c s IH]; cbn [title_match];
    match goal with |- context [title_at ?u] => destruct (title_at u) as [t'|] eqn:E end;
    try (intros [= <-]; destruct (title_at_spec _ _ E) as (o & post & ? & ?);
         by exists [], o, post).
  intros (pre & o & post & -> & ?)%IH. by exists (c :: pre), o, post.
Qed.

(** * Concrete URLs and pages *)

Local Open Scope string_scope.

(** The two URL shapes give the id up to [&], [?] or [#]; other shapes
    of YouTube URLs (shorts, embed) give no id, and a path after a
    [youtu.be] id is kept in the id. *)
Theorem video_id_url_shapes :
  video_id (js "https://www.youtube.com/watch?v=dQw4w9WgXcQ&t=42s") = Some (js "dQw4w9WgXcQ") /\
  video_id (js "https://youtu.be/dQw4w9WgXcQ?si=abc") = Some (js "dQw4w9WgXcQ") /\
  video_id (js "https://www.youtube.com/shorts/dQw4w9WgXcQ") = None /\
  video_id (js "https://www.youtube.com/embed/dQw4w9WgXcQ") = None /\
  video_id (js "https://youtu.be/dQw4w9WgXcQ/extra") = Some (js "dQw4w9WgXcQ/extra").
Proof. repeat split; vm_compute; reflexivity. Qed.

(** The title tag is matched in any case, but a title that spans lines
    is not matched at all ([.] stops at line terminators), so the title
    falls back to "Article". *)
Theorem title_match_pages :
  title_match (js "<html><TITLE>Test</Title></html>") = Some (js "Test") /\
  title_match (js "<title>A</title><title>B</title>") = Some (js "A") /\
  title_match (js "<title>" ++ [LF] ++ js "  My Page" ++ [LF] ++ js "</title>") = None.
Proof. repeat split; vm_compute; reflexivity. Qed.

Local Close Scope string_scope.

Lemma video_id_spec_witness :
  video_id (js "https://youtu.be/abc?x=1") = Some (js "abc") /\
  exists pre pfx post, js "https://youtu.be/abc?x=1" = pre ++ pfx ++ js "abc" ++ post /\
    (pfx = watch_prefix \/ pfx = short_prefix) /\ id_run (js "abc") post.
Proof.
  assert (H : video_id (js "https://youtu.be/abc?x=1") = Some (js "abc")) by (vm_compute; reflexivity).
  split; [exact H|]. exact (video_id_spec _ _ H).
Defined.

Lemma title_match_spec_witness :
  title_match (js "<p><title>Test</title>") = Some (js "Test") /\
  exists pre o post, js "<p><title>Test</title>" = pre ++ o ++ js "Test" ++ post /\ length o = 7 /\
    ci_prefix title_open o = true /\ ci_prefix title_close post = true /\
    no_line_terminator (js "Test").
Proof.
  assert (H : title_match (js "<p><title>Test</title>") = Some (js "Test")) by (vm_compute; reflexivity).
  split; [exact H|]. exact (title_match_spec _ _ H).
Defined.
