(* ===== verification/KeyPoints.v ===== *)
(** * The response parser of [processContent]

    Lines 187-248 of [src/contentProcessor.js]: the raw answer of the
    model is split into lines, the first line that looks like a key-points
    header is searched, the numbered or bulleted lines after it are
    collected (at most ten, each cleaned of its marker and kept when its
    length is in [11, 199]), and the first five become the key points
    when at least three were found; otherwise the five placeholders stay.
    Independently, the text before the first of a narrower set of
    headers, trimmed and cut at 2000 code units plus ["..."], is what the
    speech synthesiser reads.

    The whole parser is a Section over the [toLowerCase] instance: the
    theorems hold for any case mapping that lowers ASCII. *)

From Stdlib Require Import String Ascii NArith ZArith Lia.
From stdpp Require Import base list numbers.
From S2P Require Import Prelude JsString Regex.

Section Parser.
Context `{LC : LowerCase}.

(** Line 187. *)
Definition placeholder_points : list jsstr :=
  [js "Key point 1"; js "Key point 2"; js "Key point 3"; js "Key point 4"; js "Key point 5"].

(** Lines 195-200: the header test on [lines[i].toLowerCase().trim()]. *)
Definition is_header_line (line : jsstr) : bool :=
  let l := trim (to_lower line) in
  includes l (js "key learning points") ||
  includes l (js "key points") ||
  includes l (js "learning points") ||
  includes l (js "actionable takeaways") ||
  (includes l (js "key") && includes l (js "points")).

(** Lines 191-204: [keyPointsStart], with [None] for [-1]. *)
Definition key_points_start (lines : list jsstr) : option nat :=
  find_index is_header_line lines.

(** Line 213: the accepted lengths. *)
Definition valid_point_length (p : jsstr) : bool :=
  (10 <? length p) && (length p <? 200).

(** Line 216: [line === '' || line.startsWith('**') || line.startsWith('#')]. *)
Definition is_skippable (line : jsstr) : bool :=
  match line with [] => true | _ => false end ||
  starts_with line (js "**") || starts_with line (js "#").

(** Lines 208-222, the loop over [lines[keyPointsStart + 1 ..]] with the
    array [points]; the loop condition [points.length < 10] is tested
    before each line. *)
Fixpoint collect_points (ls : list jsstr) (points : list jsstr) : list jsstr :=
  match ls with
  | [] => points
  | raw :: rest =>
      if length points <? 10 then
        let line := trim raw in
        if is_point_line line then
          let cleanPoint := clean_point line in
          if valid_point_length cleanPoint
          then collect_points rest (points ++ [cleanPoint])
          else collect_points rest points
        else if is_skippable line then collect_points rest points
        else if 0 <? length points then points
        else collect_points rest points
      else points
  end.

(** Lines 187-226: the final [keyPoints]. *)
Definition parse_key_points (summary : jsstr) : list jsstr :=
  let lines := split_on LF summary in
  match key_points_start lines with
  | Some start =>
      let points := collect_points (drop (S start) lines) [] in
      if 3 <=? length points then take 5 points else placeholder_points
  | None => placeholder_points
  end.

(** Lines 235-239: the narrower header test of the speech excerpt. *)
Definition is_tts_header_line (line : jsstr) : bool :=
  includes (to_lower line) (js "key learning points") ||
  includes (to_lower line) (js "key points") ||
  includes (to_lower line) (js "learning points").

(** Lines 231-248: [ttsText]. *)
Definition tts_text (summary : jsstr) : jsstr :=
  let ttsLines := split_on LF summary in
  let t := match find_index is_tts_header_line ttsLines with
           | Some keyPointsIndex => trim (join [LF] (take keyPointsIndex ttsLines))
           | None => summary
           end in
  if 2000 <? length t then substring t 0 2000 ++ js "..." else t.

(** ** Lemmas of the collection loop *)

Lemma valid_point_length_spec (p : jsstr) :
  valid_point_length p = true <-> 10 < length p < 200.
Proof. unfold valid_point_length. by rewrite andb_true_iff, !Nat.ltb_lt. Qed.

(** Every collected point has an accepted length. *)
Lemma collect_points_valid (ls points : list jsstr) :
  Forall (fun p => valid_point_length p = true) points ->
  Forall (fun p => valid_point_length p = true) (collect_points ls points).
Proof.
  revert points. induction ls as [|raw ls IH]; intros points Hp; simpl; [done|].
  repeat case_if; auto with js.
Qed.

(** The loop never holds more than ten points. *)
Lemma collect_points_le10 (ls points : list jsstr) :
  length points <= 10 -> length (collect_points ls points) <= 10.
Proof.
  revert points. induction ls as [|raw ls IH]; intros points Hp; simpl; [done|].
  repeat case_if; try apply IH; rewrite ?length_app; simpl; try apply Nat.ltb_lt in E; lia.
Qed.

(** The loop only appends, and what it appends are cleaned lines of its
    input, in their order. *)
Lemma collect_points_extends (ls points : list jsstr) :
  exists added, collect_points ls points = points ++ added /\
    added `sublist_of` map (fun l => clean_point (trim l)) ls.
Proof.
  revert points. induction ls as [|raw ls IH]; intros points; simpl.
  - exists []. by rewrite app_nil_r.
  - repeat case_if; try (exists []; rewrite app_nil_r; split; [done|apply sublist_nil_l]);
      try (destruct (IH points) as (added & -> & Hs); exists added; split; [done|by constructor]).
    destruct (IH (points ++ [clean_point (trim raw)])) as (added & -> & Hs).
    exists (clean_point (trim raw) :: added). rewrite <- app_assoc. split; [done|by constructor].
Qed.

(** A run of well-formed point lines is collected whole while fewer than
    ten points are held. *)
Definition point_line_ok (raw : jsstr) : Prop :=
  is_point_line (trim raw) = true /\ valid_point_length (clean_point (trim raw)) = true.

Lemma collect_points_run (pts rest points : list jsstr) :
  Forall point_line_ok pts -> length points + length pts <= 10 ->
  collect_points (pts ++ rest) points =
  collect_points rest (points ++ map (fun l => clean_point (trim l)) pts).
Proof.
  intros Hpts. revert points. induction Hpts as [|raw pts [Hl Hv] _ IH]; intros points Hlen.
  - by rewrite app_nil_r.
  - simpl in *. assert ((length points <? 10) = true) as -> by (apply Nat.ltb_lt; lia).
    rewrite Hl, Hv, IH by (rewrite length_app; simpl; lia). by rewrite <- app_assoc.
Qed.

(** A line that is neither a point, nor blank, nor a heading ends the scan
    once a point is held. *)
Lemma collect_points_stop (stop : jsstr) (rest points : list jsstr) :
  is_point_line (trim stop) = false -> is_skippable (trim stop) = false ->
  0 < length points < 10 -> collect_points (stop :: rest) points = points.
Proof.
  intros Hp Hs Hlen. simpl.
  assert ((length points <? 10) = true) as -> by (apply Nat.ltb_lt; lia).
  rewrite Hp, Hs. assert ((0 <? length points) = true) as -> by (apply Nat.ltb_lt; lia). done.
Qed.

(** ** Properties of the parser *)

Abbreviation clean_line := (fun l => clean_point (trim l)) (only parsing).

(** The lines of a response joined with LF, as [split('\n')] sees them. *)
Lemma split_response (ls : list jsstr) :
  ls <> [] -> Forall (fun l => LF ∉ l) ls -> split_on LF (join [LF] ls) = ls.
Proof. apply split_join. Qed.

Lemma key_points_start_at (pre : list jsstr) (hdr : jsstr) (rest : list jsstr) :
  Forall (fun l => is_header_line l = false) pre -> is_header_line hdr = true ->
  key_points_start (pre ++ hdr :: rest) = Some (length pre).
Proof. apply find_index_first. Qed.

Lemma drop_after_header (pre : list jsstr) (hdr : jsstr) (rest : list jsstr) :
  drop (S (length pre)) (pre ++ hdr :: rest) = rest.
Proof. by rewrite <- Nat.add_1_r, <- drop_drop, drop_app_length. Qed.

(** The parse of a response with a header line at index [length pre]. *)
Lemma parse_key_points_at (pre : list jsstr) (hdr : jsstr) (rest : list jsstr) :
  Forall (fun l => is_header_line l = false) pre -> is_header_line hdr = true ->
  Forall (fun l => LF ∉ l) (pre ++ hdr :: rest) ->
  parse_key_points (join [LF] (pre ++ hdr :: rest)) =
  let points := collect_points rest [] in
  if 3 <=? length points then take 5 points else placeholder_points.
Proof.
  intros Hpre Hhdr Hlf. unfold parse_key_points.
  rewrite split_response by (done || by destruct pre).
  by rewrite key_points_start_at, drop_after_header.
Qed.

(** C2. Whatever the answer of the model, the key points are the five
    placeholders, or between three and five points each of 11 to 199
    code units. *)
Theorem parse_key_points_bounds (summary : jsstr) :
  parse_key_points summary = placeholder_points \/
  (3 <= length (parse_key_points summary) <= 5 /\
   Forall (fun p => 10 < length p < 200) (parse_key_points summary)).
Proof.
  unfold parse_key_points.
  destruct (key_points_start (split_on LF summary)) as [start|]; [|by left].
  set (points := collect_points _ []). case_if; [right|by left].
  apply Nat.leb_le in E. rewrite length_take. split; [lia|].
  apply Forall_firstn.
  eapply Forall_impl; [|exact (collect_points_valid _ [] (Forall_nil _))].
  intros p. apply valid_point_length_spec.
Qed.

(** C24. Real key points come, in their order, from the cleaned lines after
    the first header line. *)
Theorem parse_key_points_in_order (summary : jsstr) :
  parse_key_points summary = placeholder_points \/
  exists start, key_points_start (split_on LF summary) = Some start /\
    parse_key_points summary `sublist_of`
      map clean_line (drop (S start) (split_on LF summary)).
Proof.
  unfold parse_key_points.
  destruct (key_points_start (split_on LF summary)) as [start|]; [|by left].
  case_if; [right|by left]. exists start. split; [done|].
  destruct (collect_points_extends (drop (S start) (split_on LF summary)) []) as (added & -> & Hs).
  etrans; [apply sublist_take|done].
Qed.

(** Without a header line the placeholders are returned. *)
Theorem parse_key_points_no_header (summary : jsstr) :
  Forall (fun l => is_header_line l = false) (split_on LF summary) ->
  parse_key_points summary = placeholder_points.
Proof.
  intros H. unfold parse_key_points, key_points_start.
  by apply find_index_None in H as ->.
Qed.

(** C25. A header followed by at least five well-formed point lines gives
    exactly the first five, cleaned, whatever follows them. *)
Theorem parse_key_points_first_five (pre : list jsstr) (hdr : jsstr) (pts post : list jsstr) :
  Forall (fun l => is_header_line l = false) pre -> is_header_line hdr = true ->
  Forall point_line_ok pts -> 5 <= length pts ->
  Forall (fun l => LF ∉ l) (pre ++ hdr :: pts ++ post) ->
  parse_key_points (join [LF] (pre ++ hdr :: pts ++ post)) = take 5 (map clean_line pts).
Proof.
  intros Hpre Hhdr Hpts Hlen Hlf. rewrite parse_key_points_at by done. cbv zeta.
  set (k := Nat.min 10 (length pts)).
  assert (pts ++ post = take k pts ++ (drop k pts ++ post)) as -> by (by rewrite app_assoc, take_drop).
  rewrite collect_points_run; [|by apply Forall_firstn|rewrite length_take; simpl; lia].
  destruct (collect_points_extends (drop k pts ++ post) ([] ++ map clean_line (take k pts)))
    as (added & -> & _).
  assert (length (map clean_line (take k pts)) = k) as Hk by (rewrite length_map, length_take; lia).
  rewrite app_nil_l, length_app, Hk. case_if; [|apply Nat.leb_gt in E; lia].
  rewrite take_app_le by lia. rewrite <- !firstn_map, take_take. f_equal. lia.
Qed.

(** A header followed by three or four well-formed point lines and then
    a prose line gives those three or four points: fewer than five. *)
Theorem parse_key_points_short_block (pre : list jsstr) (hdr : jsstr) (pts : list jsstr)
    (stop : jsstr) (rest : list jsstr) :
  Forall (fun l => is_header_line l = false) pre -> is_header_line hdr = true ->
  Forall point_line_ok pts -> 3 <= length pts <= 4 ->
  is_point_line (trim stop) = false -> is_skippable (trim stop) = false ->
  Forall (fun l => LF ∉ l) (pre ++ hdr :: pts ++ stop :: rest) ->
  parse_key_points (join [LF] (pre ++ hdr :: pts ++ stop :: rest)) = map clean_line pts.
Proof.
  intros Hpre Hhdr Hpts Hlen Hp Hs Hlf. rewrite parse_key_points_at by done. cbv zeta.
  rewrite collect_points_run, collect_points_stop by (done || simpl; lia || rewrite length_map; lia).
  rewrite app_nil_l, length_map. case_if; [|apply Nat.leb_gt in E; lia].
  apply take_ge. rewrite length_map. lia.
Qed.

(** C37. The fallback header test is a substring test: any line whose
    lowered, trimmed text contains "key" and "points" anywhere (as in
    "keyboard" and "breakpoints") counts as the key-points header.  When
    such a narrative line comes before the real header and is followed by
    a short list of three or four well-formed point lines and a prose
    line, the key points are that list, whatever follows, the real
    "Key Learning Points" header and its five points included. *)
Theorem keyboard_line_is_header (pre : list jsstr) (l : jsstr) (pts : list jsstr) (stop : jsstr)
    (rest : list jsstr) :
  Forall (fun x => is_header_line x = false) pre ->
  includes (trim (to_lower l)) (js "key") = true -> includes (trim (to_lower l)) (js "points") = true ->
  Forall point_line_ok pts -> 3 <= length pts <= 4 ->
  is_point_line (trim stop) = false -> is_skippable (trim stop) = false ->
  Forall (fun x => LF ∉ x) (pre ++ l :: pts ++ stop :: rest) ->
  parse_key_points (join [LF] (pre ++ l :: pts ++ stop :: rest)) = map clean_line pts.
Proof.
  intros Hpre Hk Hp. apply parse_key_points_short_block; [done|].
  unfold is_header_line. rewrite Hk, Hp. by rewrite !orb_true_r.
Qed.

(** The text given to speech synthesis is at most 2003 code units:
    2000 and the ellipsis. *)
Theorem tts_text_length (summary : jsstr) : length (tts_text summary) <= 2003.
Proof.
  unfold tts_text. set (t := match _ with Some _ => _ | None => _ end).
  case_if.
  - rewrite length_app, substring_0 by lia. pose proof (firstn_length_le_self (Z.to_nat 2000) t).
    simpl. lia.
  - apply Nat.ltb_ge in E. lia.
Qed.

End Parser.

(** * Concrete answers of the model, evaluated with the ASCII case mapping *)

Local Open Scope string_scope.

Definition sample_plain : jsstr := js_lines ["A short narrative."; "Nothing else here."].

Definition sample_pre : list jsstr := map js ["Python decorators wrap functions."].
Definition sample_hdr : jsstr := js "**Key Learning Points:**".
Definition sample_pts : list jsstr := map js
  ["1. Learn how closures capture variables";
   "2. Write a timing decorator yourself";
   "- Use functools.wraps to keep metadata";
   "(4) Stack decorators in a deliberate order";
   "5. Test decorated functions in isolation"].
Definition sample_post : list jsstr := map js [""; "Happy coding!"].

Local Close Scope string_scope.

Lemma parse_key_points_no_header_witness :
  Forall (fun l => is_header_line l = false) (split_on LF sample_plain) /\
  parse_key_points sample_plain = placeholder_points.
Proof.
  split; [decide_by_compute|]. apply parse_key_points_no_header. decide_by_compute.
Defined.

Lemma parse_key_points_first_five_witness :
  Forall (fun l => is_header_line l = false) sample_pre /\ is_header_line sample_hdr = true /\
  Forall point_line_ok sample_pts /\ 5 <= length sample_pts /\
  Forall (fun l => LF ∉ l) (sample_pre ++ sample_hdr :: sample_pts ++ sample_post) /\
  parse_key_points (join [LF] (sample_pre ++ sample_hdr :: sample_pts ++ sample_post)) =
  take 5 (map (fun l => clean_point (trim l)) sample_pts).
Proof.
  assert (H1 : Forall (fun l => is_header_line l = false) sample_pre) by decide_by_compute.
  assert (H2 : Forall point_line_ok sample_pts) by (repeat constructor).
  assert (H3 : Forall (fun l => LF ∉ l) (sample_pre ++ sample_hdr :: sample_pts ++ sample_post))
    by decide_by_compute.
  split; [done|]. split; [reflexivity|]. split; [done|]. split; [vm_compute; lia|].
  split; [done|]. apply parse_key_points_first_five; [done|reflexivity|done|vm_compute; lia|done].
Defined.

(** * Independence from the non-ASCII part of [toLowerCase] *)

Lemma is_header_line_ascii `{LC : LowerCase} (l : jsstr) :
  is_ascii l -> @is_header_line LC l = @is_header_line ascii_lower_case l.
Proof. intros H. unfold is_header_line. by rewrite (to_lower_ascii l H). Qed.

Lemma is_tts_header_line_ascii `{LC : LowerCase} (l : jsstr) :
  is_ascii l -> @is_tts_header_line LC l = @is_tts_header_line ascii_lower_case l.
Proof. intros H. unfold is_tts_header_line. by rewrite (to_lower_ascii l H). Qed.

Lemma key_points_start_ascii `{LC : LowerCase} (lines : list jsstr) :
  Forall is_ascii lines ->
  @key_points_start LC lines = @key_points_start ascii_lower_case lines.
Proof.
  intros H. apply find_index_ext. eapply Forall_impl; [|exact H]. apply is_header_line_ascii.
Qed.

(** On an ASCII answer every lawful [toLowerCase] gives the same parse. *)
Lemma parse_key_points_ascii `{LC : LowerCase} (summary : jsstr) :
  is_ascii summary -> @parse_key_points LC summary = @parse_key_points ascii_lower_case summary.
Proof.
  intros H. unfold parse_key_points.
  by rewrite key_points_start_ascii by (by apply split_on_ascii).
Qed.

Lemma tts_text_ascii `{LC : LowerCase} (summary : jsstr) :
  is_ascii summary -> @tts_text LC summary = @tts_text ascii_lower_case summary.
Proof.
  intros H. unfold tts_text.
  rewrite (find_index_ext _ (@is_tts_header_line ascii_lower_case)); [done|].
  eapply Forall_impl; [|apply (split_on_ascii LF _ H)]. apply is_tts_header_line_ascii.
Qed.

(** Evaluates a parse of a concrete ASCII answer, for every instance. *)
Ltac eval_parse :=
  rewrite ?parse_key_points_ascii, ?tts_text_ascii by decide_by_compute;
  rewrite ?key_points_start_ascii by (apply split_on_ascii; decide_by_compute);
  vm_compute; reflexivity.

Local Open Scope string_scope.

(** The answer of the scenario of the spec (section 8). *)
Definition spec_scenario : jsstr :=
  js_lines ["Narrative text"; ""; "**Key Learning Points:**"; "1. Learn A"; "2. Learn B"; "3. Learn C"].

Definition sample_short_pts : list jsstr := map js
  ["1. Measure before you optimise anything";
   "2. Cache results of pure computations";
   "3. Profile again after every change"].
Definition sample_stop : jsstr := js "These habits compound over time.".

(** An answer whose takeaways sit under an "Actionable Takeaways" header. *)
Definition takeaways_answer : jsstr :=
  js_lines ["Rust ownership explained in depth.";
            "Actionable Takeaways:";
            "1. Borrow instead of cloning large values";
            "2. Prefer slices over owned vectors in APIs";
            "3. Let the compiler guide lifetime fixes"].

(** A narrative line that mentions "key" and "points" inside other words. *)
Definition keyboard_answer : jsstr :=
  js_lines ["Debugging in VS Code.";
            "Learn the keyboard shortcuts for breakpoints first.";
            "- Open the Run and Debug view";
            "- Toggle a breakpoint with F9";
            "- Step over code with F10 key";
            "Then read on.";
            "**Key Learning Points:**";
            "1. Breakpoints pause execution at a line";
            "2. Watches show values as you step";
            "3. The call stack explains how you got here"].

(** A takeaway wrapped onto a second line. *)
Definition wrapped_answer : jsstr :=
  js_lines ["Intro to SQL joins.";
            "Key Points:";
            "1. An inner join keeps rows that match in";
            "both tables and drops the rest";
            "2. A left join keeps every row of the left table";
            "3. A cross join pairs every row with every row"].

Local Close Scope string_scope.

Lemma parse_key_points_short_block_witness :
  Forall (fun l => is_header_line l = false) sample_pre /\ is_header_line sample_hdr = true /\
  Forall point_line_ok sample_short_pts /\ 3 <= length sample_short_pts <= 4 /\
  is_point_line (trim sample_stop) = false /\ is_skippable (trim sample_stop) = false /\
  Forall (fun l => LF ∉ l) (sample_pre ++ sample_hdr :: sample_short_pts ++ sample_stop :: []) /\
  parse_key_points (join [LF] (sample_pre ++ sample_hdr :: sample_short_pts ++ sample_stop :: [])) =
  map (fun l => clean_point (trim l)) sample_short_pts.
Proof.
  assert (H1 : Forall (fun l => is_header_line l = false) sample_pre) by decide_by_compute.
  assert (H2 : Forall point_line_ok sample_short_pts) by (repeat constructor).
  assert (H3 : Forall (fun l => LF ∉ l) (sample_pre ++ sample_hdr :: sample_short_pts ++ [sample_stop]))
    by decide_by_compute.
  split; [done|]. split; [reflexivity|]. split; [done|]. split; [vm_compute; lia|].
  split; [reflexivity|]. split; [reflexivity|]. split; [done|].
  apply parse_key_points_short_block; (done || reflexivity || vm_compute; lia).
Defined.

(** The scenario of the spec does not give ["Learn A"; "Learn B";
    "Learn C"]: each cleaned point has 7 code units, below the 11 the code
    requires, so no point is kept and the placeholders stay. *)
Theorem spec_scenario_placeholders `{LC : LowerCase} :
  parse_key_points spec_scenario = placeholder_points.
Proof. eval_parse. Qed.

(** A header "Actionable Takeaways" is a key-points header for the
    parser but not for the speech excerpt: the key points are read from it
    and the whole answer, takeaways included, is spoken. *)
Theorem tts_text_reads_takeaways `{LC : LowerCase} :
  parse_key_points takeaways_answer =
    map js ["Borrow instead of cloning large values"; "Prefer slices over owned vectors in APIs";
            "Let the compiler guide lifetime fixes"]%string /\
  tts_text takeaways_answer = takeaways_answer.
Proof. split; eval_parse. Qed.

(** A narrative line containing "keyboard" and "breakpoints" passes the
    [key] and [points] test: the points are taken from the list after it,
    not from the real header further down. *)
Theorem keyboard_answer_points `{LC : LowerCase} :
  key_points_start (split_on LF keyboard_answer) = Some 1 /\
  parse_key_points keyboard_answer =
    map js ["Open the Run and Debug view"; "Toggle a breakpoint with F9";
            "Step over code with F10 key"]%string.
Proof. split; eval_parse. Qed.

(** A takeaway wrapped onto two lines ends the scan after the first
    point: one point is found, fewer than three, and all real points are
    replaced by the placeholders. *)
Theorem wrapped_point_drops_list `{LC : LowerCase} :
  parse_key_points wrapped_answer = placeholder_points.
Proof. eval_parse. Qed.

Local Open Scope string_scope.

Definition keyboard_pre : list jsstr := map js ["Debugging in VS Code."].
Definition keyboard_line : jsstr := js "Learn the keyboard shortcuts for breakpoints first.".
Definition keyboard_pts : list jsstr := map js
  ["- Open the Run and Debug view"; "- Toggle a breakpoint with F9"; "- Step over code with F10 key"].
Definition keyboard_stop : jsstr := js "Then read on.".
Definition keyboard_rest : list jsstr := map js
  ["**Key Learning Points:**"; "1. Breakpoints pause execution at a line";
   "2. Watches show values as you step"; "3. The call stack explains how you got here"].

Local Close Scope string_scope.

Lemma keyboard_line_is_header_witness :
  @parse_key_points ascii_lower_case
    (join [LF] (keyboard_pre ++ keyboard_line :: keyboard_pts ++ keyboard_stop :: keyboard_rest)) =
  map (fun l => clean_point (trim l)) keyboard_pts.
Proof.
  apply (@keyboard_line_is_header ascii_lower_case); decide_by_compute.
Defined.
