(* ===== verification/JsValue.v ===== *)
(** * JavaScript values as the code receives them

    axios hands the code the parsed JSON body of a response
    ([response.data]), the transcript library an array of objects, and
    [worker_threads] a structured clone.  [jsval] is that value space:
    [undefined], [null], booleans, integral numbers, strings, arrays and
    objects (fields in order, keys distinct as [JSON.parse] leaves them).
    Property reads follow V8: a read on [undefined] or [null] throws a
    [TypeError] with V8's message, a missing field is [undefined].
    [to_js_string] is ToString as template literals apply it, [truthy]
    is ToBoolean. *)

From Stdlib Require Import String Ascii NArith ZArith Lia DecimalString.
From stdpp Require Import base list numbers.
From S2P Require Import Prelude JsString.

#[warnings="-register-all"]
Inductive jsval : Type :=
| VUndef
| VNull
| VBool (b : bool)
| VNum (z : Z)
| VStr (s : jsstr)
| VArr (vs : list jsval)
| VObj (fields : list (jsstr * jsval)).

(** The exceptions the code can meet: an [Error] (thrown by the code or a
    library, axios included), a [TypeError] of the engine and the
    [SyntaxError] of [JSON.parse]. *)
Inductive js_error : Type :=
| Error (message : jsstr)
| TypeError (message : jsstr)
| SyntaxError (message : jsstr).

Definition error_message (e : js_error) : jsstr :=
  match e with Error m | TypeError m | SyntaxError m => m end.

(** A computation that returns a value or throws. *)
Inductive result (A : Type) : Type :=
| Ok (a : A)
| Throw (e : js_error).
Arguments Ok {A} a.
Arguments Throw {A} e.

(** ** Number to string (integral numbers) *)

Definition z_to_js (z : Z) : jsstr := js (NilZero.string_of_int (Z.to_int z)).

(** ** ToString and ToBoolean *)

Definition quote : jsstr := [39%N].

Fixpoint to_js_string (v : jsval) : jsstr :=
  match v with
  | VUndef => js "undefined"
  | VNull => js "null"
  | VBool true => js "true"
  | VBool false => js "false"
  | VNum z => z_to_js z
  | VStr s => s
  | VArr vs =>
      (* Array.prototype.join(','): null and undefined print as empty *)
      let fix go (l : list jsval) : list jsstr :=
        match l with
        | [] => []
        | VUndef :: l' | VNull :: l' => [] :: go l'
        | x :: l' => to_js_string x :: go l'
        end in
      join (js ",") (go vs)
  | VObj _ => js "[object Object]"
  end.

Definition truthy (v : jsval) : bool :=
  match v with
  | VUndef | VNull => false
  | VBool b => b
  | VNum z => negb (Z.eqb z 0)
  | VStr s => match s with [] => false | _ => true end
  | VArr _ | VObj _ => true
  end.

(** [x > 0] for the values a [length] property holds: a number, or
    [undefined] when the receiver has no such property. *)
Definition gt_zero (v : jsval) : bool :=
  match v with
  | VNum z => Z.ltb 0 z
  | VBool b => b
  | _ => false
  end.

(** ** Property reads *)

Fixpoint lookup_field (k : jsstr) (fs : list (jsstr * jsval)) : option jsval :=
  match fs with
  | [] => None
  | (k', v) :: fs' => if decide (k = k') then Some v else lookup_field k fs'
  end.

(** V8's message for a read on [undefined] or [null]. *)
Definition cannot_read (base : jsstr) (prop : jsstr) : js_error :=
  TypeError (js "Cannot read properties of " ++ base ++ js " (reading " ++
             quote ++ prop ++ quote ++ js ")").

(** [v.prop] *)
Definition get_prop (v : jsval) (prop : jsstr) : result jsval :=
  match v with
  | VUndef => Throw (cannot_read (js "undefined") prop)
  | VNull => Throw (cannot_read (js "null") prop)
  | VObj fs => Ok (match lookup_field prop fs with Some x => x | None => VUndef end)
  | VArr vs => Ok (if decide (prop = js "length") then VNum (Z.of_nat (length vs)) else VUndef)
  | VStr s => Ok (if decide (prop = js "length") then VNum (Z.of_nat (length s)) else VUndef)
  | VBool _ | VNum _ => Ok VUndef
  end.

(** [v[i]] for an array index. *)
Definition get_index (v : jsval) (i : nat) : result jsval :=
  match v with
  | VUndef => Throw (cannot_read (js "undefined") (z_to_js (Z.of_nat i)))
  | VNull => Throw (cannot_read (js "null") (z_to_js (Z.of_nat i)))
  | VArr vs => Ok (match vs !! i with Some x => x | None => VUndef end)
  | VStr s => Ok (match s !! i with Some c => VStr [c] | None => VUndef end)
  | VObj fs => Ok (match lookup_field (z_to_js (Z.of_nat i)) fs with Some x => x | None => VUndef end)
  | VBool _ | VNum _ => Ok VUndef
  end.

(** [v.method(...)] for a string method: a string receiver proceeds, a
    nullish one throws V8's read error, any other value throws
    "[expr] is not a function" ([expr] is the source text of the callee). *)
Definition string_receiver (v : jsval) (expr method : jsstr) : result jsstr :=
  match v with
  | VStr s => Ok s
  | VUndef => Throw (cannot_read (js "undefined") method)
  | VNull => Throw (cannot_read (js "null") method)
  | _ => Throw (TypeError (expr ++ js " is not a function"))
  end.

(** [v.map(f)] on an array receiver. *)
Definition array_receiver (v : jsval) (expr : jsstr) : result (list jsval) :=
  match v with
  | VArr vs => Ok vs
  | VUndef => Throw (cannot_read (js "undefined") (js "map"))
  | VNull => Throw (cannot_read (js "null") (js "map"))
  | _ => Throw (TypeError (expr ++ js " is not a function"))
  end.

(** [xs.map(f)] with a callback that may throw: the first exception of
    the left-to-right traversal propagates. *)
Fixpoint map_result {A B} (f : A -> result B) (xs : list A) : result (list B) :=
  match xs with
  | [] => Ok []
  | x :: xs' =>
      match f x with
      | Throw e => Throw e
      | Ok y => match map_result f xs' with Ok ys => Ok (y :: ys) | Throw e => Throw e end
      end
  end.

(** [array.join(sep)] over values: null and undefined print as empty. *)
Definition join_values (sep : jsstr) (vs : list jsval) : jsstr :=
  join sep (map (fun v => match v with VUndef | VNull => [] | _ => to_js_string v end) vs).

(** * Lemmas *)

Lemma get_prop_obj (fs : list (jsstr * jsval)) (k : jsstr) (v : jsval) :
  lookup_field k fs = Some v -> get_prop (VObj fs) k = Ok v.
Proof. simpl. by intros ->. Qed.

Lemma get_prop_nullish (v : jsval) (k : jsstr) :
  v = VUndef \/ v = VNull -> exists e, get_prop v k = Throw e.
Proof. intros [-> | ->]; eexists; reflexivity. Qed.

Lemma string_receiver_ok (v : jsval) (expr m s : jsstr) :
  string_receiver v expr m = Ok s <-> v = VStr s.
Proof. destruct v; simpl; split; congruence. Qed.

Lemma join_values_strings (sep : jsstr) (ss : list jsstr) :
  join_values sep (map VStr ss) = join sep ss.
Proof. unfold join_values. rewrite map_map. f_equal. apply map_id. Qed.
