(* ===== verification/Json.v ===== *)
(** * JSON.stringify and JSON.parse

    The key points travel from the worker to the renderer as JSON text:
    the [process-content] handler stores [JSON.stringify(result.keyPoints)]
    in [summaries.key_points] ([src/main.js], line 154) and the renderer
    reads them back with [JSON.parse(summary.key_points || '[]')]
    ([src/src/App.js], line 231).

    [stringify_strings] is [JSON.stringify] on an array of strings with
    the escaping of ES2019 ([QuoteJSONString]: the short escapes, [\u00XX]
    for the other control characters, [\uXXXX] for a lone surrogate, in
    lowercase hexadecimal).  [parse_json] is [JSON.parse] without reviver
    over code units: whitespace, literals, strings with every escape,
    arrays and objects (fields in order of first appearance, a repeated
    key replacing the value in place), and integral numbers.  A number
    with a fraction or an exponent is outside [jsval]: the parser answers
    [PUnsupported] for it.  Objects with array-index keys, which
    JavaScript enumerates first, are not reordered.

    The parser is a [Fixpoint] on fuel; the file proves that the fuel
    [parse_json] gives is never exhausted before the parse ends
    ([parse_json_fuel]) and that [JSON.parse] reads back what
    [JSON.stringify] writes ([parse_json_stringify]). *)

From Stdlib Require Import String Ascii NArith ZArith Lia Wf_nat.
From stdpp Require Import base list numbers.
From S2P Require Import Prelude JsString JsValue.

Local Open Scope N_scope.

(** ** QuoteJSONString *)

Definition hex_digit (d : N) : N := if d <? 10 then 48 + d else 87 + d.

(** [\uXXXX] in lowercase hexadecimal. *)
Definition unicode_escape (c : N) : jsstr :=
  [92; 117; hex_digit (c / 4096 mod 16); hex_digit (c / 256 mod 16);
   hex_digit (c / 16 mod 16); hex_digit (c mod 16)].

Definition is_high_surrogate (c : N) : bool := (55296 <=? c) && (c <=? 56319).
Definition is_low_surrogate (c : N) : bool := (56320 <=? c) && (c <=? 57343).

(** The short escapes of QuoteJSONString: backspace, tab, line feed, form
    feed, carriage return, the double quote and the backslash. *)
Definition short_escape (c : N) : option N :=
  if c =? 8 then Some 98 else if c =? 9 then Some 116 else if c =? 10 then Some 110
  else if c =? 12 then Some 102 else if c =? 13 then Some 114
  else if c =? 34 then Some 34 else if c =? 92 then Some 92 else None.

Fixpoint quote_units (s : jsstr) : jsstr :=
  match s with
  | [] => []
  | c :: s' =>
      match short_escape c with
      | Some e => [92; e] ++ quote_units s'
      | None =>
          if c <? 32 then unicode_escape c ++ quote_units s'
          else if is_high_surrogate c then
            match s' with
            | d :: s'' => if is_low_surrogate d then c :: d :: quote_units s''
                          else unicode_escape c ++ quote_units s'
            | [] => unicode_escape c
            end
          else if is_low_surrogate c then unicode_escape c ++ quote_units s'
          else c :: quote_units s'
      end
  end.

Definition quote_json (s : jsstr) : jsstr := [34] ++ quote_units s ++ [34].

(** [JSON.stringify] of an array of strings. *)
Definition stringify_strings (ks : list jsstr) : jsstr :=
  [91] ++ join [44] (map quote_json ks) ++ [93].

(** ** JSON.parse *)

Inductive parse_result (A : Type) : Type :=
| POk (a : A)
| PSyntax          (** a [SyntaxError] *)
| PUnsupported.    (** a number with a fraction or an exponent *)
Arguments POk {A} a.
Arguments PSyntax {A}.
Arguments PUnsupported {A}.

Definition pbind {A B} (r : parse_result A) (k : A -> parse_result B) : parse_result B :=
  match r with POk a => k a | PSyntax => PSyntax | PUnsupported => PUnsupported end.

Definition is_json_ws (c : N) : bool := (c =? 32) || (c =? 9) || (c =? 10) || (c =? 13).

Definition skip_ws (s : jsstr) : jsstr := drop_while is_json_ws s.

Definition hex_value (c : N) : option N :=
  if (48 <=? c) && (c <=? 57) then Some (c - 48)
  else if (97 <=? c) && (c <=? 102) then Some (c - 87)
  else if (65 <=? c) && (c <=? 70) then Some (c - 55)
  else None.

Definition hex4 (a b c d : N) : option N :=
  match hex_value a, hex_value b, hex_value c, hex_value d with
  | Some x, Some y, Some z, Some t => Some (((x * 16 + y) * 16 + z) * 16 + t)
  | _, _, _, _ => None
  end.

(** The escapes of a JSON string other than [\u]: the double quote, the
    backslash, the slash and [b f n r t]. *)
Definition unescape (e : N) : option N :=
  if e =? 34 then Some 34 else if e =? 92 then Some 92 else if e =? 47 then Some 47
  else if e =? 98 then Some 8 else if e =? 102 then Some 12 else if e =? 110 then Some 10
  else if e =? 114 then Some 13 else if e =? 116 then Some 9 else None.

(** The characters of a string after its opening quote: the decoded
    string and what follows the closing quote. *)
Fixpoint parse_chars (s : jsstr) : option (jsstr * jsstr) :=
  match s with
  | [] => None
  | c :: r =>
      if c =? 34 then Some ([], r)
      else if c =? 92 then
        match r with
        | e :: r' =>
            match unescape e with
            | Some u => option_map (fun '(str, rest) => (u :: str, rest)) (parse_chars r')
            | None =>
                if e =? 117 then
                  match r' with
                  | h1 :: h2 :: h3 :: h4 :: r'' =>
                      match hex4 h1 h2 h3 h4 with
                      | Some u => option_map (fun '(str, rest) => (u :: str, rest)) (parse_chars r'')
                      | None => None
                      end
                  | _ => None
                  end
                else None
            end
        | [] => None
        end
      else if c <? 32 then None
      else option_map (fun '(str, rest) => (c :: str, rest)) (parse_chars r)
  end.

Definition is_digit_unit (c : N) : bool := (48 <=? c) && (c <=? 57).

Fixpoint digits_value (acc : Z) (s : jsstr) : Z * jsstr :=
  match s with
  | c :: r => if is_digit_unit c then digits_value (acc * 10 + Z.of_N (c - 48))%Z r else (acc, s)
  | [] => (acc, s)
  end.

(** An optional minus sign, then [0] or a non-zero digit and more digits;
    a fraction or an exponent after them is unsupported. *)
Definition parse_number (s : jsstr) : parse_result (jsval * jsstr) :=
  let '(neg, s1) := match s with c :: r => if c =? 45 then (true, r) else (false, s)
                                | [] => (false, s) end in
  match s1 with
  | c :: r =>
      if is_digit_unit c then
        let '(z, rest) := if c =? 48 then (0%Z, r) else digits_value (Z.of_N (c - 48)) r in
        match rest with
        | d :: _ => if (d =? 46) || (d =? 101) || (d =? 69) then PUnsupported
                    else POk (VNum (if neg then Z.opp z else z), rest)
        | [] => POk (VNum (if neg then Z.opp z else z), rest)
        end
      else PSyntax
  | [] => PSyntax
  end.

(** A property definition of [JSON.parse]: a repeated key keeps its place
    and takes the new value. *)
Fixpoint set_field (k : jsstr) (v : jsval) (fs : list (jsstr * jsval)) : list (jsstr * jsval) :=
  match fs with
  | [] => [(k, v)]
  | (k', v') :: fs' => if decide (k = k') then (k, v) :: fs' else (k', v') :: set_field k v fs'
  end.

(** A value, the elements of an array after its [[], and the members of
    an object after its [{].  Each call consumes fuel; [parse_json] gives
    two units per code unit of the text plus one, which is enough (see
    [parse_json_fuel]). *)
Fixpoint parse_value (fuel : nat) (s : jsstr) {struct fuel} : parse_result (jsval * jsstr) :=
  match fuel with
  | O => PSyntax
  | S f =>
      match skip_ws s with
      | [] => PSyntax
      | c :: r =>
          if c =? 34 then
            match parse_chars r with Some (str, rest) => POk (VStr str, rest) | None => PSyntax end
          else if c =? 91 then
            match skip_ws r with
            | d :: r' => if d =? 93 then POk (VArr [], r') else parse_items f r []
            | [] => PSyntax
            end
          else if c =? 123 then
            match skip_ws r with
            | d :: r' => if d =? 125 then POk (VObj [], r') else parse_members f r []
            | [] => PSyntax
            end
          else if is_prefix (js "true") (c :: r) then POk (VBool true, drop 4 (c :: r))
          else if is_prefix (js "false") (c :: r) then POk (VBool false, drop 5 (c :: r))
          else if is_prefix (js "null") (c :: r) then POk (VNull, drop 4 (c :: r))
          else if (c =? 45) || is_digit_unit c then parse_number (c :: r)
          else PSyntax
      end
  end
with parse_items (fuel : nat) (s : jsstr) (acc : list jsval) {struct fuel} :
    parse_result (jsval * jsstr) :=
  match fuel with
  | O => PSyntax
  | S f =>
      pbind (parse_value f s) (fun '(v, r) =>
        match skip_ws r with
        | d :: r' =>
            if d =? 44 then parse_items f r' (acc ++ [v])
            else if d =? 93 then POk (VArr (acc ++ [v]), r')
            else PSyntax
        | [] => PSyntax
        end)
  end
with parse_members (fuel : nat) (s : jsstr) (acc : list (jsstr * jsval)) {struct fuel} :
    parse_result (jsval * jsstr) :=
  match fuel with
  | O => PSyntax
  | S f =>
      match skip_ws s with
      | c :: r =>
          if c =? 34 then
            match parse_chars r with
            | Some (k, r1) =>
                match skip_ws r1 with
                | d :: r2 =>
                    if d =? 58 then
                      pbind (parse_value f r2) (fun '(v, r3) =>
                        match skip_ws r3 with
                        | e :: r4 =>
                            if e =? 44 then parse_members f r4 (set_field k v acc)
                            else if e =? 125 then POk (VObj (set_field k v acc), r4)
                            else PSyntax
                        | [] => PSyntax
                        end)
                    else PSyntax
                | [] => PSyntax
                end
            | None => PSyntax
            end
          else PSyntax
      | [] => PSyntax
      end
  end.

(** [JSON.parse(text)]: one value, then only whitespace. *)
Definition parse_json (s : jsstr) : parse_result jsval :=
  pbind (parse_value (S (2 * length s)) s) (fun '(v, r) =>
    match skip_ws r with [] => POk v | _ => PSyntax end).

(** * Lemmas *)

Lemma hex_value_digit (d : N) : d < 16 -> hex_value (hex_digit d) = Some d.
Proof.
  intros Hd. unfold hex_digit. destruct (d <? 10) eqn:E; bool_facts;
    unfold hex_value; repeat case_if; bool_facts; try lia; f_equal; lia.
Qed.

Lemma hex4_unicode_escape (c : N) :
  c < 65536 ->
  hex4 (hex_digit (c / 4096 mod 16)) (hex_digit (c / 256 mod 16))
       (hex_digit (c / 16 mod 16)) (hex_digit (c mod 16)) = Some c.
Proof.
  intros Hc. unfold hex4. rewrite !hex_value_digit by (apply N.mod_lt; lia). f_equal.
  replace (c / 256) with (c / 16 / 16) by (rewrite N.Div0.div_div; reflexivity).
  replace (c / 4096) with (c / 16 / 16 / 16) by (rewrite !N.Div0.div_div; reflexivity).
  pose proof (N.div_mod c 16 ltac:(lia)). pose proof (N.div_mod (c / 16) 16 ltac:(lia)).
  pose proof (N.div_mod (c / 16 / 16) 16 ltac:(lia)).
  assert (c / 16 / 16 / 16 < 16).
  { rewrite !N.Div0.div_div. apply N.Div0.div_lt_upper_bound. lia. }
  rewrite (N.mod_small (c / 16 / 16 / 16)) by done. lia.
Qed.

Lemma short_escape_unescape (c e : N) : short_escape c = Some e -> unescape e = Some c.
Proof. unfold short_escape. repeat case_if; bool_facts; intros [=]; subst; reflexivity. Qed.

Lemma short_escape_None (c : N) : short_escape c = None -> c <> 34 /\ c <> 92.
Proof. unfold short_escape. repeat case_if; bool_facts; intros [=]. lia. Qed.

(** One plain code unit of a string. *)
Lemma parse_chars_plain (c : N) (r : jsstr) :
  c <> 34 -> c <> 92 -> 32 <= c ->
  parse_chars (c :: r) = option_map (fun '(str, rest) => (c :: str, rest)) (parse_chars r).
Proof.
  intros H1 H2 H3. cbn [parse_chars].
  repeat case_if; bool_facts; try lia. reflexivity.
Qed.

(** A [\uXXXX] escape as [quote_units] writes it. *)
Lemma parse_chars_unicode_escape (c : N) (r : jsstr) :
  c < 65536 ->
  parse_chars (unicode_escape c ++ r) = option_map (fun '(str, rest) => (c :: str, rest)) (parse_chars r).
Proof. intros Hc. simpl. by rewrite hex4_unicode_escape. Qed.

(** [parse_chars] reads back what [quote_units] writes, for any sequence
    of code units, lone surrogates and control characters included. *)
Lemma parse_chars_quote (s rest : jsstr) :
  parse_chars (quote_units s ++ 34 :: rest) = Some (s, rest).
Proof.
  revert rest.
  induction s as [s IH] using (induction_ltof1 _ (@length _)).
  destruct s as [|c s']; intros rest; [reflexivity|].
  assert (IH' : forall t, (length t < S (length s'))%nat -> parse_chars (quote_units t ++ 34 :: rest) = Some (t, rest))
    by (intros t Ht; apply IH; unfold ltof; exact Ht).
  cbn [quote_units]. destruct (short_escape c) as [e|] eqn:Es.
  - apply short_escape_unescape in Es. simpl. rewrite Es. rewrite IH' by (simpl; lia). reflexivity.
  - apply short_escape_None in Es as [H34 H92].
    case_if; bool_facts.
    { rewrite <- app_assoc, parse_chars_unicode_escape, IH' by (simpl; lia). reflexivity. }
    case_if; bool_facts.
    + destruct s' as [|d s''].
      * rewrite parse_chars_unicode_escape by (unfold is_high_surrogate in *; bool_facts; lia).
        reflexivity.
      * case_if.
        -- unfold is_high_surrogate, is_low_surrogate in *. bool_facts. simpl app.
           rewrite !parse_chars_plain by lia. rewrite IH' by (simpl; lia). reflexivity.
        -- rewrite <- app_assoc, parse_chars_unicode_escape
             by (unfold is_high_surrogate in *; bool_facts; lia).
           rewrite IH' by (simpl; lia). reflexivity.
    + case_if.
      * rewrite <- app_assoc, parse_chars_unicode_escape
          by (unfold is_low_surrogate in *; bool_facts; lia).
        rewrite IH' by (simpl; lia). reflexivity.
      * simpl app. rewrite parse_chars_plain by lia. rewrite IH' by (simpl; lia). reflexivity.
Qed.

Lemma parse_value_string (f : nat) (k tail : jsstr) :
  parse_value (S f) (quote_json k ++ tail) = POk (VStr k, tail).
Proof.
  unfold quote_json. rewrite <- !app_assoc. simpl. rewrite parse_chars_quote. reflexivity.
Qed.

Lemma length_join_quote (ks : list jsstr) :
  (2 * length ks <= length (join [44%N] (map quote_json ks)))%nat.
Proof.
  induction ks as [|k ks IH]; simpl; [lia|].
  assert (length (quote_json k) >= 2)%nat by (unfold quote_json; rewrite !length_app; simpl; lia).
  destruct ks as [|k' ks']; simpl in *; [lia|]. rewrite !length_app in *. simpl in *. lia.
Qed.

Lemma skip_ws_app_cons (c : N) (x : jsstr) : is_json_ws c = false -> skip_ws ([c] ++ x) = [c] ++ x.
Proof. intros H. unfold skip_ws. simpl. by rewrite H. Qed.

(** The elements of a stringified array of strings, after its [[]. *)
Lemma parse_items_strings (ks : list jsstr) (f : nat) (acc : list jsval) (rest : jsstr) :
  ks <> [] -> (length ks < f)%nat ->
  parse_items f (join [44] (map quote_json ks) ++ 93 :: rest) acc =
    POk (VArr (acc ++ map VStr ks), rest).
Proof.
  revert f acc. induction ks as [|k ks IH]; intros f acc Hne Hf; [done|].
  destruct f as [|f]; [simpl in Hf; lia|]. simpl in Hf.
  destruct ks as [|k' ks'].
  - cbn [map join parse_items]. destruct f as [|f]; [lia|].
    rewrite parse_value_string. reflexivity.
  - cbn [map]. rewrite join_cons2, <- !app_assoc. cbn [parse_items].
    destruct f as [|f]; [simpl in Hf; lia|]. rewrite parse_value_string. cbn [pbind].
    rewrite skip_ws_app_cons by reflexivity. cbn [app]. rewrite N.eqb_refl.
    rewrite IH by (done || simpl in *; lia). by rewrite <- app_assoc.
Qed.

Lemma skip_ws_join_quote (k : jsstr) (ks : list jsstr) :
  exists z, skip_ws (join [44] (map quote_json (k :: ks)) ++ [93]) = 34 :: z.
Proof. destruct ks; eexists; reflexivity. Qed.

(** [JSON.parse] reads back exactly the strings [JSON.stringify] wrote,
    whatever code units they contain (quotes, backslashes, control
    characters, lone surrogates). *)
Theorem parse_json_stringify (ks : list jsstr) :
  parse_json (stringify_strings ks) = POk (VArr (map VStr ks)).
Proof.
  unfold parse_json, stringify_strings. destruct ks as [|k ks]; [reflexivity|].
  cbn [parse_value]. rewrite skip_ws_app_cons by reflexivity. cbn [app].
  replace (91 =? 34) with false by reflexivity. rewrite N.eqb_refl.
  destruct (skip_ws_join_quote k ks) as [z Hz]. rewrite Hz.
  replace (34 =? 93) with false by reflexivity.
  pose proof (length_join_quote (k :: ks)).
  rewrite parse_items_strings by (done || (cbn [length]; rewrite ?length_app; cbn [length] in *; lia)).
  reflexivity.
Qed.

(** ** Termination of the parser *)

Lemma skip_ws_length (s : jsstr) : (length (skip_ws s) <= length s)%nat.
Proof. unfold skip_ws. induction s as [|c s IH]; simpl; [lia|]. case_if; simpl; lia. Qed.

Lemma skip_ws_cons_length (s r : jsstr) (c : N) :
  skip_ws s = c :: r -> (length r < length s)%nat.
Proof. intros E. pose proof (skip_ws_length s) as H. rewrite E in H. simpl in H. lia. Qed.

Lemma parse_chars_length (s str rest : jsstr) :
  parse_chars s = Some (str, rest) -> (length rest < length s)%nat.
Proof.
  revert str rest. induction s as [s IH] using (induction_ltof1 _ (@length _)). unfold ltof in IH.
  intros str rest. destruct s as [|c r]; simpl; [discriminate|].
  case_if; [intros [= _ <-]; lia|].
  case_if.
  - destruct r as [|e r']; [discriminate|].
    destruct (unescape e) as [u|].
    + destruct (parse_chars r') as [[str' rest']|] eqn:Ep; simpl; [|discriminate].
      intros [= _ <-]. specialize (IH r' ltac:(simpl; lia) _ _ Ep). simpl. lia.
    + case_if; [|discriminate]. destruct r' as [|h1 [|h2 [|h3 [|h4 r'']]]]; try discriminate.
      destruct (hex4 h1 h2 h3 h4); [|discriminate].
      destruct (parse_chars r'') as [[str' rest']|] eqn:Ep; simpl; [|discriminate].
      intros [= _ <-]. specialize (IH r'' ltac:(simpl; lia) _ _ Ep). simpl. lia.
  - case_if; [discriminate|].
    destruct (parse_chars r) as [[str' rest']|] eqn:Ep; simpl; [|discriminate].
    intros [= _ <-]. specialize (IH r ltac:(simpl; lia) _ _ Ep). lia.
Qed.

Lemma digits_value_length (acc : Z) (s : jsstr) : (length (digits_value acc s).2 <= length s)%nat.
Proof. revert acc. induction s as [|c s IH]; intros acc; simpl; [lia|]. case_if; simpl; [|lia]. specialize (IH (acc * 10 + Z.of_N (c - 48))%Z). lia. Qed.

Lemma parse_number_length (s : jsstr) (v : jsval) (rest : jsstr) :
  parse_number s = POk (v, rest) -> (length rest < length s)%nat.
Proof.
  unfold parse_number.
  assert (Hs : exists neg s1, match s with c :: r => if c =? 45 then (true, r) else (false, s)
                                     | [] => (false, s) end = (neg, s1) /\ (length s1 <= length s)%nat).
  { destruct s as [|c r]; [by exists false, []|]. case_if; [exists true, r|exists false, (c :: r)]; simpl; split; auto. }
  destruct Hs as (neg & s1 & -> & Hl). cbv iota beta.
  destruct s1 as [|c r]; [discriminate|]. case_if; [|discriminate].
  destruct (if c =? 48 then (0%Z, r) else digits_value (Z.of_N (c - 48)) r) as [z rest'] eqn:Ez.
  assert (length rest' <= length r)%nat.
  { revert Ez. case_if; [by intros [= _ <-]|]. intros Ez.
    pose proof (digits_value_length (Z.of_N (c - 48)) r) as Hd. rewrite Ez in Hd. simpl in Hd. lia. }
  destruct rest' as [|d r']; [intros [= _ <-]; simpl in *; lia|].
  case_if; [discriminate|]. intros [= _ <-]. simpl in *. lia.
Qed.

Lemma drop_cons_length (n : nat) (c : N) (r : jsstr) :
  (1 <= n)%nat -> (length (drop n (c :: r)) < length (c :: r))%nat.
Proof. intros Hn. rewrite length_drop. simpl. lia. Qed.


(** A successful parse consumes at least one code unit. *)
Lemma parse_consumes (f : nat) :
  (forall s v r, parse_value f s = POk (v, r) -> (length r < length s)%nat) /\
  (forall s acc v r, parse_items f s acc = POk (v, r) -> (length r < length s)%nat) /\
  (forall s acc v r, parse_members f s acc = POk (v, r) -> (length r < length s)%nat).
Proof.
  induction f as [|f (IHv & IHi & IHm)]; [split_and!; discriminate|].
  split_and!.
  - intros s v r. cbn [parse_value].
    destruct (skip_ws s) as [|c r0] eqn:W0; [discriminate|].
    pose proof (skip_ws_cons_length _ _ _ W0).
    case_if; [|case_if; [|case_if]].
    + destruct (parse_chars r0) as [[str rest]|] eqn:Ep; [|discriminate]. intros [= _ <-].
      pose proof (parse_chars_length _ _ _ Ep). lia.
    + destruct (skip_ws r0) as [|d r1] eqn:W1; [discriminate|].
      pose proof (skip_ws_cons_length _ _ _ W1).
      case_if; [intros [= _ <-]; lia|]. intros Hi. apply IHi in Hi. lia.
    + destruct (skip_ws r0) as [|d r1] eqn:W1; [discriminate|].
      pose proof (skip_ws_cons_length _ _ _ W1).
      case_if; [intros [= _ <-]; lia|]. intros Hi. apply IHm in Hi. lia.
    + pose proof (drop_cons_length 4 c r0). pose proof (drop_cons_length 5 c r0).
      repeat case_if; try discriminate; try (intros [= _ <-]; simpl in *; lia).
      intros Hn. apply parse_number_length in Hn. simpl in Hn. lia.
  - intros s acc v r. cbn [parse_items].
    destruct (parse_value f s) as [[v0 r0]| |] eqn:Ev; try discriminate. cbn [pbind].
    apply IHv in Ev. destruct (skip_ws r0) as [|d r1] eqn:W1; [discriminate|].
    pose proof (skip_ws_cons_length _ _ _ W1).
    case_if; [intros Hi; apply IHi in Hi; lia|]. case_if; [intros [= _ <-]; lia|discriminate].
  - intros s acc v r. cbn [parse_members].
    destruct (skip_ws s) as [|c r0] eqn:W0; [discriminate|].
    pose proof (skip_ws_cons_length _ _ _ W0).
    case_if; [|discriminate]. destruct (parse_chars r0) as [[k r1]|] eqn:Ep; [|discriminate].
    pose proof (parse_chars_length _ _ _ Ep).
    destruct (skip_ws r1) as [|d r2] eqn:W2; [discriminate|].
    pose proof (skip_ws_cons_length _ _ _ W2).
    case_if; [|discriminate].
    destruct (parse_value f r2) as [[v0 r3]| |] eqn:Ev; try discriminate. cbn [pbind].
    apply IHv in Ev. destruct (skip_ws r3) as [|e r4] eqn:W3; [discriminate|].
    pose proof (skip_ws_cons_length _ _ _ W3).
    case_if; [intros Hi; apply IHm in Hi; lia|]. case_if; [intros [= _ <-]; lia|discriminate].
Qed.

(** Past twice the length of the text, more fuel changes nothing. *)
Lemma parse_fuel_mono (n : nat) :
  (forall s m, (2 * length s < n)%nat -> (n <= m)%nat -> parse_value m s = parse_value n s) /\
  (forall s acc m, (2 * length s + 1 < n)%nat -> (n <= m)%nat ->
     parse_items m s acc = parse_items n s acc) /\
  (forall s acc m, (2 * length s + 1 < n)%nat -> (n <= m)%nat ->
     parse_members m s acc = parse_members n s acc).
Proof.
  induction n as [|f (IHv & IHi & IHm)]; [split_and!; intros; lia|].
  split_and!.
  - intros s m Hs Hm. destruct m as [|g]; [lia|]. cbn [parse_value].
    destruct (skip_ws s) as [|c r0] eqn:W0; [done|]. pose proof (skip_ws_cons_length _ _ _ W0).
    case_if; [done|]. case_if.
    + destruct (skip_ws r0); [done|]. case_if; [done|]. apply IHi; lia.
    + case_if; [|done]. destruct (skip_ws r0); [done|]. case_if; [done|]. apply IHm; lia.
  - intros s acc m Hs Hm. destruct m as [|g]; [lia|]. cbn [parse_items].
    rewrite (IHv s g) by lia. destruct (parse_value f s) as [[v r]| |] eqn:Ev; cbn [pbind]; try done.
    apply (proj1 (parse_consumes f)) in Ev.
    destruct (skip_ws r) as [|d r1] eqn:W1; [done|]. pose proof (skip_ws_cons_length _ _ _ W1).
    case_if; [apply IHi; lia|done].
  - intros s acc m Hs Hm. destruct m as [|g]; [lia|]. cbn [parse_members].
    destruct (skip_ws s) as [|c r] eqn:W0; [done|]. pose proof (skip_ws_cons_length _ _ _ W0).
    case_if; [|done]. destruct (parse_chars r) as [[k r1]|] eqn:Ep; [|done].
    pose proof (parse_chars_length _ _ _ Ep).
    destruct (skip_ws r1) as [|d r2] eqn:W2; [done|]. pose proof (skip_ws_cons_length _ _ _ W2).
    case_if; [|done]. rewrite (IHv r2 g) by lia.
    destruct (parse_value f r2) as [[v r3]| |] eqn:Ev; cbn [pbind]; try done.
    apply (proj1 (parse_consumes f)) in Ev.
    destruct (skip_ws r3) as [|e r4] eqn:W3; [done|]. pose proof (skip_ws_cons_length _ _ _ W3).
    case_if; [apply IHm; lia|done].
Qed.

(** Termination of [JSON.parse]: the parser stops within the fuel
    [parse_json] gives, twice the length of the text plus one; any larger
    fuel computes the same value or error, so the fuel never cuts a parse
    short. *)
Theorem parse_json_fuel (s : jsstr) (n : nat) :
  (2 * length s < n)%nat ->
  parse_json s = pbind (parse_value n s) (fun '(v, r) =>
                   match skip_ws r with [] => POk v | _ => PSyntax end).
Proof.
  intros Hn. unfold parse_json. by rewrite (proj1 (parse_fuel_mono (S (2 * length s))) s n) by lia.
Qed.

Lemma parse_json_fuel_witness :
  parse_json (js "[[1],[2,[]],[]]") =
  pbind (parse_value 1000 (js "[[1],[2,[]],[]]")) (fun '(v, r) =>
    match skip_ws r with [] => POk v | _ => PSyntax end).
Proof. apply parse_json_fuel. vm_compute. lia. Defined.
