(* ===== verification/Effects.v ===== *)
(** * The worker's world and its effects

    Everything [src/contentProcessor.js] does besides computing goes
    through this file: requests to the external services (axios GET and
    POST, [YoutubeTranscript.fetchTranscript], the PowerShell speech
    engine run by [exec]), reads of [Date.now()] and [process.env], the
    synchronous [fs] calls, and [parentPort.postMessage].

    The world holds the answers of the services as an oracle indexed by
    the number of the call, so that two identical requests may be answered
    differently, the clock as a function of the number of the reading, the
    environment after [dotenv], the file system as a [gmap] from paths to
    files and directories, the error a write or [mkdir] of a path meets
    (no space left, no permission; [None] when the disk accepts it), and
    the trace of the side effects in order.

    [M A] is a state and exception monad: a computation maps a world to a
    [result] and a new world; a thrown exception keeps the effects done
    before it, as JavaScript does.  [try_catch] is [try ... catch]. *)

From Stdlib Require Import String Ascii NArith ZArith Lia.
From stdpp Require Import base list numbers gmap.
From S2P Require Import Prelude JsString JsValue.

(** ** Requests, answers and files *)

Inductive request : Type :=
| HttpGet (url : jsstr) (params : list (jsstr * jsval)) (headers : list (jsstr * jsstr))
    (timeout : option Z)
| HttpPost (url : jsstr) (body : jsval) (headers : list (jsstr * jsstr))
| FetchTranscript (videoId : jsstr)
| ExecCommand (command : jsstr) (timeout : Z).

(** A service resolves with a value or rejects with an error message.
    For [ExecCommand] of the speech command, [Answer (VStr bytes)] means
    the engine wrote [bytes] to the output file named in the command. *)
Inductive outcome : Type :=
| Answer (v : jsval)
| Failure (message : jsstr).

Inductive node : Type :=
| File (data : list N)
| Dir.

(** The message of [parentPort.postMessage] (lines 267 and 269). *)
Inductive worker_message : Type :=
| MsgResult (content : jsstr) (title : jsval) (summary : jsstr) (keyPoints : list jsstr)
    (podcastPath : option jsstr)
| MsgError (error : jsstr).

Inductive event : Type :=
| EvRequest (r : request)
| EvWrite (path : jsstr)
| EvUnlink (path : jsstr)
| EvMkdir (path : jsstr)
| EvPost (m : worker_message).

Record world : Type := mkWorld {
  w_answer : nat -> request -> outcome;
  w_calls : nat;
  w_clock : nat -> Z;
  w_reads : nat;
  w_env : jsstr -> option jsstr;
  w_dirname : jsstr;
  w_fs : gmap jsstr node;
  w_disk_error : jsstr -> option jsstr;
  w_trace : list event
}.

(** ** The monad *)

Definition M (A : Type) : Type := world -> result A * world.

Definition ret {A} (a : A) : M A := fun w => (Ok a, w).

Definition bind {A B} (m : M A) (k : A -> M B) : M B :=
  fun w => match m w with
           | (Ok a, w') => k a w'
           | (Throw e, w') => (Throw e, w')
           end.

Definition throw {A} (e : js_error) : M A := fun w => (Throw e, w).

(** [try { m } catch (e) { h(e) }] *)
Definition try_catch {A} (m : M A) (h : js_error -> M A) : M A :=
  fun w => match m w with
           | (Ok a, w') => (Ok a, w')
           | (Throw e, w') => h e w'
           end.

(** A pure step that may throw ([result]) inside the monad. *)
Definition lift {A} (r : result A) : M A :=
  fun w => (r, w).

Notation "'let*' x ':=' c 'in' k" := (bind c (fun x => k))
  (at level 10, x name, c at level 100, k at level 200) : js_scope.
Notation "'let*' ' p ':=' c 'in' k" := (bind c (fun x => match x with p => k end))
  (at level 10, p pattern, c at level 100, k at level 200) : js_scope.
Open Scope js_scope.

Definition emit (ev : event) : M unit :=
  fun w => (Ok tt, {| w_answer := w_answer w; w_calls := w_calls w; w_clock := w_clock w;
                      w_reads := w_reads w; w_env := w_env w; w_dirname := w_dirname w;
                      w_fs := w_fs w; w_disk_error := w_disk_error w; w_trace := w_trace w ++ [ev] |}).

Definition set_fs (fs : gmap jsstr node) : M unit :=
  fun w => (Ok tt, {| w_answer := w_answer w; w_calls := w_calls w; w_clock := w_clock w;
                      w_reads := w_reads w; w_env := w_env w; w_dirname := w_dirname w;
                      w_fs := fs; w_disk_error := w_disk_error w; w_trace := w_trace w |}).

Definition get_world : M world := fun w => (Ok w, w).

(** An external request: logged, answered by the oracle, counted. *)
Definition call (r : request) : M jsval :=
  fun w =>
    let o := w_answer w (w_calls w) r in
    let w' := {| w_answer := w_answer w; w_calls := S (w_calls w); w_clock := w_clock w;
                 w_reads := w_reads w; w_env := w_env w; w_dirname := w_dirname w;
                 w_fs := w_fs w; w_disk_error := w_disk_error w; w_trace := w_trace w ++ [EvRequest r] |} in
    match o with
    | Answer v => (Ok v, w')
    | Failure msg => (Throw (Error msg), w')
    end.

(** [Date.now()] *)
Definition now : M Z :=
  fun w => (Ok (w_clock w (w_reads w)),
            {| w_answer := w_answer w; w_calls := w_calls w; w_clock := w_clock w;
               w_reads := S (w_reads w); w_env := w_env w; w_dirname := w_dirname w;
               w_fs := w_fs w; w_disk_error := w_disk_error w; w_trace := w_trace w |}).

(** [process.env[k]]: [None] is [undefined]. *)
Definition env_get (k : jsstr) : M (option jsstr) := fun w => (Ok (w_env w k), w).

Definition dirname : M jsstr := fun w => (Ok (w_dirname w), w).

(** [path.join(dir, name)] for a plain file name, on Windows. *)
Definition path_join (dir name : jsstr) : jsstr := dir ++ [92%N] ++ name.

Definition enoent (syscall path : jsstr) : js_error :=
  Error (js "ENOENT: no such file or directory, " ++ syscall ++ js " " ++ quote ++ path ++ quote).

(** [fs.writeFileSync(path, data)]; a write the disk refuses (no space,
    no permission) throws the system error. *)
Definition write_file (path : jsstr) (data : list N) : M unit :=
  let* w := get_world in
  match w_disk_error w path with Some msg => throw (Error msg) | None =>
  let* _ := set_fs (<[path := File data]> (w_fs w)) in
  emit (EvWrite path) end.

(** [fs.readFileSync(path)] *)
Definition read_file (path : jsstr) : M (list N) :=
  let* w := get_world in
  match w_fs w !! path with
  | Some (File d) => ret d
  | _ => throw (enoent (js "open") path)
  end.

(** [fs.unlinkSync(path)] *)
Definition unlink (path : jsstr) : M unit :=
  let* w := get_world in
  match w_fs w !! path with
  | Some (File _) =>
      let* _ := set_fs (delete path (w_fs w)) in
      emit (EvUnlink path)
  | _ => throw (enoent (js "unlink") path)
  end.

(** [fs.existsSync(path)] *)
Definition exists_path (path : jsstr) : M bool :=
  let* w := get_world in
  ret (match w_fs w !! path with Some _ => true | None => false end).

(** [fs.mkdirSync(path, { recursive: true })] *)
Definition mkdir_p (path : jsstr) : M unit :=
  let* w := get_world in
  match w_disk_error w path with Some msg => throw (Error msg) | None =>
  let* _ := set_fs (<[path := Dir]> (w_fs w)) in
  emit (EvMkdir path) end.

(** [parentPort.postMessage(m)] *)
Definition post (m : worker_message) : M unit := emit (EvPost m).

(** * Lemmas *)

Lemma bind_ret {A B} (a : A) (k : A -> M B) (w : world) : bind (ret a) k w = k a w.
Proof. done. Qed.

Lemma bind_assoc {A B C} (m : M A) (k : A -> M B) (h : B -> M C) (w : world) :
  bind (bind m k) h w = bind m (fun a => bind (k a) h) w.
Proof. unfold bind. destruct (m w) as [[a|e] w']; done. Qed.

Lemma bind_ok {A B} (m : M A) (k : A -> M B) (w w' : world) (a : A) :
  m w = (Ok a, w') -> bind m k w = k a w'.
Proof. unfold bind. by intros ->. Qed.

Lemma bind_throw {A B} (m : M A) (k : A -> M B) (w w' : world) (e : js_error) :
  m w = (Throw e, w') -> bind m k w = (Throw e, w').
Proof. unfold bind. by intros ->. Qed.

Lemma try_catch_ok {A} (m : M A) (h : js_error -> M A) (w w' : world) (a : A) :
  m w = (Ok a, w') -> try_catch m h w = (Ok a, w').
Proof. unfold try_catch. by intros ->. Qed.

Lemma try_catch_throw {A} (m : M A) (h : js_error -> M A) (w w' : world) (e : js_error) :
  m w = (Throw e, w') -> try_catch m h w = h e w'.
Proof. unfold try_catch. by intros ->. Qed.

(** The world a worker starts in: no call made, no clock read, an empty
    trace, and the module's directory present. *)
Definition init_world (answer : nat -> request -> outcome) (clock : nat -> Z)
    (env : jsstr -> option jsstr) (dir : jsstr) : world :=
  mkWorld answer 0 clock 0 env dir {[ dir := Dir ]} (fun _ => None) [].

(** ** Frames: what a computation may change *)

(** [m] keeps the environment, the directory and the oracle, and only
    appends to the trace events that satisfy [P]. *)
Definition frame (P : event -> Prop) (w w' : world) : Prop :=
  w_env w' = w_env w /\ w_dirname w' = w_dirname w /\ w_answer w' = w_answer w /\
  w_disk_error w' = w_disk_error w /\ exists evs, w_trace w' = w_trace w ++ evs /\ Forall P evs.

Definition emits {A} (P : event -> Prop) (m : M A) : Prop :=
  forall w, frame P w (snd (m w)).

Lemma frame_refl (P : event -> Prop) (w : world) : frame P w w.
Proof. repeat split. exists []. by rewrite app_nil_r. Qed.

Lemma frame_trans (P : event -> Prop) (w1 w2 w3 : world) :
  frame P w1 w2 -> frame P w2 w3 -> frame P w1 w3.
Proof.
  intros (E1 & D1 & A1 & K1 & evs1 & T1 & F1) (E2 & D2 & A2 & K2 & evs2 & T2 & F2).
  repeat split; try congruence. exists (evs1 ++ evs2). rewrite T2, T1, app_assoc.
  split; [done|]. by apply Forall_app.
Qed.

Section Emits.
Context (P : event -> Prop).

Lemma emits_ret {A} (a : A) : emits P (ret a).
Proof. intros w. apply frame_refl. Qed.

Lemma emits_throw {A} (e : js_error) : emits P (@throw A e).
Proof. intros w. apply frame_refl. Qed.

Lemma emits_lift {A} (r : result A) : emits P (lift r).
Proof. intros w. apply frame_refl. Qed.

Lemma emits_get_world : emits P get_world.
Proof. intros w. apply frame_refl. Qed.

Lemma emits_now : emits P now.
Proof. intros w. repeat split. exists []. by rewrite app_nil_r. Qed.

Lemma emits_env_get (k : jsstr) : emits P (env_get k).
Proof. intros w. apply frame_refl. Qed.

Lemma emits_dirname : emits P dirname.
Proof. intros w. apply frame_refl. Qed.

Lemma emits_set_fs (fs : gmap jsstr node) : emits P (set_fs fs).
Proof. intros w. repeat split. exists []. by rewrite app_nil_r. Qed.

Lemma emits_emit (ev : event) : P ev -> emits P (emit ev).
Proof. intros Hev w. repeat split. exists [ev]. by split; [|constructor]. Qed.

Lemma emits_call (r : request) : P (EvRequest r) -> emits P (call r).
Proof.
  intros Hr w. unfold call. destruct (w_answer w (w_calls w) r);
    (repeat split; exists [EvRequest r]; by split; [|constructor]).
Qed.

Lemma emits_bind {A B} (m : M A) (k : A -> M B) :
  emits P m -> (forall a, emits P (k a)) -> emits P (bind m k).
Proof.
  intros Hm Hk w. unfold bind. specialize (Hm w).
  destruct (m w) as [[a|e] w'] eqn:E; simpl in *; [|done].
  eapply frame_trans; [exact Hm | apply Hk].
Qed.

Lemma emits_try_catch {A} (m : M A) (h : js_error -> M A) :
  emits P m -> (forall e, emits P (h e)) -> emits P (try_catch m h).
Proof.
  intros Hm Hh w. unfold try_catch. specialize (Hm w).
  destruct (m w) as [[a|e] w'] eqn:E; simpl in *; [done|].
  eapply frame_trans; [exact Hm | apply Hh].
Qed.

Lemma emits_weaken (Q : event -> Prop) {A} (m : M A) :
  (forall ev, Q ev -> P ev) -> emits Q m -> emits P m.
Proof.
  intros HQ Hm w. destruct (Hm w) as (? & ? & ? & ? & evs & ? & F).
  repeat split; try done. exists evs. split; [done|]. eapply Forall_impl; [exact F|exact HQ].
Qed.

End Emits.

#[export] Hint Resolve emits_ret emits_throw emits_lift emits_get_world emits_now
  emits_env_get emits_dirname emits_set_fs emits_emit emits_call : js.

(** Proves [emits P m] by unfolding [m] into the primitive steps; the
    events themselves are left to [ev_tac]. *)
Ltac emits_tac ev_tac :=
  repeat match goal with
  | |- emits _ (bind _ _) => apply emits_bind; [|intros ?]
  | |- emits _ (try_catch _ _) => apply emits_try_catch; [|intros ?]
  | |- emits _ (match ?x with _ => _ end) => destruct x
  | |- emits _ (if ?b then _ else _) => destruct b
  | |- emits _ (emit _) => apply emits_emit; ev_tac
  | |- emits _ (call _) => apply emits_call; ev_tac
  | |- emits _ _ => solve [auto with js]
  end.

(** ** Computations that never throw *)

Definition total {A} (m : M A) : Prop := forall w, exists a, fst (m w) = Ok a.

Lemma total_ret {A} (a : A) : total (ret a).
Proof. intros w. by exists a. Qed.

Lemma total_bind {A B} (m : M A) (k : A -> M B) :
  total m -> (forall a, total (k a)) -> total (bind m k).
Proof.
  intros Hm Hk w. unfold bind. destruct (Hm w) as [a Ha].
  destruct (m w) as [r w']. simpl in Ha. subst r. apply Hk.
Qed.

Lemma total_try_catch {A} (m : M A) (h : js_error -> M A) :
  (forall e, total (h e)) -> total (try_catch m h).
Proof.
  intros Hh w. unfold try_catch. destruct (m w) as [[a|e] w']; [by exists a|apply Hh].
Qed.

Lemma total_now : total now.
Proof. intros w. eexists. reflexivity. Qed.

Lemma total_dirname : total dirname.
Proof. intros w. eexists. reflexivity. Qed.

Lemma total_get_world : total get_world.
Proof. intros w. eexists. reflexivity. Qed.

Lemma total_set_fs (fs : gmap jsstr node) : total (set_fs fs).
Proof. intros w. eexists. reflexivity. Qed.

Lemma total_emit (ev : event) : total (emit ev).
Proof. intros w. eexists. reflexivity. Qed.

#[export] Hint Resolve total_ret total_now total_dirname total_get_world total_set_fs
  total_emit : js.

Ltac total_tac :=
  repeat match goal with
  | |- total (bind _ _) => apply total_bind; [|intros ?]
  | |- total (try_catch _ _) => apply total_try_catch; intros ?
  | |- total (match ?x with _ => _ end) => destruct x
  | |- total (if ?b then _ else _) => destruct b
  | |- total _ => solve [auto with js]
  end.

Lemma exists_path_total (path : jsstr) : total (exists_path path).
Proof. unfold exists_path. total_tac. Qed.

#[export] Hint Resolve exists_path_total : js.

Lemma write_file_refused (path : jsstr) (data : list N) (w : world) (msg : jsstr) :
  w_disk_error w path = Some msg -> write_file path data w = (Throw (Error msg), w).
Proof. intros H. unfold write_file, bind, get_world. by rewrite H. Qed.

Lemma mkdir_p_refused (path : jsstr) (w : world) (msg : jsstr) :
  w_disk_error w path = Some msg -> mkdir_p path w = (Throw (Error msg), w).
Proof. intros H. unfold mkdir_p, bind, get_world. by rewrite H. Qed.

(** ** Computations whose only exceptions are disk errors *)

(** [e] is the error the disk of [w] raises for some path. *)
Definition disk_error (w : world) (e : js_error) : Prop :=
  exists path msg, w_disk_error w path = Some msg /\ e = Error msg.

Definition raises_disk {A} (m : M A) : Prop :=
  forall w, match fst (m w) with Ok _ => True | Throw e => disk_error w e end.

Lemma raises_disk_total {A} (m : M A) : total m -> raises_disk m.
Proof. intros Hm w. by destruct (Hm w) as [a ->]. Qed.

Lemma raises_disk_bind {A B} (m : M A) (k : A -> M B) :
  emits (fun _ => True) m -> raises_disk m -> (forall a, raises_disk (k a)) ->
  raises_disk (bind m k).
Proof.
  intros Hf Hm Hk w. unfold bind. specialize (Hm w). destruct (Hf w) as (_ & _ & _ & Hd & _).
  destruct (m w) as [[a|e] w'] eqn:E; simpl in *; [|done].
  specialize (Hk a w'). destruct (k a w') as [[b|e'] w'']; simpl in *; [done|].
  unfold disk_error in *. by rewrite <- Hd.
Qed.

Lemma raises_disk_write_file (path : jsstr) (data : list N) : raises_disk (write_file path data).
Proof.
  intros w. unfold write_file, bind, get_world. simpl.
  destruct (w_disk_error w path) as [msg|] eqn:E; [by exists path, msg|done].
Qed.

Lemma raises_disk_mkdir_p (path : jsstr) : raises_disk (mkdir_p path).
Proof.
  intros w. unfold mkdir_p, bind, get_world. simpl.
  destruct (w_disk_error w path) as [msg|] eqn:E; [by exists path, msg|done].
Qed.

#[export] Hint Resolve raises_disk_write_file raises_disk_mkdir_p : js.

Ltac raises_disk_tac :=
  repeat match goal with
  | |- raises_disk (bind _ _) =>
      apply raises_disk_bind;
        [unfold write_file, mkdir_p, exists_path; emits_tac ltac:(exact I)| |intros ?]
  | |- raises_disk (match ?x with _ => _ end) => destruct x
  | |- raises_disk (if ?b then _ else _) => destruct b
  | |- raises_disk _ => solve [auto with js | apply raises_disk_total; total_tac]
  end.

(** Unfolds the primitive steps of the monad, after the definitions of a
    component have been unfolded. *)
Ltac unfold_M :=
  unfold try_catch, bind, ret, throw, lift, dirname, now, env_get, get_world, set_fs, emit,
    call, post; simpl.

(** A world for concrete runs: the clock starts at 1700000000000 ms and
    ticks once per reading, no variable is set, the module sits in
    [C:\app]. *)
Definition sample_world (answer : nat -> request -> outcome) : world :=
  init_world answer (fun n => (1700000000000 + Z.of_nat n)%Z) (fun _ => None) (js "C:\app").

(** The same world with the OpenRouter key set. *)
Definition sample_world_key (answer : nat -> request -> outcome) : world :=
  init_world answer (fun n => (1700000000000 + Z.of_nat n)%Z)
    (fun k => if decide (k = js "OPENROUTER_API_KEY") then Some (js "sk-or-test") else None)
    (js "C:\app").
