(* ===== verification/Extractor.v ===== *)
(** * The source extractor of [processContent]

    Lines 55-142 of [src/contentProcessor.js]: the job's [contentData]
    selects an article fetch, the YouTube branch or the stub of the other
    source types; each returns the [content] and [title] the rest of the
    pipeline uses.  The YouTube branch has its own [try ... catch]: any
    exception of the metadata request, of the reads in its answer or of
    the transcript goes to the catch block, which requests the metadata a
    second time.  An exception of the article branch or of the catch block
    is not caught here: it reaches the top-level catch of the worker. *)

From Stdlib Require Import String Ascii NArith ZArith Lia.
From stdpp Require Import base list numbers gmap.
From S2P Require Import Prelude JsString JsValue Regex Effects.

(** [workerData]: the object the renderer passes through [main.js]. *)
Record content_data : Type := mkContentData {
  cd_sourceId : Z;
  cd_url : jsstr;
  cd_type : jsstr;
  cd_model : jsstr
}.

Definition nl : jsstr := [LF].

(** ** Articles (lines 58-68) *)

Definition user_agent : jsstr :=
  js "Mozilla/5.0 (Windows NT 10.0; Win64; x64) AppleWebKit/537.36".

Definition article_request (url : jsstr) : request :=
  HttpGet url [] [(js "User-Agent", user_agent)] (Some 10000%Z).

Definition extract_article (url : jsstr) : M (jsstr * jsval) :=
  let* data := call (article_request url) in
  let* content := lift (string_receiver data (js "content.match") (js "match")) in
  ret (content, VStr (match title_match content with Some t => t | None => js "Article" end)).

(** ** YouTube (lines 69-138) *)

Definition youtube_videos_url : jsstr := js "https://www.googleapis.com/youtube/v3/videos".

Definition video_request (videoId : jsstr) (key : option jsstr) : request :=
  HttpGet youtube_videos_url
    [(js "part", VStr (js "snippet")); (js "id", VStr videoId);
     (js "key", match key with Some k => VStr k | None => VUndef end)] [] None.

(** [videoResponse.data.items.length > 0] and [items[0].snippet]. *)
Definition first_snippet (data : jsval) : M (option jsval) :=
  let* items := lift (get_prop data (js "items")) in
  let* len := lift (get_prop items (js "length")) in
  if gt_zero len then
    let* item0 := lift (get_index items 0) in
    let* video := lift (get_prop item0 (js "snippet")) in
    ret (Some video)
  else ret None.

(** Line 96: [transcript.map(item => item.text).join(' ')]. *)
Definition transcript_text (transcript : jsval) : result jsstr :=
  match array_receiver transcript (js "transcript.map") with
  | Throw e => Throw e
  | Ok items =>
      match map_result (fun item => get_prop item (js "text")) items with
      | Throw e => Throw e
      | Ok texts => Ok (join_values (js " ") texts)
      end
  end.

(** Lines 101-111: the transcript, sampled when longer than 3000. *)
Definition sample_transcript (transcriptText : jsstr) : jsstr :=
  let len := Z.of_nat (length transcriptText) in
  if 3000 <? length transcriptText then
    let firstPart := substring transcriptText 0 1000 in
    let middleStart := (len / 2 - 500)%Z in
    let middlePart := substring transcriptText middleStart (middleStart + 1000) in
    let endPart := substring_from transcriptText (len - 1000) in
    js "Transcript (sampled):" ++ nl ++ firstPart ++ js "..." ++ nl ++ nl ++
    js "[middle section]" ++ nl ++ middlePart ++ js "..." ++ nl ++ nl ++
    js "[end section]" ++ nl ++ endPart
  else js "Transcript: " ++ transcriptText.

(** Line 99. *)
Definition content_head (videoTitle videoDescription : jsval) : jsstr :=
  to_js_string videoTitle ++ nl ++ nl ++ js "Description: " ++
  to_js_string videoDescription ++ nl ++ nl.

(** Lines 76-114: the [try] block. *)
Definition youtube_try (videoId : jsstr) : M (jsstr * jsval) :=
  let* youtubeApiKey := env_get (js "YOUTUBE_API_KEY") in
  let* data := call (video_request videoId youtubeApiKey) in
  let* snippet := first_snippet data in
  let* '(videoTitle, videoDescription) :=
    match snippet with
    | Some video =>
        let* t := lift (get_prop video (js "title")) in
        let* d := lift (get_prop video (js "description")) in
        ret (t, d)
    | None => ret (VStr (js "YouTube Video"), VStr [])
    end in
  let* transcript := call (FetchTranscript videoId) in
  let* transcriptText := lift (transcript_text transcript) in
  ret (content_head videoTitle videoDescription ++ sample_transcript transcriptText, videoTitle).

Definition youtube_stub (url : jsstr) : jsstr * jsval :=
  (js "YouTube video: " ++ url, VStr (js "YouTube Video")).

(** Lines 116-133: the [catch] block, which requests the metadata again. *)
Definition youtube_fallback (url videoId : jsstr) : M (jsstr * jsval) :=
  let* youtubeApiKey := env_get (js "YOUTUBE_API_KEY") in
  let* data := call (video_request videoId youtubeApiKey) in
  let* snippet := first_snippet data in
  match snippet with
  | Some video =>
      let* t := lift (get_prop video (js "title")) in
      let* d := lift (get_prop video (js "description")) in
      ret (to_js_string t ++ nl ++ nl ++ to_js_string d, t)
  | None => ret (youtube_stub url)
  end.

Definition extract_youtube (url : jsstr) : M (jsstr * jsval) :=
  match video_id url with
  | Some videoId => try_catch (youtube_try videoId) (fun _ => youtube_fallback url videoId)
  | None => ret (youtube_stub url)
  end.

(** ** The dispatch (lines 55-142) *)

Definition extract (cd : content_data) : M (jsstr * jsval) :=
  if decide (cd_type cd = js "article") then extract_article (cd_url cd)
  else if decide (cd_type cd = js "youtube") then extract_youtube (cd_url cd)
  else ret (js "Content from " ++ cd_type cd ++ js ": " ++ cd_url cd, VStr (cd_type cd)).

(** * Lemmas *)

(** The requests extraction may issue. *)
Definition is_fetch (ev : event) : Prop :=
  match ev with
  | EvRequest (HttpGet _ _ _ _) | EvRequest (FetchTranscript _) => True
  | _ => False
  end.

(** Extraction only sends GET requests and transcript requests: it writes
    no file and posts nothing. *)
Lemma extract_emits (cd : content_data) : emits is_fetch (extract cd).
Proof.
  unfold extract, extract_article, extract_youtube, youtube_try, youtube_fallback, first_snippet.
  emits_tac ltac:(exact I).
Qed.

(** C34. A transcript longer than 3000 code units is sent as three labelled
    windows of exactly 1000 code units: its beginning, the window around
    its middle and its end. *)
Theorem sample_transcript_long (t : jsstr) :
  3000 < length t ->
  sample_transcript t =
    js "Transcript (sampled):" ++ nl ++ take 1000 t ++ js "..." ++ nl ++ nl ++
    js "[middle section]" ++ nl ++ take 1000 (drop (length t / 2 - 500) t) ++ js "..." ++
    nl ++ nl ++ js "[end section]" ++ nl ++ drop (length t - 1000) t /\
  length (take 1000 t) = 1000 /\
  length (take 1000 (drop (length t / 2 - 500) t)) = 1000 /\
  length (drop (length t - 1000) t) = 1000.
Proof.
  intros Hlen.
  pose proof (Nat.div_mod_eq (length t) 2). pose proof (Nat.mod_upper_bound (length t) 2 ltac:(lia)).
  assert (Hz : (Z.of_nat (length t) / 2 = Z.of_nat (length t / 2))%Z)
    by (rewrite Nat2Z.inj_div; reflexivity).
  split; [|rewrite !length_take, !length_drop; lia].
  unfold sample_transcript. cbv zeta. rewrite Hz. case_if; [|apply Nat.ltb_ge in E; lia].
  rewrite substring_0, substring_window, substring_from_drop by lia.
  repeat f_equal; lia.
Qed.

(** A transcript of at most 3000 code units is sent whole. *)
Theorem sample_transcript_short (t : jsstr) :
  length t <= 3000 -> sample_transcript t = js "Transcript: " ++ t.
Proof.
  intros Hlen. unfold sample_transcript. case_if; [apply Nat.ltb_lt in E; lia|done].
Qed.

(** Source types other than article and youtube issue no request: the
    content is the stub naming the type and the URL, the title the type. *)
Theorem extract_other_types (cd : content_data) (w : world) :
  cd_type cd <> js "article" -> cd_type cd <> js "youtube" ->
  extract cd w = (Ok (js "Content from " ++ cd_type cd ++ js ": " ++ cd_url cd, VStr (cd_type cd)), w).
Proof. intros Ha Hy. unfold extract. by rewrite !decide_False. Qed.

(** A metadata answer with one video. *)
Definition snippet_answer (title description : jsstr) : jsval :=
  VObj [(js "items", VArr [VObj [(js "snippet",
    VObj [(js "title", VStr title); (js "description", VStr description)])]])].

Section YouTubeFallback.
Context (url videoId title description msg1 : jsstr) (w : world).
Hypothesis Hid : video_id url = Some videoId.
Hypothesis Hmeta :
  w_answer w (w_calls w) (video_request videoId (w_env w (js "YOUTUBE_API_KEY"))) = Answer (snippet_answer title description).
Hypothesis Htranscript : w_answer w (S (w_calls w)) (FetchTranscript videoId) = Failure msg1.

(** When the transcript fails, the catch block requests the metadata a
    second time and uses it: title and description only. *)
Theorem extract_youtube_transcript_failure :
  w_answer w (S (S (w_calls w))) (video_request videoId (w_env w (js "YOUTUBE_API_KEY"))) = Answer (snippet_answer title description) ->
  fst (extract_youtube url w) = Ok (title ++ nl ++ nl ++ description, VStr title).
Proof.
  intros Hmeta2. unfold extract_youtube. rewrite Hid.
  unfold youtube_try, youtube_fallback, first_snippet. unfold_M.
  rewrite Hmeta. simpl. rewrite Htranscript. simpl. by rewrite Hmeta2.
Qed.

(** C35. If that second metadata request fails, the exception leaves the
    extractor although the first request had returned the metadata: the
    job fails instead of falling back to title and description. *)
Theorem extract_youtube_refetch_failure (msg2 : jsstr) :
  w_answer w (S (S (w_calls w))) (video_request videoId (w_env w (js "YOUTUBE_API_KEY"))) = Failure msg2 ->
  fst (extract_youtube url w) = Throw (Error msg2).
Proof.
  intros Hmeta2. unfold extract_youtube. rewrite Hid.
  unfold youtube_try, youtube_fallback, first_snippet. unfold_M.
  rewrite Hmeta. simpl. rewrite Htranscript. simpl. by rewrite Hmeta2.
Qed.

End YouTubeFallback.

(** The article request is the first effect of an article job. *)
Lemma extract_article_failure (cd : content_data) (msg : jsstr) (w : world) :
  cd_type cd = js "article" ->
  w_answer w (w_calls w) (article_request (cd_url cd)) = Failure msg ->
  fst (extract cd w) = Throw (Error msg) /\
  w_trace (snd (extract cd w)) = w_trace w ++ [EvRequest (article_request (cd_url cd))].
Proof.
  intros Ht Ha. unfold extract. rewrite Ht, decide_True by done.
  unfold extract_article. unfold_M. by rewrite Ha.
Qed.

(** * Witnesses *)

Definition long_transcript : jsstr := repeat 97%N 1500 ++ repeat 98%N 1501.

Lemma sample_transcript_long_witness :
  3000 < length long_transcript /\
  sample_transcript long_transcript =
    js "Transcript (sampled):" ++ nl ++ take 1000 long_transcript ++ js "..." ++ nl ++ nl ++
    js "[middle section]" ++ nl ++
    take 1000 (drop (length long_transcript / 2 - 500) long_transcript) ++ js "..." ++
    nl ++ nl ++ js "[end section]" ++ nl ++ drop (length long_transcript - 1000) long_transcript /\
  length (take 1000 long_transcript) = 1000 /\
  length (take 1000 (drop (length long_transcript / 2 - 500) long_transcript)) = 1000 /\
  length (drop (length long_transcript - 1000) long_transcript) = 1000.
Proof.
  assert (H : 3000 < length long_transcript) by (vm_compute; lia).
  split; [exact H|]. exact (sample_transcript_long long_transcript H).
Defined.

Lemma sample_transcript_short_witness :
  length (js "Hello and welcome") <= 3000 /\
  sample_transcript (js "Hello and welcome") = js "Transcript: " ++ js "Hello and welcome".
Proof.
  assert (H : length (js "Hello and welcome") <= 3000) by (vm_compute; lia).
  split; [exact H|]. exact (sample_transcript_short _ H).
Defined.

Definition forum_job : content_data :=
  mkContentData 3 (js "https://forum.example.org/t/42") (js "forum") (js "").

Lemma extract_other_types_witness :
  cd_type forum_job <> js "article" /\ cd_type forum_job <> js "youtube" /\
  extract forum_job (sample_world (fun _ _ => Failure (js "offline"))) =
    (Ok (js "Content from " ++ cd_type forum_job ++ js ": " ++ cd_url forum_job,
         VStr (cd_type forum_job)), sample_world (fun _ _ => Failure (js "offline"))).
Proof.
  assert (Ha : cd_type forum_job <> js "article") by discriminate.
  assert (Hy : cd_type forum_job <> js "youtube") by discriminate.
  split; [exact Ha|]. split; [exact Hy|]. exact (extract_other_types _ _ Ha Hy).
Defined.

(** The YouTube services: the first metadata request succeeds, the
    transcript fails, the second metadata request answers [second]. *)
Definition yt_oracle (second : outcome) (n : nat) (r : request) : outcome :=
  match n with
  | 0 => Answer (snippet_answer (js "Rust in 100 Seconds") (js "A fast tour"))
  | 1 => Failure (js "Transcript is disabled on this video")
  | _ => second
  end.

Definition yt_url : jsstr := js "https://youtu.be/5C_HPTJg5ek?si=share".

Definition yt_world_ok : world :=
  sample_world (yt_oracle (Answer (snippet_answer (js "Rust in 100 Seconds") (js "A fast tour")))).
Definition yt_world_403 : world :=
  sample_world (yt_oracle (Failure (js "Request failed with status code 403"))).

Lemma extract_youtube_transcript_failure_witness :
  fst (extract_youtube yt_url yt_world_ok) =
    Ok (js "Rust in 100 Seconds" ++ nl ++ nl ++ js "A fast tour", VStr (js "Rust in 100 Seconds")).
Proof.
  apply (extract_youtube_transcript_failure yt_url (js "5C_HPTJg5ek") _ _
    (js "Transcript is disabled on this video") yt_world_ok); reflexivity.
Defined.

Lemma extract_youtube_refetch_failure_witness :
  fst (extract_youtube yt_url yt_world_403) = Throw (Error (js "Request failed with status code 403")).
Proof.
  apply (extract_youtube_refetch_failure yt_url (js "5C_HPTJg5ek")
    (js "Rust in 100 Seconds") (js "A fast tour") (js "Transcript is disabled on this video")
    yt_world_403);
    reflexivity.
Defined.
