(* ===== verification/Summarize.v ===== *)
(** * The summarization request of [processContent]

    Lines 144-185 of [src/contentProcessor.js]: the OpenRouter key is read
    from the environment and its absence throws; the prompt is the fixed
    instruction text followed by the first 6000 code units of the content;
    one POST carries the model (the job's, or [openai/gpt-3.5-turbo] when
    it is empty) and the prompt; [choices[0].message.content] of the answer
    is the summary, and the debug log of line 185 calls [substring] on it,
    which throws when it is not a string. *)

From Stdlib Require Import String Ascii NArith ZArith Lia.
From stdpp Require Import base list numbers gmap.
From S2P Require Import Prelude JsString JsValue Effects Extractor.

Local Open Scope string_scope.

(** Lines 155-174: the template literal up to its substitution. *)
Definition prompt_head : jsstr :=
  js_lines
    ["Create a comprehensive, educational summary of this content for learning purposes.";
     "";
     "Provide an in-depth analysis that includes:";
     "- Main topic and objectives";
     "- Key concepts and techniques explained";
     "- Step-by-step implementation guidance where applicable";
     "- Examples and use cases";
     "- Benefits and potential applications";
     "- Resources mentioned";
     "";
     "Then, provide exactly 5 key learning points with actionable takeaways, formatted as:";
     "";
     "**Key Learning Points:**";
     "1. [First actionable takeaway]";
     "2. [Second actionable takeaway]";
     "3. [Third actionable takeaway]";
     "4. [Fourth actionable takeaway]";
     "5. [Fifth actionable takeaway]";
     "";
     "Content: "].

Local Close Scope string_scope.

Definition prompt_text (content : jsstr) : jsstr :=
  prompt_head ++ substring content 0 6000.

Definition openrouter_url : jsstr := js "https://openrouter.ai/api/v1/chat/completions".

Definition default_model : jsstr := js "openai/gpt-3.5-turbo".

(** [contentData.model || 'openai/gpt-3.5-turbo'] *)
Definition chat_model (model : jsstr) : jsstr :=
  match model with [] => default_model | _ => model end.

Definition chat_body (model prompt : jsstr) : jsval :=
  VObj [(js "model", VStr model);
        (js "messages", VArr [VObj [(js "role", VStr (js "user")); (js "content", VStr prompt)]])].

Definition chat_headers (apiKey : jsstr) : list (jsstr * jsstr) :=
  [(js "Authorization", js "Bearer " ++ apiKey); (js "Content-Type", js "application/json")].

Definition chat_request (model apiKey content : jsstr) : request :=
  HttpPost openrouter_url (chat_body (chat_model model) (prompt_text content)) (chat_headers apiKey).

(** [if (!apiKey)]: undefined and the empty string are falsy. *)
Definition key_present (k : option jsstr) : option jsstr :=
  match k with Some ((_ :: _) as s) => Some s | _ => None end.

(** [summaryResponse.data.choices[0].message.content] *)
Definition answer_content (data : jsval) : result jsval :=
  match get_prop data (js "choices") with
  | Throw e => Throw e
  | Ok choices =>
      match get_index choices 0 with
      | Throw e => Throw e
      | Ok c0 =>
          match get_prop c0 (js "message") with
          | Throw e => Throw e
          | Ok msg => get_prop msg (js "content")
          end
      end
  end.

Definition summarize (model content : jsstr) : M jsstr :=
  let* apiKey := env_get (js "OPENROUTER_API_KEY") in
  match key_present apiKey with
  | None => throw (Error (js "OpenRouter API key not found"))
  | Some key =>
      let* data := call (chat_request model key content) in
      let* summary := lift (answer_content data) in
      (* line 185: summary.substring(0, 500) in the debug log *)
      lift (string_receiver summary (js "summary.substring") (js "substring"))
  end.

(** * Lemmas *)

Definition is_chat (ev : event) : Prop :=
  match ev with EvRequest (HttpPost _ _ _) => True | _ => False end.

Lemma summarize_emits (model content : jsstr) : emits is_chat (summarize model content).
Proof. unfold summarize. emits_tac ltac:(exact I). Qed.

(** [!apiKey] is false exactly for a non-empty string. *)
Lemma key_present_spec (k : option jsstr) (s : jsstr) :
  key_present k = Some s <-> k = Some s /\ s <> [].
Proof. destruct k as [[|c t]|]; simpl; split; intros; naive_solver. Qed.

(** Without a key, [summarize] throws before any request. *)
Lemma summarize_no_key (model content : jsstr) (w : world) :
  key_present (w_env w (js "OPENROUTER_API_KEY")) = None ->
  summarize model content w = (Throw (Error (js "OpenRouter API key not found")), w).
Proof. intros H. unfold summarize. unfold_M. by rewrite H. Qed.

(** The prompt carries the first 6000 code units of the content: its
    length is at most the instruction text plus 6000. *)
Theorem prompt_text_bound (content : jsstr) :
  prompt_text content = prompt_head ++ take 6000 content /\
  length (prompt_text content) <= length prompt_head + 6000.
Proof.
  unfold prompt_text. rewrite substring_0 by lia. split; [done|].
  rewrite length_app, length_take. assert (Z.to_nat 6000 = 6000) as -> by reflexivity. lia.
Qed.

(** C33. With a key, [summarize] sends exactly one request: a POST to the
    OpenRouter chat endpoint whose body names the job's model, or
    [openai/gpt-3.5-turbo] when the job has none, and one user message made
    of the instruction text and the first 6000 code units of the content,
    with the key as a Bearer token and a JSON content type; it returns the
    answer's [choices[0].message.content] when that is a string. *)
Theorem summarize_request (model content key : jsstr) (fs fs0 fs1 : list (jsstr * jsval))
    (cs : list jsval) (s : jsstr) (w : world) :
  key_present (w_env w (js "OPENROUTER_API_KEY")) = Some key ->
  let req := HttpPost (js "https://openrouter.ai/api/v1/chat/completions")
    (VObj [(js "model", VStr (match model with [] => js "openai/gpt-3.5-turbo" | _ => model end));
           (js "messages", VArr [VObj [(js "role", VStr (js "user"));
                                       (js "content", VStr (prompt_head ++ take 6000 content))]])])
    [(js "Authorization", js "Bearer " ++ key); (js "Content-Type", js "application/json")] in
  w_answer w (w_calls w) req = Answer (VObj fs) ->
  lookup_field (js "choices") fs = Some (VArr (VObj fs0 :: cs)) ->
  lookup_field (js "message") fs0 = Some (VObj fs1) ->
  lookup_field (js "content") fs1 = Some (VStr s) ->
  fst (summarize model content w) = Ok s /\
  w_trace (snd (summarize model content w)) = w_trace w ++ [EvRequest req].
Proof.
  intros Hk req Ha H1 H2 H3.
  assert (Hreq : chat_request model key content = req).
  { unfold chat_request, chat_body, chat_headers. rewrite (proj1 (prompt_text_bound content)).
    by destruct model. }
  assert (Hc : answer_content (VObj fs) = Ok (VStr s)).
  { unfold answer_content. cbn [get_prop]. rewrite H1. cbn [get_index lookup list_lookup].
    cbn [get_prop]. rewrite H2. cbn [get_prop]. by rewrite H3. }
  rewrite <- Hreq in Ha |- *. unfold summarize. unfold_M. rewrite Hk. simpl. by rewrite Ha, Hc.
Qed.

(** C36. An answer whose [content] is [null] (a refused or filtered
    completion) throws V8's TypeError at the debug log of line 185. *)
Theorem summarize_null_content (model content key : jsstr) (w : world) :
  key_present (w_env w (js "OPENROUTER_API_KEY")) = Some key ->
  w_answer w (w_calls w) (chat_request model key content) =
    Answer (VObj [(js "choices", VArr [VObj [(js "message", VObj [(js "content", VNull)])]])]) ->
  fst (summarize model content w) =
    Throw (TypeError (js "Cannot read properties of null (reading 'substring')")).
Proof. intros Hk Ha. unfold summarize. unfold_M. rewrite Hk. simpl. by rewrite Ha. Qed.

(** * Witnesses *)

Definition chat_answer (s : jsstr) : jsval :=
  VObj [(js "choices", VArr [VObj [(js "message", VObj [(js "content", VStr s)])]])].

Definition null_answer : jsval :=
  VObj [(js "choices", VArr [VObj [(js "message", VObj [(js "content", VNull)])]])].

Definition chat_world (a : jsval) : world := sample_world_key (fun _ _ => Answer a).

Lemma summarize_request_witness :
  fst (summarize (js "") (js "Some article text") (chat_world (chat_answer (js "A summary")))) =
    Ok (js "A summary").
Proof.
  refine (proj1 (summarize_request (js "") (js "Some article text") (js "sk-or-test")
    [(js "choices", VArr [VObj [(js "message", VObj [(js "content", VStr (js "A summary"))])]])]
    [(js "message", VObj [(js "content", VStr (js "A summary"))])]
    [(js "content", VStr (js "A summary"))] [] (js "A summary") _ _ _ _ _ _));
    vm_compute; reflexivity.
Defined.

Lemma summarize_null_content_witness :
  fst (summarize (js "openai/gpt-4") (js "text") (chat_world null_answer)) =
    Throw (TypeError (js "Cannot read properties of null (reading 'substring')")).
Proof. apply (summarize_null_content _ _ (js "sk-or-test")); vm_compute; reflexivity. Defined.
