(* ===== verification/Tts.v ===== *)
(** * Speech synthesis and the saved podcast

    [generateTTS] (lines 11-50 of [src/contentProcessor.js]) writes the
    text to [temp_tts_<now>.txt] beside the module, runs PowerShell's
    [System.Speech] with a 60 s timeout to render it into
    [temp_tts_<now>.wav] (the two names read the clock separately), reads
    the WAV back and deletes both files; any exception returns [null].
    The deletion sits in the [try] block after the engine and the read, so
    an exception of either skips it.  Lines 252-265 save the audio under
    [outputs/podcast_<sourceId>_<now>.wav]. *)

From Stdlib Require Import String Ascii NArith ZArith Lia.
From stdpp Require Import base list numbers gmap.
From S2P Require Import Prelude JsString JsValue Effects Extractor.

Definition default_voice : jsstr := js "Microsoft Zira Desktop".

Definition dquote : jsstr := [34%N].

(** Line 24. *)
Definition ps_command (voice tempAudioPath tempTextPath : jsstr) : jsstr :=
  js "powershell -Command " ++ dquote ++
  js "Add-Type -AssemblyName System.Speech; $speak = New-Object System.Speech.Synthesis.SpeechSynthesizer; $speak.SelectVoice(" ++
  quote ++ voice ++ quote ++ js "); $speak.SetOutputToWaveFile(" ++
  quote ++ tempAudioPath ++ quote ++ js "); $speak.Speak([IO.File]::ReadAllText(" ++
  quote ++ tempTextPath ++ quote ++ js ")); $speak.Dispose()" ++ dquote.

Definition temp_name (stamp : Z) (ext : jsstr) : jsstr :=
  js "temp_tts_" ++ z_to_js stamp ++ ext.

(** Line 27: [await execAsync(psCommand, { timeout: 60000 })]; the engine
    writes the WAV file it renders. *)
Definition run_speech (cmd tempAudioPath : jsstr) : M unit :=
  let* v := call (ExecCommand cmd 60000) in
  match v with
  | VStr bytes => write_file tempAudioPath bytes
  | _ => ret tt
  end.

(** Lines 12-50. *)
Definition generateTTS (text voice : jsstr) : M (option (list N)) :=
  try_catch
    (let* dir := dirname in
     let* t1 := now in
     let tempTextPath := path_join dir (temp_name t1 (js ".txt")) in
     let* t2 := now in
     let tempAudioPath := path_join dir (temp_name t2 (js ".wav")) in
     let* _ := write_file tempTextPath text in
     let* _ := run_speech (ps_command voice tempAudioPath tempTextPath) tempAudioPath in
     let* audioBuffer := read_file tempAudioPath in
     let* _ := try_catch (let* _ := unlink tempTextPath in unlink tempAudioPath)
                         (fun _ => ret tt) in
     ret (Some audioBuffer))
    (fun _ => ret None).

(** Lines 252-265. *)
Definition save_podcast (sourceId : Z) (ttsText : jsstr) : M (option jsstr) :=
  let* podcastAudio := generateTTS ttsText default_voice in
  match podcastAudio with
  | None => ret None
  | Some audio =>
      let* dir := dirname in
      let audioDir := path_join dir (js "outputs") in
      let* there := exists_path audioDir in
      let* _ := if there then ret tt else mkdir_p audioDir in
      let* timestamp := now in
      let podcastPath := path_join audioDir
        (js "podcast_" ++ z_to_js sourceId ++ js "_" ++ z_to_js timestamp ++ js ".wav") in
      let* _ := write_file podcastPath audio in
      ret (Some podcastPath)
  end.

(** * Lemmas *)

(** The effects of speech synthesis and of saving its audio. *)
Definition is_tts_effect (ev : event) : Prop :=
  match ev with
  | EvRequest (ExecCommand _ _) | EvWrite _ | EvUnlink _ | EvMkdir _ => True
  | _ => False
  end.

Lemma write_file_emits (path : jsstr) (data : list N) : emits is_tts_effect (write_file path data).
Proof. unfold write_file. emits_tac ltac:(exact I). Qed.

Lemma unlink_emits (path : jsstr) : emits is_tts_effect (unlink path).
Proof. unfold unlink. emits_tac ltac:(exact I). Qed.

Lemma read_file_emits (path : jsstr) : emits is_tts_effect (read_file path).
Proof. unfold read_file. emits_tac ltac:(exact I). Qed.

Lemma exists_path_emits (path : jsstr) : emits is_tts_effect (exists_path path).
Proof. unfold exists_path. emits_tac ltac:(exact I). Qed.

Lemma mkdir_p_emits (path : jsstr) : emits is_tts_effect (mkdir_p path).
Proof. unfold mkdir_p. emits_tac ltac:(exact I). Qed.

#[export] Hint Resolve write_file_emits unlink_emits read_file_emits exists_path_emits
  mkdir_p_emits : js.

Lemma generateTTS_emits (text voice : jsstr) : emits is_tts_effect (generateTTS text voice).
Proof. unfold generateTTS, run_speech. emits_tac ltac:(exact I). Qed.

#[export] Hint Resolve generateTTS_emits : js.

Lemma save_podcast_emits (sourceId : Z) (ttsText : jsstr) :
  emits is_tts_effect (save_podcast sourceId ttsText).
Proof. unfold save_podcast. emits_tac ltac:(exact I). Qed.

Lemma generateTTS_total (text voice : jsstr) : total (generateTTS text voice).
Proof. unfold generateTTS. total_tac. Qed.

#[export] Hint Resolve generateTTS_total : js.

(** C12. Saving the podcast throws nothing but a disk error: whatever the
    speech engine does, the job goes on, with or without a path, unless
    the disk refuses a write. *)
Theorem save_podcast_disk_errors_only (sourceId : Z) (ttsText : jsstr) :
  raises_disk (save_podcast sourceId ttsText).
Proof.
  unfold save_podcast. apply raises_disk_bind.
  - eapply emits_weaken; [|apply generateTTS_emits]. done.
  - apply raises_disk_total, generateTTS_total.
  - intros [audio|]; raises_disk_tac.
Qed.

Definition temp_text_path (w : world) : jsstr :=
  path_join (w_dirname w) (temp_name (w_clock w (w_reads w)) (js ".txt")).

(** When the engine fails, [generateTTS] returns [null], whether or not
    the disk accepted the text file. *)
Lemma generateTTS_engine_failure (text voice msg : jsstr) (w : world) :
  (forall cmd t, w_answer w (w_calls w) (ExecCommand cmd t) = Failure msg) ->
  fst (generateTTS text voice w) = Ok None.
Proof.
  intros Hfail.
  unfold generateTTS, run_speech, write_file, try_catch, bind, dirname, now, get_world,
    set_fs, emit, call; simpl.
  destruct (w_disk_error w _); simpl; [done|]. by rewrite Hfail.
Qed.

(** C26. When the speech engine fails (a timeout, a missing voice),
    [generateTTS] returns [null] and leaves its temporary text file on
    disk: the deletion is skipped on that path. *)
Theorem generateTTS_engine_failure_leaks (text voice msg : jsstr) (w : world) :
  (forall cmd t, w_answer w (w_calls w) (ExecCommand cmd t) = Failure msg) ->
  w_disk_error w (temp_text_path w) = None ->
  fst (generateTTS text voice w) = Ok None /\
  w_fs (snd (generateTTS text voice w)) !! temp_text_path w = Some (File text).
Proof.
  intros Hfail Hd. split; [by apply (generateTTS_engine_failure _ _ msg)|].
  unfold temp_text_path in Hd.
  unfold generateTTS, run_speech, write_file, try_catch, bind, dirname, now, get_world,
    set_fs, emit, call; simpl. rewrite Hd. simpl. rewrite Hfail. simpl. apply lookup_insert_eq.
Qed.

Lemma save_podcast_engine_failure (sourceId : Z) (text msg : jsstr) (w : world) :
  (forall cmd t, w_answer w (w_calls w) (ExecCommand cmd t) = Failure msg) ->
  fst (save_podcast sourceId text w) = Ok None.
Proof.
  intros Hfail. pose proof (generateTTS_engine_failure text default_voice msg w Hfail) as H.
  unfold save_podcast, bind. destruct (generateTTS text default_voice w) as [r w'].
  simpl in H. by subst r.
Qed.

Definition temp_audio_path (w : world) : jsstr :=
  path_join (w_dirname w) (temp_name (w_clock w (S (w_reads w))) (js ".wav")).

(** The directory of line 257. *)
Definition outputs_dir (w : world) : jsstr := path_join (w_dirname w) (js "outputs").

(** When the engine renders [bytes] and the disk accepts both temporary
    files, [generateTTS] returns [bytes]. *)
Lemma generateTTS_engine_success (text voice : jsstr) (bytes : list N) (w : world) :
  (forall n cmd t, w_answer w n (ExecCommand cmd t) = Answer (VStr bytes)) ->
  w_disk_error w (temp_text_path w) = None -> w_disk_error w (temp_audio_path w) = None ->
  fst (generateTTS text voice w) = Ok (Some bytes).
Proof.
  intros He Ht Ha. unfold temp_text_path, temp_audio_path in *.
  unfold generateTTS at 1. unfold try_catch at 1.
  unfold run_speech, write_file, read_file, bind, dirname, now, get_world, set_fs, emit, call, ret;
    simpl. rewrite Ht. simpl. rewrite He. simpl. rewrite Ha. simpl. rewrite lookup_insert_eq.
  match goal with |- context [try_catch ?m ?h ?w0] =>
    destruct (total_try_catch m h (fun _ => total_ret tt) w0) as [[] Hu];
    destruct (try_catch m h w0) as [r w6]; simpl in Hu; subst r end.
  reflexivity.
Qed.

(** When the engine renders the audio but the disk refuses writes under
    [outputs], saving the podcast throws the disk error: the [mkdirSync]
    and [writeFileSync] of lines 259 and 264 are not guarded like the
    synthesis. *)
Theorem save_podcast_write_failure (sourceId : Z) (text : jsstr) (bytes : list N) (msg : jsstr)
    (w : world) :
  (forall n cmd t, w_answer w n (ExecCommand cmd t) = Answer (VStr bytes)) ->
  (forall p, w_disk_error w p = if is_prefix (outputs_dir w) p then Some msg else None) ->
  fst (save_podcast sourceId text w) = Throw (Error msg).
Proof.
  intros He Hd.
  assert (Htmp : forall stamp ext,
    w_disk_error w (path_join (w_dirname w) (temp_name stamp ext)) = None).
  { intros. rewrite Hd. unfold outputs_dir, path_join. by rewrite is_prefix_app_same. }
  pose proof (generateTTS_engine_success text default_voice bytes w He (Htmp _ _) (Htmp _ _)) as Hg.
  destruct (generateTTS_emits text default_voice w) as (_ & Hdir & _ & Hdisk & _).
  unfold save_podcast. destruct (generateTTS text default_voice w) as [r w1] eqn:E.
  cbn [fst snd] in Hg, Hdir, Hdisk. subst r.
  rewrite (bind_ok _ _ _ _ _ E). cbv beta iota.
  rewrite (bind_ok dirname _ w1 w1 (w_dirname w1) eq_refl). cbv beta.
  rewrite (bind_ok (exists_path _) _ w1 w1 _ eq_refl). cbv beta.
  assert (Hout : forall rest, w_disk_error w1 (outputs_dir w ++ rest) = Some msg).
  { intros rest. by rewrite Hdisk, Hd, is_prefix_app_self. }
  unfold outputs_dir in Hout. rewrite Hdir.
  destruct (w_fs w1 !! _); cbv iota.
  - rewrite (bind_ok (ret tt) _ w1 w1 tt eq_refl). cbv beta.
    rewrite (bind_ok now _ w1 _ _ eq_refl). cbv beta.
    erewrite bind_throw; [reflexivity|]. apply write_file_refused.
    cbn [w_disk_error]. apply (Hout ([92%N] ++ _)).
  - erewrite bind_throw; [reflexivity|]. apply mkdir_p_refused.
    by rewrite <- (app_nil_r (path_join _ _)), Hout.
Qed.

(** * Witnesses *)

Definition engine_timeout : outcome := Failure (js "Command failed: powershell (timed out)").

Lemma generateTTS_engine_failure_leaks_witness :
  fst (generateTTS (js "Hello") default_voice (sample_world (fun _ _ => engine_timeout))) = Ok None /\
  w_fs (snd (generateTTS (js "Hello") default_voice (sample_world (fun _ _ => engine_timeout))))
    !! temp_text_path (sample_world (fun _ _ => engine_timeout)) = Some (File (js "Hello")).
Proof.
  apply (generateTTS_engine_failure_leaks _ _ (js "Command failed: powershell (timed out)")).
  - intros. reflexivity.
  - reflexivity.
Defined.
