(* ===== verification/Worker.v ===== *)
(** * The worker: [processContent]

    Lines 53-273 of [src/contentProcessor.js]: extraction, the
    summarization request, the parse of the answer, speech synthesis and
    the saved podcast, then one [postMessage] with the result; the
    top-level [catch] turns every exception of these steps into one
    [{ error: 'Failed to process content: ' + message }] message.  The
    worker runs [processContent(workerData)] once (line 273). *)

From Stdlib Require Import String Ascii NArith ZArith Lia.
From stdpp Require Import base list numbers gmap.
From S2P Require Import Prelude JsString JsValue Regex KeyPoints Effects Extractor Summarize Tts.

Section Worker.
Context `{LC : LowerCase}.

Definition failure_prefix : jsstr := js "Failed to process content: ".

(** The [try] block of lines 54-267. *)
Definition pipeline (cd : content_data) : M unit :=
  let* '(content, title) := extract cd in
  let* summary := summarize (cd_model cd) content in
  let keyPoints := parse_key_points summary in
  let ttsText := tts_text summary in
  let* podcastPath := save_podcast (cd_sourceId cd) ttsText in
  post (MsgResult content title summary keyPoints podcastPath).

(** Lines 53-271. *)
Definition processContent (cd : content_data) : M unit :=
  try_catch (pipeline cd)
    (fun error => post (MsgError (failure_prefix ++ error_message error))).

(** ** The message is posted once, last *)

Definition no_post (ev : event) : Prop :=
  match ev with EvPost _ => False | _ => True end.

(** [m] posts nothing when it throws, and exactly one message, as its last
    event, when it returns. *)
Definition posts_last {A} (m : M A) : Prop :=
  forall w, exists evs, Forall no_post evs /\
    match m w with
    | (Ok _, w') => exists msg, w_trace w' = w_trace w ++ evs ++ [EvPost msg]
    | (Throw _, w') => w_trace w' = w_trace w ++ evs
    end.

Lemma posts_last_post (msg : worker_message) : posts_last (post msg).
Proof. intros w. exists []. split; [done|]. by exists msg. Qed.

Lemma posts_last_bind {A B} (m : M A) (k : A -> M B) :
  emits no_post m -> (forall a, posts_last (k a)) -> posts_last (bind m k).
Proof.
  intros Hm Hk w. unfold bind. destruct (Hm w) as (_ & _ & _ & _ & evs & Ht & F).
  destruct (m w) as [[a|e] w1]; simpl in *.
  - destruct (Hk a w1) as (evs' & F' & H). exists (evs ++ evs').
    split; [by apply Forall_app|]. destruct (k a w1) as [[b|e] w2].
    + destruct H as [msg ->]. exists msg. by rewrite Ht, <- !app_assoc.
    + by rewrite H, Ht, app_assoc.
  - by exists evs.
Qed.

Lemma no_post_weaken {A} (P : event -> Prop) (m : M A) :
  (forall ev, P ev -> no_post ev) -> emits P m -> emits no_post m.
Proof. apply emits_weaken. Qed.

Lemma pipeline_posts_last (cd : content_data) : posts_last (pipeline cd).
Proof.
  unfold pipeline. apply posts_last_bind.
  { apply (no_post_weaken is_fetch); [by intros [[]| | | |]|apply extract_emits]. }
  intros [content title]. apply posts_last_bind.
  { apply (no_post_weaken is_chat); [by intros [[]| | | |]|apply summarize_emits]. }
  intros summary. apply posts_last_bind.
  { apply (no_post_weaken is_tts_effect); [by intros [[]| | | |]|apply save_podcast_emits]. }
  intros podcastPath. apply posts_last_post.
Qed.

(** C1. Whatever the services answer, the worker ends normally and posts
    exactly one message, after every other effect of the job. *)
Theorem processContent_posts_once (cd : content_data) (w : world) :
  fst (processContent cd w) = Ok tt /\
  exists evs msg, w_trace (snd (processContent cd w)) = w_trace w ++ evs ++ [EvPost msg] /\
    Forall no_post evs.
Proof.
  unfold processContent, try_catch. destruct (pipeline_posts_last cd w) as (evs & F & H).
  destruct (pipeline cd w) as [[[]|e] w'].
  - destruct H as [msg Ht]. split; [done|]. by exists evs, msg.
  - split; [done|]. exists evs, (MsgError (failure_prefix ++ error_message e)).
    split; [|done]. simpl. by rewrite H, app_assoc.
Qed.

(** ** Which failures abort the job *)

(** C9. Without an OpenRouter key the job posts an error and never sends
    the chat request, runs the speech engine or writes a file: before the
    error only extraction requests are made, and the error is the missing
    key unless extraction itself failed. *)
Theorem processContent_missing_key (cd : content_data) (w : world) :
  key_present (w_env w (js "OPENROUTER_API_KEY")) = None ->
  exists evs e,
    w_trace (snd (processContent cd w)) =
      w_trace w ++ evs ++ [EvPost (MsgError (failure_prefix ++ error_message e))] /\
    Forall is_fetch evs /\
    (e = Error (js "OpenRouter API key not found") \/ fst (extract cd w) = Throw e).
Proof.
  intros Hk. destruct (extract_emits cd w) as (Henv & _ & _ & _ & evs & Ht & F).
  unfold processContent, try_catch, pipeline, bind.
  destruct (extract cd w) as [[[c t]|e] w1] eqn:E; simpl in *.
  - rewrite summarize_no_key by (by rewrite Henv). simpl.
    exists evs, (Error (js "OpenRouter API key not found")). rewrite Ht, <- app_assoc.
    split; [reflexivity|split; [done|by left]].
  - exists evs, e. rewrite Ht, <- app_assoc. split; [reflexivity|split; [done|by right]].
Qed.

(** C14. A failed article fetch (network error, timeout, HTTP error status)
    is not degraded to a stub: the job posts the fetch error. *)
Theorem processContent_article_fetch_failure (cd : content_data) (msg : jsstr) (w : world) :
  cd_type cd = js "article" ->
  w_answer w (w_calls w) (article_request (cd_url cd)) = Failure msg ->
  w_trace (snd (processContent cd w)) =
    w_trace w ++ [EvRequest (article_request (cd_url cd)); EvPost (MsgError (failure_prefix ++ msg))].
Proof.
  intros Ht Ha. destruct (extract_article_failure cd msg w Ht Ha) as [Hr Htr].
  unfold processContent, try_catch, pipeline, bind.
  destruct (extract cd w) as [r w1]. simpl in *. subst r. simpl. by rewrite Htr, <- app_assoc.
Qed.

(** C11. When the speech engine fails, a job whose extraction and
    summarization succeeded still posts its complete result, without a
    podcast path. *)
Theorem processContent_without_audio (cd : content_data) (w : world) (content summary msg : jsstr)
    (title : jsval) :
  fst (extract cd w) = Ok (content, title) ->
  fst (summarize (cd_model cd) content (snd (extract cd w))) = Ok summary ->
  (forall n cmd t, w_answer w n (ExecCommand cmd t) = Failure msg) ->
  fst (processContent cd w) = Ok tt /\
  last (w_trace (snd (processContent cd w))) =
    Some (EvPost (MsgResult content title summary (parse_key_points summary) None)).
Proof.
  intros He Hs Hf. destruct (extract_emits cd w) as (_ & _ & Ha1 & _).
  unfold processContent, try_catch, pipeline, bind.
  destruct (extract cd w) as [r1 w1]. simpl in He, Hs, Ha1. subst r1. simpl.
  destruct (summarize_emits (cd_model cd) content w1) as (_ & _ & Ha2 & _).
  destruct (summarize (cd_model cd) content w1) as [r2 w2]. simpl in Hs, Ha2. subst r2. simpl.
  pose proof (save_podcast_engine_failure (cd_sourceId cd) (tts_text summary) msg w2
    ltac:(intros; rewrite Ha2, Ha1; apply Hf)) as Hp.
  destruct (save_podcast (cd_sourceId cd) (tts_text summary) w2) as [r3 w3].
  simpl in Hp. subst r3. simpl. split; [done|]. by rewrite last_snoc.
Qed.

(** C13. When the engine renders the audio but the disk refuses to save it
    under [outputs], the job posts an error instead of its result: the
    failure of the audio artifact fails the whole job. *)
Theorem processContent_podcast_write_failure (cd : content_data) (w : world)
    (content summary msg : jsstr) (title : jsval) (bytes : list N) :
  fst (extract cd w) = Ok (content, title) ->
  fst (summarize (cd_model cd) content (snd (extract cd w))) = Ok summary ->
  (forall n cmd t, w_answer w n (ExecCommand cmd t) = Answer (VStr bytes)) ->
  (forall p, w_disk_error w p = if is_prefix (outputs_dir w) p then Some msg else None) ->
  fst (processContent cd w) = Ok tt /\
  last (w_trace (snd (processContent cd w))) = Some (EvPost (MsgError (failure_prefix ++ msg))).
Proof.
  intros He Hs Hf Hd. destruct (extract_emits cd w) as (_ & Hd1 & Ha1 & Hk1 & _).
  unfold processContent, try_catch, pipeline, bind.
  destruct (extract cd w) as [r1 w1]. simpl in He, Hs, Ha1, Hd1, Hk1. subst r1. simpl.
  destruct (summarize_emits (cd_model cd) content w1) as (_ & Hd2 & Ha2 & Hk2 & _).
  destruct (summarize (cd_model cd) content w1) as [r2 w2]. simpl in Hs, Ha2, Hd2, Hk2.
  subst r2. simpl.
  pose proof (save_podcast_write_failure (cd_sourceId cd) (tts_text summary) bytes msg w2
    ltac:(intros; rewrite Ha2, Ha1; apply Hf)
    ltac:(intros; unfold outputs_dir; rewrite Hk2, Hk1, Hd2, Hd1; apply Hd)) as Hp.
  destruct (save_podcast (cd_sourceId cd) (tts_text summary) w2) as [r3 w3].
  simpl in Hp. subst r3. simpl. split; [done|]. by rewrite last_snoc.
Qed.

End Worker.

(** * Witnesses *)

Definition article_job : content_data :=
  mkContentData 7 (js "http://example.com") (js "article") (js "").

Definition html_page : jsstr := js "<html><head><title>Test</title></head></html>".

Definition full_oracle (exec : outcome) (n : nat) (r : request) : outcome :=
  match r with
  | HttpGet _ _ _ _ => Answer (VStr html_page)
  | HttpPost _ _ _ => Answer (chat_answer (js "Narrative text"))
  | ExecCommand _ _ => exec
  | FetchTranscript _ => Failure (js "no transcript")
  end.

Lemma processContent_missing_key_witness :
  exists evs e,
    w_trace (snd (processContent article_job (sample_world (full_oracle engine_timeout)))) =
      w_trace (sample_world (full_oracle engine_timeout)) ++ evs ++
        [EvPost (MsgError (failure_prefix ++ error_message e))] /\
    Forall is_fetch evs /\
    (e = Error (js "OpenRouter API key not found") \/
     fst (extract article_job (sample_world (full_oracle engine_timeout))) = Throw e).
Proof. apply processContent_missing_key. vm_compute. reflexivity. Defined.

Lemma processContent_article_fetch_failure_witness :
  w_trace (snd (processContent article_job (sample_world_key (fun _ _ => Failure (js "timeout of 10000ms exceeded"))))) =
    w_trace (sample_world_key (fun _ _ => Failure (js "timeout of 10000ms exceeded"))) ++
      [EvRequest (article_request (cd_url article_job));
       EvPost (MsgError (failure_prefix ++ js "timeout of 10000ms exceeded"))].
Proof. apply processContent_article_fetch_failure; vm_compute; reflexivity. Defined.

Lemma processContent_without_audio_witness :
  fst (processContent article_job (sample_world_key (full_oracle engine_timeout))) = Ok tt /\
  last (w_trace (snd (processContent article_job (sample_world_key (full_oracle engine_timeout))))) =
    Some (EvPost (MsgResult html_page (VStr (js "Test")) (js "Narrative text")
                   (parse_key_points (js "Narrative text")) None)).
Proof.
  apply (processContent_without_audio _ _ _ _ (js "Command failed: powershell (timed out)"));
    [vm_compute; reflexivity | vm_compute; reflexivity | intros; reflexivity].
Defined.

Definition wav_bytes : list N := [82; 73; 70; 70]%N.

(** A world whose [outputs] directory refuses writes. *)
Definition readonly_outputs_world : world :=
  mkWorld (full_oracle (Answer (VStr wav_bytes))) 0 (fun n => (1700000000000 + Z.of_nat n)%Z) 0
    (fun k => if decide (k = js "OPENROUTER_API_KEY") then Some (js "sk-or-test") else None)
    (js "C:\app") {[ js "C:\app" := Dir ]}
    (fun p => if is_prefix (js "C:\app\outputs") p then Some (js "EACCES: permission denied")
              else None)
    [].

Lemma processContent_podcast_write_failure_witness :
  fst (processContent article_job readonly_outputs_world) = Ok tt /\
  last (w_trace (snd (processContent article_job readonly_outputs_world))) =
    Some (EvPost (MsgError (failure_prefix ++ js "EACCES: permission denied"))).
Proof.
  apply (processContent_podcast_write_failure _ _ html_page (js "Narrative text") _ (VStr (js "Test"))
    wav_bytes); [vm_compute; reflexivity | vm_compute; reflexivity | intros; reflexivity |
    intros; reflexivity].
Defined.
