(* ===== verification/Database.v ===== *)
(** * The SQLite database of the main process

    [initDatabase] ([src/main.js], lines 34-87) creates four tables whose
    integer keys are [INTEGER PRIMARY KEY AUTOINCREMENT]: [projects],
    [sources], [summaries] and [outputs].  The program issues seven
    statements that change them: three from the [process-content] handler
    of [main.js] (lines 145, 153 and 163) and four from the renderer through
    [db-run] ([src/src/App.js], lines 61, 76, 91 and 102).

    A table is a [gmap] from rowid to row with the largest rowid it ever
    held (the [sqlite_sequence] entry).  [exec] runs one statement with
    SQLite's semantics for these tables: TEXT affinity of the text
    columns, the NOT NULL constraints, then the CHECK constraints, the
    AUTOINCREMENT choice of the new rowid (one more than the largest rowid
    the table ever held, [SQLITE_FULL] past 2^63 - 1), [WHERE id = ?]
    matching at most one row, and the connection's last inserted rowid that
    node-sqlite3 reports as [this.lastID].  The foreign keys of the schema
    are not enforced: SQLite enforces them only after
    [PRAGMA foreign_keys = ON], which the program never issues, so
    [ON DELETE CASCADE] deletes nothing.

    The [DATETIME DEFAULT CURRENT_TIMESTAMP] columns and the [timestamps]
    column, which the program never writes, are left out of the rows. *)

From Stdlib Require Import String Ascii NArith ZArith Lia.
From stdpp Require Import base list numbers gmap.
From S2P Require Import Prelude JsString JsValue.

(** ** Values and rows *)

Inductive sqlval : Type :=
| SNull
| SInt (z : Z)
| SText (s : jsstr).

#[export] Instance sqlval_eq_dec : EqDecision sqlval.
Proof. solve_decision. Defined.

(** How node-sqlite3 binds a JavaScript parameter. *)
Definition bind_param (v : jsval) : sqlval :=
  match v with
  | VUndef | VNull => SNull
  | VBool b => SInt (if b then 1 else 0)%Z
  | VNum z => SInt z
  | VStr s => SText s
  | VArr _ | VObj _ => SText (to_js_string v)
  end.

(** TEXT affinity: a number stored in a TEXT column becomes its text. *)
Definition text_affinity (v : sqlval) : sqlval :=
  match v with SInt z => SText (z_to_js z) | _ => v end.

Record project_row : Type := mkProject { pr_name : sqlval }.

Record source_row : Type := mkSource {
  sr_project_id : sqlval; sr_url : sqlval; sr_type : sqlval; sr_title : sqlval; sr_content : sqlval
}.

Record summary_row : Type := mkSummary {
  su_source_id : sqlval; su_summary : sqlval; su_key_points : sqlval
}.

Record output_row : Type := mkOutput {
  ou_summary_id : sqlval; ou_type : sqlval; ou_content : sqlval; ou_file_path : sqlval
}.

(** ** Tables with AUTOINCREMENT keys *)

Record table (A : Type) : Type := mkTable {
  t_rows : gmap Z A;
  t_seq : Z  (** the largest rowid the table ever held *)
}.
Arguments mkTable {A} t_rows t_seq.
Arguments t_rows {A} t.
Arguments t_seq {A} t.

Definition empty_table {A} : table A := mkTable ∅ 0%Z.

Definition max_rowid : Z := 9223372036854775807.

Definition max_key {A} (m : gmap Z A) : Z := foldr Z.max 0%Z (fst <$> map_to_list m).

(** The rowid AUTOINCREMENT gives a new row. *)
Definition next_rowid {A} (t : table A) : Z := (Z.max (t_seq t) (max_key (t_rows t)) + 1)%Z.

Definition sqlite_error (code msg : jsstr) : js_error :=
  Error (code ++ js ": " ++ msg).

Definition table_insert {A} (t : table A) (r : A) : result (table A * Z) :=
  let id := next_rowid t in
  if Z.ltb max_rowid id then Throw (sqlite_error (js "SQLITE_FULL") (js "database or disk is full"))
  else Ok (mkTable (<[id := r]> (t_rows t)) id, id).

(** [WHERE id = ?]: an integer parameter names at most one row. *)
Definition key_of (v : sqlval) : option Z :=
  match v with SInt z => Some z | _ => None end.

Definition table_delete {A} (t : table A) (k : sqlval) : table A * nat :=
  match key_of k with
  | Some id =>
      match t_rows t !! id with
      | Some _ => (mkTable (delete id (t_rows t)) (t_seq t), 1)
      | None => (t, 0)
      end
  | None => (t, 0)
  end.

(** ** The database and its statements *)

Record db : Type := mkDb {
  db_projects : table project_row;
  db_sources : table source_row;
  db_summaries : table summary_row;
  db_outputs : table output_row;
  db_last_id : Z  (** [sqlite3_last_insert_rowid] of the connection *)
}.

(** The database [initDatabase] creates on first start. *)
Definition empty_db : db := mkDb empty_table empty_table empty_table empty_table 0%Z.

(** The statements of the program that change the database, with their
    bound parameters. *)
Inductive stmt : Type :=
| InsertProject (name : sqlval)
| InsertSource (project_id url type : sqlval)
| UpdateSource (url type id : sqlval)
| DeleteSource (id : sqlval)
| UpdateSourceContent (content title id : sqlval)
| InsertSummary (source_id summary key_points : sqlval)
| InsertOutput (summary_id type file_path : sqlval).

(** [this] of the [db.run] callback. *)
Record run_info : Type := mkRunInfo { lastID : Z; changes : nat }.

(** ** Constraints *)

Definition constraint_error (msg : jsstr) : js_error :=
  sqlite_error (js "SQLITE_CONSTRAINT") msg.

Definition not_null (v : sqlval) (column : jsstr) : result unit :=
  match v with
  | SNull => Throw (constraint_error (js "NOT NULL constraint failed: " ++ column))
  | _ => Ok tt
  end.

(** [CHECK(type IN (...))]: [NULL IN (...)] is [NULL], which passes. *)
Definition in_list (v : sqlval) (allowed : list jsstr) : bool :=
  match v with
  | SNull => true
  | SText s => bool_decide (s ∈ allowed)
  | SInt _ => false
  end.

Definition check_in (v : sqlval) (allowed : list jsstr) (expr : jsstr) : result unit :=
  if in_list v allowed then Ok tt
  else Throw (constraint_error (js "CHECK constraint failed: " ++ expr)).

Definition rbind {A B} (r : result A) (k : A -> result B) : result B :=
  match r with Ok a => k a | Throw e => Throw e end.

Definition source_types : list jsstr :=
  [js "youtube"; js "article"; js "podcast"; js "social"; js "forum"].

Definition output_types : list jsstr := [js "podcast"; js "video"; js "document"].

(** Lines 50-59: the NOT NULL columns in column order, then the CHECK. *)
Definition source_ok (r : source_row) : result unit :=
  rbind (not_null (sr_url r) (js "sources.url")) (fun _ =>
  rbind (not_null (sr_type r) (js "sources.type")) (fun _ =>
  check_in (sr_type r) source_types
    (js "type IN ('youtube', 'article', 'podcast', 'social', 'forum')"))).

(** Lines 71-79. *)
Definition output_ok (r : output_row) : result unit :=
  rbind (not_null (ou_type r) (js "outputs.type")) (fun _ =>
  check_in (ou_type r) output_types (js "type IN ('podcast', 'video', 'document')")).

(** [UPDATE ... WHERE id = ?] with a row update that may violate a
    constraint. *)
Definition table_update {A} (t : table A) (k : sqlval) (f : A -> result A) :
    result (table A * nat) :=
  match key_of k with
  | Some id =>
      match t_rows t !! id with
      | Some r => rbind (f r) (fun r' => Ok (mkTable (<[id := r']> (t_rows t)) (t_seq t), 1))
      | None => Ok (t, 0)
      end
  | None => Ok (t, 0)
  end.

(** ** Running a statement *)

Definition set_projects (d : db) (t : table project_row) : db :=
  mkDb t (db_sources d) (db_summaries d) (db_outputs d) (db_last_id d).
Definition set_sources (d : db) (t : table source_row) : db :=
  mkDb (db_projects d) t (db_summaries d) (db_outputs d) (db_last_id d).
Definition set_summaries (d : db) (t : table summary_row) : db :=
  mkDb (db_projects d) (db_sources d) t (db_outputs d) (db_last_id d).
Definition set_outputs (d : db) (t : table output_row) : db :=
  mkDb (db_projects d) (db_sources d) (db_summaries d) t (db_last_id d).
Definition set_last_id (d : db) (id : Z) : db :=
  mkDb (db_projects d) (db_sources d) (db_summaries d) (db_outputs d) id.

(** An INSERT: the row goes in under its new rowid, which becomes the
    connection's last inserted rowid. *)
Definition insert_into {A} (get : db -> table A) (set : db -> table A -> db) (d : db) (r : A) :
    result (db * run_info) :=
  rbind (table_insert (get d) r) (fun '(t, id) => Ok (set_last_id (set d t) id, mkRunInfo id 1)).

(** An UPDATE or DELETE: [this.lastID] keeps the last inserted rowid. *)
Definition changed (d : db) (n : nat) : run_info := mkRunInfo (db_last_id d) n.

Definition exec (d : db) (s : stmt) : result (db * run_info) :=
  match s with
  | InsertProject name =>
      let r := mkProject (text_affinity name) in
      rbind (not_null (pr_name r) (js "projects.name")) (fun _ =>
      insert_into db_projects set_projects d r)
  | InsertSource project_id url type =>
      let r := mkSource project_id (text_affinity url) (text_affinity type) SNull SNull in
      rbind (source_ok r) (fun _ => insert_into db_sources set_sources d r)
  | UpdateSource url type id =>
      rbind (table_update (db_sources d) id (fun r =>
               let r' := mkSource (sr_project_id r) (text_affinity url) (text_affinity type)
                           (sr_title r) (sr_content r) in
               rbind (source_ok r') (fun _ => Ok r')))
        (fun '(t, n) => Ok (set_sources d t, changed d n))
  | DeleteSource id =>
      let '(t, n) := table_delete (db_sources d) id in Ok (set_sources d t, changed d n)
  | UpdateSourceContent content title id =>
      rbind (table_update (db_sources d) id (fun r =>
               Ok (mkSource (sr_project_id r) (sr_url r) (sr_type r)
                     (text_affinity title) (text_affinity content))))
        (fun '(t, n) => Ok (set_sources d t, changed d n))
  | InsertSummary source_id summary key_points =>
      insert_into db_summaries set_summaries d
        (mkSummary source_id (text_affinity summary) (text_affinity key_points))
  | InsertOutput summary_id type file_path =>
      let r := mkOutput summary_id (text_affinity type) SNull (text_affinity file_path) in
      rbind (output_ok r) (fun _ => insert_into db_outputs set_outputs d r)
  end.

(** Statements run one after the other; a statement that fails leaves
    the database as it was (SQLite runs each statement atomically). *)
Fixpoint run_stmts (d : db) (ss : list stmt) : db :=
  match ss with
  | [] => d
  | s :: ss' =>
      match exec d s with
      | Ok (d', _) => run_stmts d' ss'
      | Throw _ => run_stmts d ss'
      end
  end.

(** * Lemmas *)

(** A table is well formed when its rowids are positive and at most the
    largest rowid recorded in [sqlite_sequence]. *)
Definition table_wf {A} (t : table A) : Prop :=
  (0 <= t_seq t)%Z /\ forall k r, t_rows t !! k = Some r -> (1 <= k <= t_seq t)%Z.

Definition db_wf (d : db) : Prop :=
  table_wf (db_projects d) /\ table_wf (db_sources d) /\ table_wf (db_summaries d) /\
  table_wf (db_outputs d).

Lemma max_key_ge {A} (m : gmap Z A) (k : Z) (r : A) : m !! k = Some r -> (k <= max_key m)%Z.
Proof.
  intros Hk. apply elem_of_map_to_list in Hk. unfold max_key.
  assert (Hin : k ∈ fst <$> map_to_list m) by (apply list_elem_of_fmap; by exists (k, r)).
  induction (fst <$> map_to_list m) as [|x l IH]; simpl; [inversion Hin|].
  apply elem_of_cons in Hin as [->|Hin]; [lia|]. specialize (IH Hin). lia.
Qed.

Lemma max_key_le {A} (m : gmap Z A) (s : Z) :
  (0 <= s)%Z -> (forall k r, m !! k = Some r -> (k <= s)%Z) -> (max_key m <= s)%Z.
Proof.
  intros H0 Hk. unfold max_key.
  assert (Hall : Forall (fun k => (k <= s)%Z) (fst <$> map_to_list m)).
  { apply Forall_forall. intros k ([k' r] & -> & Hin)%list_elem_of_fmap.
    apply elem_of_map_to_list in Hin. simpl. by apply (Hk _ r). }
  induction Hall; simpl; lia.
Qed.

Lemma next_rowid_wf {A} (t : table A) : table_wf t -> next_rowid t = (t_seq t + 1)%Z.
Proof.
  intros [H0 Hk]. unfold next_rowid.
  assert (max_key (t_rows t) <= t_seq t)%Z by (apply max_key_le; [done|intros k r Hr; apply (Hk k r Hr)]).
  lia.
Qed.

Lemma table_insert_spec {A} (t t' : table A) (r : A) (id : Z) :
  table_wf t -> table_insert t r = Ok (t', id) ->
  id = (t_seq t + 1)%Z /\ t' = mkTable (<[id := r]> (t_rows t)) id /\ (id <= max_rowid)%Z.
Proof.
  intros Hwf. unfold table_insert. rewrite next_rowid_wf by done.
  case_if; [discriminate|]. apply Z.ltb_ge in E. intros [= <- <-]. auto.
Qed.

Lemma table_insert_wf {A} (t t' : table A) (r : A) (id : Z) :
  table_wf t -> table_insert t r = Ok (t', id) -> table_wf t'.
Proof.
  intros Hwf Hi. destruct (table_insert_spec t t' r id Hwf Hi) as (-> & -> & _).
  destruct Hwf as [H0 Hk]. split; simpl; [lia|]. intros k r'.
  rewrite lookup_insert_Some. intros [[<- _]|[_ Hr]]; [lia|]. specialize (Hk k r' Hr). lia.
Qed.

Lemma table_update_wf {A} (t t' : table A) (k : sqlval) (f : A -> result A) (n : nat) :
  table_wf t -> table_update t k f = Ok (t', n) -> table_wf t'.
Proof.
  intros [H0 Hk]. unfold table_update.
  destruct (key_of k) as [id|]; [|by intros [= <-]].
  destruct (t_rows t !! id) as [r|] eqn:Er; [|by intros [= <-]].
  destruct (f r) as [r'|]; simpl; [|discriminate]. intros [= <- _].
  split; [done|]. intros j rj. simpl. rewrite lookup_insert_Some.
  intros [[<- _]|[_ Hr]]; [apply (Hk _ _ Er)|apply (Hk _ _ Hr)].
Qed.

Lemma table_delete_wf {A} (t : table A) (k : sqlval) : table_wf t -> table_wf (table_delete t k).1.
Proof.
  intros [H0 Hk]. unfold table_delete.
  destruct (key_of k) as [id|]; [|done]. destruct (t_rows t !! id); [|done].
  split; [done|]. intros j rj. simpl. rewrite lookup_delete_Some. intros [_ Hr]. apply (Hk _ _ Hr).
Qed.

Lemma insert_into_wf {A} (get : db -> table A) (set : db -> table A -> db) (d d' : db) (r : A)
    (info : run_info) :
  table_wf (get d) ->
  (forall t, table_wf t -> db_wf (set d t)) ->
  insert_into get set d r = Ok (d', info) -> db_wf d'.
Proof.
  intros Hwf Hset. unfold insert_into.
  destruct (table_insert (get d) r) as [[t id]|] eqn:E; simpl; [|discriminate].
  intros [= <- _]. apply (Hset t (table_insert_wf _ _ _ _ Hwf E)).
Qed.

Lemma table_delete_seq {A} (t : table A) (k : sqlval) : t_seq (table_delete t k).1 = t_seq t.
Proof.
  unfold table_delete. destruct (key_of k); [|done]. by destruct (t_rows t !! _).
Qed.

Lemma table_update_seq {A} (t t' : table A) (k : sqlval) (f : A -> result A) (n : nat) :
  table_update t k f = Ok (t', n) -> t_seq t' = t_seq t.
Proof.
  unfold table_update. destruct (key_of k); [|by intros [= <-]].
  destruct (t_rows t !! _); [|by intros [= <-]]. destruct (f _); simpl; [|discriminate].
  by intros [= <-].
Qed.

(** Every statement keeps the tables well formed. *)
Lemma exec_wf (d d' : db) (s : stmt) (info : run_info) :
  db_wf d -> exec d s = Ok (d', info) -> db_wf d'.
Proof.
  intros Hwf. pose proof Hwf as (Hp & Hs & Hm & Ho).
  destruct s; simpl; unfold insert_into, rbind.
  all: repeat match goal with
    | |- context [match ?r with Ok _ => _ | Throw _ => _ end] =>
        let E := fresh "E" in destruct r as [[]|] eqn:E; [|discriminate]
    | |- context [let '(_, _) := ?p in _] => let E := fresh "E" in destruct p eqn:E
    end; intros [= <- _].
  all: unfold db_wf; refine (conj _ (conj _ (conj _ _))); try done; simpl;
    match goal with
    | E : table_insert ?tb _ = Ok _ |- _ => apply (table_insert_wf tb _ _ _ ltac:(assumption) E)
    | E : table_update ?tb _ _ = Ok _ |- _ => apply (table_update_wf tb _ _ _ _ ltac:(assumption) E)
    | E : table_delete ?tb ?k = _ |- _ =>
        pose proof (table_delete_wf tb k ltac:(assumption)) as H; by rewrite E in H
    end.
Qed.

Lemma empty_db_wf : db_wf empty_db.
Proof. split_and!; split; simpl; try done; intros k r; rewrite lookup_empty; discriminate. Qed.

(** A property every successful statement preserves holds after any
    sequence of statements. *)
Lemma run_stmts_preserve (P : db -> Prop) (d : db) (ss : list stmt) :
  (forall d d' s info, P d -> exec d s = Ok (d', info) -> P d') -> P d -> P (run_stmts d ss).
Proof.
  intros Hstep. revert d. induction ss as [|s ss IH]; intros d Hd; simpl; [done|].
  destruct (exec d s) as [[d' info]|] eqn:E; apply IH; [|done]. by apply (Hstep d d' s info).
Qed.

Lemma run_stmts_wf (d : db) (ss : list stmt) : db_wf d -> db_wf (run_stmts d ss).
Proof. apply run_stmts_preserve, exec_wf. Qed.

(** The [sqlite_sequence] entries only grow. *)
Definition seqs_le (d d' : db) : Prop :=
  (t_seq (db_projects d) <= t_seq (db_projects d'))%Z /\
  (t_seq (db_sources d) <= t_seq (db_sources d'))%Z /\
  (t_seq (db_summaries d) <= t_seq (db_summaries d'))%Z /\
  (t_seq (db_outputs d) <= t_seq (db_outputs d'))%Z.

Lemma table_insert_seq {A} (t t' : table A) (r : A) (id : Z) :
  table_insert t r = Ok (t', id) -> t_seq t' = id /\ (t_seq t < id)%Z.
Proof.
  unfold table_insert, next_rowid. case_if; [discriminate|]. intros [= <- <-]. simpl. lia.
Qed.

Lemma exec_seqs_le (d d' : db) (s : stmt) (info : run_info) :
  exec d s = Ok (d', info) -> seqs_le d d'.
Proof.
  destruct s; simpl; unfold insert_into, rbind.
  all: repeat match goal with
    | |- context [match ?r with Ok _ => _ | Throw _ => _ end] =>
        let E := fresh "E" in destruct r as [[]|] eqn:E; [|discriminate]
    | |- context [let '(_, _) := ?p in _] => let E := fresh "E" in destruct p eqn:E
    end; intros [= <- _].
  all: unfold seqs_le; simpl; refine (conj _ (conj _ (conj _ _))); try lia;
    match goal with
    | E : table_insert _ _ = Ok _ |- _ => apply table_insert_seq in E; lia
    | E : table_update _ _ _ = Ok _ |- _ => apply table_update_seq in E; lia
    | E : table_delete ?tb ?k = _ |- _ => pose proof (table_delete_seq tb k) as H; rewrite E in H; simpl in H; lia
    end.
Qed.

Lemma run_stmts_seqs_le (d : db) (ss : list stmt) : seqs_le d (run_stmts d ss).
Proof.
  apply (run_stmts_preserve (seqs_le d)); [|unfold seqs_le; lia].
  intros d1 d2 s info H1 E. pose proof (exec_seqs_le _ _ _ _ E). unfold seqs_le in *. lia.
Qed.

(** The INSERT of line 153 on a well-formed database. *)
(** An INSERT on a well-formed table takes the next [sqlite_sequence] value. *)
Lemma insert_into_lastID {A} (get : db -> table A) (set : db -> table A -> db) (d d' : db) (r : A)
    (info : run_info) :
  table_wf (get d) -> insert_into get set d r = Ok (d', info) -> lastID info = (t_seq (get d) + 1)%Z.
Proof.
  intros Hwf. unfold insert_into.
  destruct (table_insert _ _) as [[t id]|] eqn:E; simpl; [|discriminate].
  apply table_insert_spec in E as (-> & _); [|done]. by intros [= _ <-].
Qed.

Lemma exec_insert_summary (d d' : db) (source_id summary key_points : sqlval) (info : run_info) :
  db_wf d -> exec d (InsertSummary source_id summary key_points) = Ok (d', info) ->
  lastID info = (t_seq (db_summaries d) + 1)%Z /\ changes info = 1 /\
  d' = mkDb (db_projects d) (db_sources d)
         (mkTable (<[lastID info := mkSummary source_id (text_affinity summary)
                                      (text_affinity key_points)]> (t_rows (db_summaries d)))
                  (lastID info))
         (db_outputs d) (lastID info).
Proof.
  intros (_ & _ & Hm & _). simpl. unfold insert_into.
  destruct (table_insert _ _) as [[t id]|] eqn:E; simpl; [|discriminate].
  apply table_insert_spec in E as (-> & -> & _); [|done]. by intros [= <- <-].
Qed.

(** No statement of the program deletes or changes a summary: a stored
    summary row stays as it is. *)
Lemma exec_keeps_summary (d d' : db) (s : stmt) (info : run_info) (k : Z) (r : summary_row) :
  db_wf d -> exec d s = Ok (d', info) ->
  t_rows (db_summaries d) !! k = Some r -> t_rows (db_summaries d') !! k = Some r.
Proof.
  intros Hwf He Hk. pose proof Hwf as (_ & _ & Hsum & _). pose proof Hsum as [_ Hm].
  destruct s; simpl in He; unfold insert_into, rbind in He.
  all: repeat match type of He with
    | context [match ?x with Ok _ => _ | Throw _ => _ end] =>
        let E := fresh "E" in destruct x as [[]|] eqn:E; [|discriminate]
    | context [let '(_, _) := ?p in _] => let E := fresh "E" in destruct p eqn:E
    end; injection He as <- _; cbn [db_summaries set_last_id set_projects set_sources
      set_summaries set_outputs]; try done.
  match goal with E : table_insert _ _ = Ok _ |- _ =>
    apply table_insert_spec in E as (-> & -> & _); [|done] end.
  simpl. rewrite lookup_insert_ne; [done|]. specialize (Hm k r Hk). lia.
Qed.

Lemma table_insert_ok {A} (t : table A) (r : A) :
  table_wf t -> (t_seq t < max_rowid)%Z ->
  table_insert t r = Ok (mkTable (<[(t_seq t + 1)%Z := r]> (t_rows t)) (t_seq t + 1)%Z, (t_seq t + 1)%Z).
Proof.
  intros Hwf Hs. unfold table_insert. rewrite next_rowid_wf by done.
  case_if; [apply Z.ltb_lt in E; lia|done].
Qed.

(** The INSERT of a project with a text name succeeds while the rowids
    are not exhausted. *)
Lemma exec_insert_project_ok (d : db) (name : jsstr) :
  db_wf d -> (t_seq (db_projects d) < max_rowid)%Z ->
  exec d (InsertProject (SText name)) =
    Ok (set_last_id (set_projects d
          (mkTable (<[(t_seq (db_projects d) + 1)%Z := mkProject (SText name)]> (t_rows (db_projects d)))
                   (t_seq (db_projects d) + 1)%Z))
          (t_seq (db_projects d) + 1)%Z,
        mkRunInfo (t_seq (db_projects d) + 1)%Z 1).
Proof.
  intros (Hp & _) Hlt. cbn [exec text_affinity rbind not_null pr_name]. unfold insert_into.
  by rewrite table_insert_ok.
Qed.

(** The INSERT of a source with a text URL and a listed type succeeds
    while the rowids are not exhausted. *)
Lemma exec_insert_source_ok (d : db) (project_id : sqlval) (url ty : jsstr) :
  db_wf d -> (t_seq (db_sources d) < max_rowid)%Z -> ty ∈ source_types ->
  exec d (InsertSource project_id (SText url) (SText ty)) =
    Ok (set_last_id (set_sources d
          (mkTable (<[(t_seq (db_sources d) + 1)%Z := mkSource project_id (SText url) (SText ty) SNull SNull]>
                      (t_rows (db_sources d))) (t_seq (db_sources d) + 1)%Z))
          (t_seq (db_sources d) + 1)%Z,
        mkRunInfo (t_seq (db_sources d) + 1)%Z 1).
Proof.
  intros (_ & Hs & _) Hlt Hty. cbn [exec text_affinity].
  unfold rbind, source_ok, not_null, check_in, in_list. cbn [sr_url sr_type].
  rewrite (bool_decide_eq_true_2 _ Hty). unfold insert_into. by rewrite table_insert_ok.
Qed.

(** The INSERT of line 153 succeeds while the rowids are not exhausted. *)
Lemma exec_insert_summary_ok (d : db) (source_id summary key_points : sqlval) :
  db_wf d -> (t_seq (db_summaries d) < max_rowid)%Z ->
  exec d (InsertSummary source_id summary key_points) =
    Ok (set_last_id (set_summaries d
          (mkTable (<[(t_seq (db_summaries d) + 1)%Z :=
                      mkSummary source_id (text_affinity summary) (text_affinity key_points)]>
                      (t_rows (db_summaries d))) (t_seq (db_summaries d) + 1)%Z))
          (t_seq (db_summaries d) + 1)%Z,
        mkRunInfo (t_seq (db_summaries d) + 1)%Z 1).
Proof.
  intros (_ & _ & Hm & _) Hs. simpl. unfold insert_into. by rewrite table_insert_ok.
Qed.

(** The INSERT of line 163 with the type [podcast]. *)
Lemma exec_insert_podcast_ok (d : db) (summary_id file_path : sqlval) :
  db_wf d -> (t_seq (db_outputs d) < max_rowid)%Z ->
  exec d (InsertOutput summary_id (SText (js "podcast")) file_path) =
    Ok (set_last_id (set_outputs d
          (mkTable (<[(t_seq (db_outputs d) + 1)%Z :=
                      mkOutput summary_id (SText (js "podcast")) SNull (text_affinity file_path)]>
                      (t_rows (db_outputs d))) (t_seq (db_outputs d) + 1)%Z))
          (t_seq (db_outputs d) + 1)%Z,
        mkRunInfo (t_seq (db_outputs d) + 1)%Z 1).
Proof.
  intros (_ & _ & _ & Ho) Hs. simpl. unfold insert_into. by rewrite table_insert_ok.
Qed.

(** The UPDATE of line 145 never fails: it changes the source row when
    there is one, and nothing otherwise. *)
Lemma exec_update_content (d : db) (content title : sqlval) (id : Z) :
  exec d (UpdateSourceContent content title (SInt id)) =
    match t_rows (db_sources d) !! id with
    | Some r =>
        Ok (set_sources d (mkTable (<[id := mkSource (sr_project_id r) (sr_url r) (sr_type r)
                                        (text_affinity title) (text_affinity content)]>
                                    (t_rows (db_sources d))) (t_seq (db_sources d))),
            changed d 1)
    | None => Ok (set_sources d (db_sources d), changed d 0)
    end.
Proof. simpl. unfold table_update. simpl. by destruct (t_rows (db_sources d) !! id). Qed.

Lemma exec_update_content_ok (d : db) (content title : sqlval) (id : Z) :
  exists t n, exec d (UpdateSourceContent content title (SInt id)) = Ok (set_sources d t, changed d n) /\
    t_seq t = t_seq (db_sources d).
Proof.
  rewrite exec_update_content. destruct (t_rows (db_sources d) !! id); eauto.
Qed.

(** The INSERT of a source adds exactly its row. *)
Lemma exec_insert_source_row (d d' : db) (project_id url type : sqlval) (info : run_info) :
  exec d (InsertSource project_id url type) = Ok (d', info) ->
  exists id, t_rows (db_sources d') =
    <[id := mkSource project_id (text_affinity url) (text_affinity type) SNull SNull]>
      (t_rows (db_sources d)).
Proof.
  cbn [exec]. unfold rbind, insert_into.
  destruct (source_ok _); [|discriminate].
  destruct (table_insert _ _) as [[t id]|] eqn:Ei; [|discriminate]. intros [= <- _].
  revert Ei. unfold table_insert. case_if; [discriminate|]. intros [= <- <-]. by eexists.
Qed.

(** * Theorems *)

(** Every statement fails with an [Error] carrying the SQLite message. *)
Lemma exec_error (d : db) (s : stmt) (e : js_error) :
  exec d s = Throw e -> Error (error_message e) = e.
Proof.
  destruct s; simpl; unfold rbind, source_ok, output_ok, not_null, check_in, insert_into,
    table_insert, table_update;
    repeat (case_match; simpl in *; try discriminate); intros; by simplify_eq.
Qed.

(** Whatever statements run, from the database [initDatabase] creates,
    every table keeps positive rowids no larger than its
    [sqlite_sequence] entry. *)
Theorem db_wf_reachable (ss : list stmt) : db_wf (run_stmts empty_db ss).
Proof. apply run_stmts_wf, empty_db_wf. Qed.

(** C22. AUTOINCREMENT never reuses a source id: after any statements,
    the renderer's DELETEs of sources included, a new source gets an id
    larger than every id the table held before them.  So the summaries
    and outputs a deleted source leaves behind (foreign keys are off)
    never reappear under a source added later. *)
Theorem source_ids_not_reused (d d' : db) (ss : list stmt) (project_id url type : sqlval)
    (info : run_info) :
  db_wf d -> exec (run_stmts d ss) (InsertSource project_id url type) = Ok (d', info) ->
  forall k r, t_rows (db_sources d) !! k = Some r -> (k < lastID info)%Z.
Proof.
  intros Hwf He k r Hk.
  pose proof (run_stmts_wf d ss Hwf) as (_ & Hs & _).
  revert He. cbn [exec]. unfold rbind. destruct (source_ok _); [|discriminate].
  intros He. rewrite (insert_into_lastID _ _ _ _ _ _ Hs He).
  destruct (run_stmts_seqs_le d ss) as (_ & Hle & _).
  destruct Hwf as (_ & [_ Hm] & _). specialize (Hm k r Hk). lia.
Qed.

(** [ON DELETE CASCADE] is inert: deleting a source removes its row and
    leaves the summaries and outputs in place. *)
Lemma delete_source_no_cascade (d : db) (id : Z) :
  exists d' info, exec d (DeleteSource (SInt id)) = Ok (d', info) /\
    t_rows (db_sources d') = delete id (t_rows (db_sources d)) /\
    db_summaries d' = db_summaries d /\ db_outputs d' = db_outputs d.
Proof.
  simpl. unfold table_delete. simpl. destruct (t_rows (db_sources d) !! id) eqn:E.
  - do 2 eexists. split_and!; reflexivity.
  - do 2 eexists. split_and!; [reflexivity|by rewrite delete_id|done|done].
Qed.

(** The CHECK constraint of [sources.type]: a source of another type is
    refused with SQLite's message and the database is not changed. *)
Theorem insert_source_check (d : db) (project_id : sqlval) (url ty : jsstr) :
  ty ∉ source_types ->
  exec d (InsertSource project_id (SText url) (SText ty)) =
    Throw (constraint_error (js "CHECK constraint failed: type IN ('youtube', 'article', 'podcast', 'social', 'forum')")).
Proof.
  intros Hty. simpl. unfold source_ok, check_in, in_list. simpl.
  by rewrite bool_decide_false.
Qed.

(** Rowids are 64-bit: once [sqlite_sequence] holds 2^63 - 1 for the
    summaries, every INSERT of line 153 fails with [SQLITE_FULL]. *)
Theorem summary_rowid_exhausted (d : db) (source_id summary key_points : sqlval) :
  t_seq (db_summaries d) = max_rowid ->
  exec d (InsertSummary source_id summary key_points) =
    Throw (sqlite_error (js "SQLITE_FULL") (js "database or disk is full")).
Proof.
  intros Hs. simpl. unfold insert_into, table_insert, next_rowid. rewrite Hs.
  case_if; [reflexivity|]. apply Z.ltb_ge in E. lia.
Qed.

(** * Witnesses *)

Definition one_source_db : db :=
  run_stmts empty_db [InsertProject (SText (js "P"));
                      InsertSource (SInt 1) (SText (js "https://a.example")) (SText (js "article"))].

Lemma source_ids_not_reused_witness :
  db_wf one_source_db /\
  exec (run_stmts one_source_db [DeleteSource (SInt 1)])
    (InsertSource (SInt 1) (SText (js "https://b.example")) (SText (js "article"))) =
    Ok (set_last_id (set_sources (run_stmts one_source_db [DeleteSource (SInt 1)])
          (mkTable {[2%Z := mkSource (SInt 1) (SText (js "https://b.example")) (SText (js "article")) SNull SNull]} 2))
          2, mkRunInfo 2 1) /\
  (forall k r, t_rows (db_sources one_source_db) !! k = Some r -> (k < 2)%Z).
Proof.
  assert (Hwf : db_wf one_source_db) by (apply run_stmts_wf, empty_db_wf).
  assert (He : exec (run_stmts one_source_db [DeleteSource (SInt 1)])
    (InsertSource (SInt 1) (SText (js "https://b.example")) (SText (js "article"))) =
    Ok (set_last_id (set_sources (run_stmts one_source_db [DeleteSource (SInt 1)])
          (mkTable {[2%Z := mkSource (SInt 1) (SText (js "https://b.example")) (SText (js "article")) SNull SNull]} 2))
          2, mkRunInfo 2 1)) by (vm_compute; reflexivity).
  split_and!; [exact Hwf|exact He|].
  exact (source_ids_not_reused one_source_db _ [DeleteSource (SInt 1)] _ _ _ _ Hwf He).
Defined.

Lemma insert_source_check_witness :
  js "video" ∉ source_types /\
  exec empty_db (InsertSource (SInt 1) (SText (js "https://example.com/v")) (SText (js "video"))) =
    Throw (constraint_error (js "CHECK constraint failed: type IN ('youtube', 'article', 'podcast', 'social', 'forum')")).
Proof.
  assert (H : js "video" ∉ source_types) by decide_by_compute.
  split; [exact H|]. apply (insert_source_check _ _ _ _ H).
Defined.

Definition exhausted_db : db :=
  mkDb empty_table empty_table (mkTable ∅ max_rowid) empty_table 0.

Lemma summary_rowid_exhausted_witness :
  exec exhausted_db (InsertSummary (SInt 1) (SText (js "S")) SNull) =
    Throw (sqlite_error (js "SQLITE_FULL") (js "database or disk is full")).
Proof. apply summary_rowid_exhausted. reflexivity. Defined.
