(* ===== verification/DbTypes.v ===== *)
(** * The column types the schema guarantees

    The schema of [initDatabase] ([src/main.js], lines 44-79) declares
    the [url] and [type] columns of [sources] and the [type] column of
    [outputs] [TEXT NOT NULL] with a [CHECK] on the type, and every other
    written column [TEXT].  This file states, as an invariant of the
    database of [Database], the types the rows then have: no statement
    the program issues stores a number in a TEXT column (TEXT affinity
    turns it into its text), a [NULL] in a NOT NULL column or a type
    outside the lists of the CHECKs. *)

From Stdlib Require Import String Ascii NArith ZArith Lia.
From stdpp Require Import base list numbers gmap.
From S2P Require Import Prelude JsString JsValue Database.

(** ** Column types *)

Definition is_text (v : sqlval) : bool := match v with SText _ => true | _ => false end.

Definition text_or_null (v : sqlval) : bool := match v with SInt _ => false | _ => true end.

Definition typed_in (v : sqlval) (allowed : list jsstr) : bool :=
  match v with SText s => bool_decide (s ∈ allowed) | _ => false end.

Definition project_typed (r : project_row) : bool := is_text (pr_name r).

Definition source_typed (r : source_row) : bool :=
  is_text (sr_url r) && typed_in (sr_type r) source_types &&
  text_or_null (sr_title r) && text_or_null (sr_content r).

Definition summary_typed (r : summary_row) : bool :=
  text_or_null (su_summary r) && text_or_null (su_key_points r).

Definition output_typed (r : output_row) : bool :=
  typed_in (ou_type r) output_types && text_or_null (ou_content r) && text_or_null (ou_file_path r).

Definition table_typed {A} (p : A -> bool) (t : table A) : Prop :=
  map_Forall (fun _ r => p r = true) (t_rows t).

Definition db_typed (d : db) : Prop :=
  table_typed project_typed (db_projects d) /\ table_typed source_typed (db_sources d) /\
  table_typed summary_typed (db_summaries d) /\ table_typed output_typed (db_outputs d).

(** * Lemmas *)

Lemma text_affinity_text_or_null (v : sqlval) : text_or_null (text_affinity v) = true.
Proof. by destruct v. Qed.

Lemma text_affinity_not_null (v : sqlval) (c : jsstr) (x : unit) :
  not_null (text_affinity v) c = Ok x -> is_text (text_affinity v) = true.
Proof. by destruct v. Qed.

Lemma check_in_typed (v : sqlval) (allowed : list jsstr) (expr : jsstr) (x : unit) :
  v <> SNull -> check_in v allowed expr = Ok x -> typed_in v allowed = true.
Proof. unfold check_in. intros Hn. destruct v; simpl; try done. case_if; done. Qed.

#[local] Hint Resolve text_affinity_text_or_null : core.

(** An insertion keeps a property of every row when the new row has it. *)
Lemma table_insert_forall {A} (P : A -> Prop) (t t' : table A) (r : A) (id : Z) :
  map_Forall (fun _ => P) (t_rows t) -> P r -> table_insert t r = Ok (t', id) ->
  map_Forall (fun _ => P) (t_rows t').
Proof.
  unfold table_insert. case_if; [discriminate|]. intros Ht Hr [= <- _].
  by apply map_Forall_insert_2.
Qed.

Lemma table_insert_typed {A} (p : A -> bool) (t t' : table A) (r : A) (id : Z) :
  table_typed p t -> p r = true -> table_insert t r = Ok (t', id) -> table_typed p t'.
Proof. apply (table_insert_forall (fun r => p r = true)). Qed.

Lemma table_update_typed {A} (p : A -> bool) (t t' : table A) (k : sqlval) (f : A -> result A)
    (n : nat) :
  table_typed p t -> (forall r r', p r = true -> f r = Ok r' -> p r' = true) ->
  table_update t k f = Ok (t', n) -> table_typed p t'.
Proof.
  intros Ht Hf. unfold table_update.
  destruct (key_of k) as [id|]; [|by intros [= <- _]].
  destruct (t_rows t !! id) as [r|] eqn:Er; [|by intros [= <- _]].
  unfold rbind. destruct (f r) eqn:E; [|discriminate]. intros [= <- _].
  apply map_Forall_insert_2; [|done]. by apply (Hf r); [apply (Ht id r Er)|].
Qed.

Lemma table_delete_typed {A} (p : A -> bool) (t : table A) (k : sqlval) :
  table_typed p t -> table_typed p (table_delete t k).1.
Proof.
  intros Ht. unfold table_delete. destruct (key_of k) as [id|]; [|done].
  destruct (t_rows t !! id); [|done]. by apply map_Forall_delete.
Qed.

Lemma not_null_ne (v : sqlval) (c : jsstr) (x : unit) : not_null v c = Ok x -> v <> SNull.
Proof. by destruct v. Qed.

Lemma source_ok_typed (p u ty ti co : sqlval) (x : unit) :
  text_or_null ti = true -> text_or_null co = true ->
  source_ok (mkSource p (text_affinity u) (text_affinity ty) ti co) = Ok x ->
  source_typed (mkSource p (text_affinity u) (text_affinity ty) ti co) = true.
Proof.
  intros Hti Hco. unfold source_ok, rbind; simpl.
  destruct (not_null (text_affinity u) _) as [x1|] eqn:E1; [|discriminate].
  destruct (not_null (text_affinity ty) _) as [x2|] eqn:E2; [|discriminate].
  intros E3. unfold source_typed; simpl. rewrite Hti, Hco, (text_affinity_not_null u _ _ E1).
  by rewrite (check_in_typed _ _ _ _ (not_null_ne _ _ _ E2) E3).
Qed.

Lemma output_ok_typed (s ty co fp : sqlval) (x : unit) :
  text_or_null co = true ->
  output_ok (mkOutput s (text_affinity ty) co (text_affinity fp)) = Ok x ->
  output_typed (mkOutput s (text_affinity ty) co (text_affinity fp)) = true.
Proof.
  intros Hco. unfold output_ok, rbind; simpl.
  destruct (not_null (text_affinity ty) _) as [x1|] eqn:E1; [|discriminate].
  intros E2. unfold output_typed; simpl. rewrite Hco, text_affinity_text_or_null.
  by rewrite (check_in_typed _ _ _ _ (not_null_ne _ _ _ E1) E2).
Qed.

Lemma exec_typed (d d' : db) (s : stmt) (info : run_info) :
  db_typed d -> exec d s = Ok (d', info) -> db_typed d'.
Proof.
  intros (Hp & Hs & Hm & Ho). destruct s; simpl; unfold insert_into, rbind.
  all: repeat match goal with
    | |- context [match ?r with Ok _ => _ | Throw _ => _ end] =>
        let E := fresh "E" in destruct r as [[]|] eqn:E; [|discriminate]
    | |- context [let '(_, _) := ?p in _] => let E := fresh "E" in destruct p eqn:E
    end; intros [= <- _].
  all: unfold db_typed; refine (conj _ (conj _ (conj _ _))); try done; simpl.
  - eapply (table_insert_typed _ _ _ _ _ Hp); [|exact E0]. exact (text_affinity_not_null _ _ _ E).
  - eapply (table_insert_typed _ _ _ _ _ Hs); [|exact E0].
    apply (source_ok_typed _ _ _ _ _ tt); [done|done|exact E].
  - eapply (table_update_typed _ _ _ _ _ _ Hs); [|exact E].
    intros r r' Hr Hf. cbv beta in Hf. unfold source_typed in Hr. bool_facts.
    destruct (source_ok _) as [x|] eqn:Eo; [|discriminate].
    injection Hf as <-. by apply (source_ok_typed _ _ _ _ _ x).
  - pose proof (table_delete_typed _ _ id Hs) as H. by rewrite E in H.
  - eapply (table_update_typed _ _ _ _ _ _ Hs); [|exact E].
    intros r r' Hr [= <-]. unfold source_typed in *; simpl. rewrite !text_affinity_text_or_null.
    by destruct (is_text (sr_url r)), (typed_in (sr_type r) source_types).
  - eapply (table_insert_typed _ _ _ _ _ Hm); [|exact E].
    unfold summary_typed; simpl. by rewrite !text_affinity_text_or_null.
  - eapply (table_insert_typed _ _ _ _ _ Ho); [|exact E0]. apply (output_ok_typed _ _ _ _ tt); [done|exact E].
Qed.

Lemma empty_db_typed : db_typed empty_db.
Proof. split_and!; apply map_Forall_empty. Qed.

(** * Theorems *)

(** C19. Whatever statements run, from the empty database, every project
    name is text, every source has a text URL and a type of the CHECK
    list, every output a type of its CHECK list, and no TEXT column holds
    a number. *)
Theorem db_typed_reachable (ss : list stmt) : db_typed (run_stmts empty_db ss).
Proof. apply run_stmts_preserve; [apply exec_typed|apply empty_db_typed]. Qed.
