(* ===== verification/Lifecycle.v ===== *)
(** * The lifecycle of the Electron main process

    [src/main.js] holds two module variables, [mainWindow] and [db]
    (lines 7-8).  When the application is ready (line 89) it awaits
    [initDatabase] (lines 34-87), which opens the database file and, in
    [db.serialize], creates the four tables, resolving in the callback of
    the last [CREATE TABLE] (lines 79-82) and rejecting when the file
    cannot be opened (lines 37-39) or that statement fails.  Then it
    creates the window ([createWindow], lines 10-32) and registers the
    [activate] listener that recreates a window when none is open (lines
    93-97).  The [window-all-closed] listener, registered when the script
    loads, quits except on macOS (lines 100-104).

    The lifecycle is a state machine on [life] driven by the events the
    Electron runtime and the SQLite driver deliver ([life_event]); events
    that cannot happen in a state (a callback for an operation that is
    not pending) leave it unchanged, and after [app.quit()] nothing
    happens.  The continuation of [await initDatabase()] runs as part of
    the event that resolves it, since it is the only job queued then.
    The outcome of the first three [CREATE TABLE] statements, which have
    no callback, is not observed by the code and is not modelled. *)

From Stdlib Require Import String Ascii NArith ZArith Lia.
From stdpp Require Import base list numbers.
From S2P Require Import Prelude JsString JsValue.

(** ** The process *)

Record process_info : Type := mkProcess {
  p_node_env : option jsstr;  (** [process.env.NODE_ENV] *)
  p_platform : jsstr;         (** [process.platform] *)
  p_dirname : jsstr           (** [__dirname], absolute and normalised *)
}.

(** The separator [path.join] writes on a platform. *)
Definition path_sep (platform : jsstr) : N :=
  if bool_decide (platform = js "win32") then 92%N else 47%N.

(** [path.join(dir, rel)] for a relative path without [.] or [..]
    segments, given by its segments: [path.join] normalises the [/] of
    [rel] to the platform's separator. *)
Definition node_path_join (platform dir : jsstr) (rel : list jsstr) : jsstr :=
  dir ++ [path_sep platform] ++ join [path_sep platform] rel.

(** ** Windows *)

Record web_preferences : Type := mkPrefs {
  nodeIntegration : bool;
  contextIsolation : bool;
  enableRemoteModule : bool;
  preload : jsstr
}.

Record window : Type := mkWindow {
  win_id : nat;
  win_width : Z;
  win_height : Z;
  win_prefs : web_preferences;
  win_url : jsstr;         (** the URL [loadURL] loads *)
  win_devtools : bool      (** [openDevTools] was called *)
}.

(** The promise [initDatabase] returns, and the operation it waits for. *)
Inductive init_status : Type :=
| InitIdle                   (** [initDatabase] not called *)
| InitOpening                (** waiting for the open callback *)
| InitCreating               (** waiting for the last [CREATE TABLE] *)
| InitResolved
| InitRejected (e : js_error).

Record life : Type := mkLife {
  l_db_file : option jsstr;       (** the file of the module variable [db] *)
  l_init : init_status;
  l_windows : list window;        (** [BrowserWindow.getAllWindows()] *)
  l_mainWindow : option nat;      (** the module variable [mainWindow] *)
  l_activate : bool;              (** the [activate] listener is registered *)
  l_quit : bool;                  (** [app.quit()] was called *)
  l_next_id : nat
}.

Definition life_init : life := mkLife None InitIdle [] None false false 0.

Inductive life_event : Type :=
| AppReady                          (** [app.whenReady()] resolves *)
| DbOpened (err : option js_error)  (** the callback of [new sqlite3.Database] *)
| TablesCreated (err : option js_error)  (** the callback of line 79 *)
| Activate                          (** the [activate] event *)
| CloseWindow (id : nat).           (** the user closes a window *)

Definition set_init (l : life) (s : init_status) : life :=
  mkLife (l_db_file l) s (l_windows l) (l_mainWindow l) (l_activate l) (l_quit l) (l_next_id l).

Section Lifecycle.
Variable proc : process_info.

Definition is_development : bool :=
  match p_node_env proc with Some e => bool_decide (e = js "development") | None => false end.

(** Line 22. *)
Definition startUrl : jsstr :=
  if is_development then js "http://localhost:3000"
  else js "file://" ++ node_path_join (p_platform proc) (p_dirname proc) [js "build"; js "index.html"].

(** Lines 14-19. *)
Definition main_prefs : web_preferences :=
  mkPrefs false true false (node_path_join (p_platform proc) (p_dirname proc) [js "preload.js"]).

(** Line 36. *)
Definition db_file : jsstr := node_path_join (p_platform proc) (p_dirname proc) [js "maximus_scraper.db"].

(** Lines 10-32: the window, its URL, the developer tools in development;
    the [closed] listener is the [mainWindow = null] of [closeWindow]. *)
Definition createWindow (l : life) : life :=
  let w := mkWindow (l_next_id l) 1200 800 main_prefs startUrl is_development in
  mkLife (l_db_file l) (l_init l) (l_windows l ++ [w]) (Some (l_next_id l)) (l_activate l)
    (l_quit l) (S (l_next_id l)).

(** Lines 89-98 after [initDatabase] resolves: [createWindow()], then the
    [activate] listener. *)
Definition after_init (l : life) : life :=
  let l1 := createWindow (set_init l InitResolved) in
  mkLife (l_db_file l1) (l_init l1) (l_windows l1) (l_mainWindow l1) true (l_quit l1) (l_next_id l1).

(** Lines 100-104. *)
Definition window_all_closed (l : life) : life :=
  if bool_decide (p_platform proc = js "darwin") then l
  else mkLife (l_db_file l) (l_init l) (l_windows l) (l_mainWindow l) (l_activate l) true (l_next_id l).

(** Closing window [id]: its [closed] listener sets [mainWindow] to
    [null] (line 30); Electron emits [window-all-closed] after the last
    window closes. *)
Definition closeWindow (l : life) (id : nat) : life :=
  if existsb (fun w => Nat.eqb (win_id w) id) (l_windows l) then
    let ws := List.filter (fun w => negb (Nat.eqb (win_id w) id)) (l_windows l) in
    let l1 := mkLife (l_db_file l) (l_init l) ws None (l_activate l) (l_quit l) (l_next_id l) in
    match ws with [] => window_all_closed l1 | _ => l1 end
  else l.

Definition life_step (l : life) (ev : life_event) : life :=
  if l_quit l then l else
  match ev with
  | AppReady =>
      (* line 90: [initDatabase()] assigns [db] and opens the file *)
      match l_init l with
      | InitIdle =>
          mkLife (Some db_file) InitOpening (l_windows l) (l_mainWindow l) (l_activate l)
            (l_quit l) (l_next_id l)
      | _ => l
      end
  | DbOpened err =>
      match l_init l with
      | InitOpening =>
          match err with Some e => set_init l (InitRejected e) | None => set_init l InitCreating end
      | _ => l
      end
  | TablesCreated err =>
      match l_init l with
      | InitCreating =>
          match err with Some e => set_init l (InitRejected e) | None => after_init l end
      | _ => l
      end
  | Activate =>
      (* lines 93-97 *)
      if l_activate l && Nat.eqb (length (l_windows l)) 0 then createWindow l else l
  | CloseWindow id => closeWindow l id
  end.

Definition run_life (l : life) (evs : list life_event) : life := fold_left life_step evs l.

Inductive life_reachable : life -> Prop :=
| life_reach_init : life_reachable life_init
| life_reach_step l ev : life_reachable l -> life_reachable (life_step l ev).

End Lifecycle.

(** * Lemmas *)

Section LifecycleFacts.
Variable proc : process_info.

(** The state invariant: a window exists only once [initDatabase] has
    resolved, with the preferences and URL of [createWindow]; the
    [activate] listener is registered exactly then; at most one window is
    open, and [mainWindow] names it. *)
Definition life_inv (l : life) : Prop :=
  (l_windows l <> [] -> l_init l = InitResolved) /\
  (l_activate l = true <-> l_init l = InitResolved) /\
  Forall (fun w => win_prefs w = main_prefs proc /\ win_url w = startUrl proc) (l_windows l) /\
  match l_windows l with
  | [] => l_mainWindow l = None
  | [w] => l_mainWindow l = Some (win_id w)
  | _ => False
  end.

Lemma life_inv_init : life_inv life_init.
Proof. unfold life_inv; simpl; split_and!; [done|split; discriminate|constructor|done]. Qed.

Lemma createWindow_inv (l : life) :
  life_inv l -> l_windows l = [] -> l_init l = InitResolved -> l_activate l = true ->
  life_inv (createWindow proc l).
Proof.
  intros (_ & _ & _ & _) Hw Hi Ha. unfold life_inv, createWindow; simpl. rewrite Hw, Hi, Ha; simpl.
  split_and!; [by intros|by split|by repeat constructor|done].
Qed.

Lemma closeWindow_inv (l : life) (id : nat) : life_inv l -> life_inv (closeWindow proc l id).
Proof.
  intros Hinv. unfold closeWindow. destruct (existsb _ _) eqn:Ex; [|done].
  destruct Hinv as (Hw & Ha & Hf & Hm).
  destruct (l_windows l) as [|w [|w' ws]] eqn:E; simpl in *; [done| |done].
  destruct (Nat.eqb (win_id w) id); simpl in *; [|done].
  unfold window_all_closed; destruct (bool_decide _); unfold life_inv; simpl; split_and!; by auto.
Qed.

Lemma life_inv_no_window (l : life) : life_inv l -> l_init l <> InitResolved -> l_windows l = [].
Proof. intros (Hw & _) Hl. destruct (l_windows l); [done|]. by destruct Hl; apply Hw. Qed.

(** Before [initDatabase] resolves there is no window and no listener,
    whatever the state of the promise. *)
Lemma life_inv_unresolved (l : life) f s q n :
  life_inv l -> l_init l <> InitResolved -> s <> InitResolved ->
  life_inv (mkLife f s (l_windows l) (l_mainWindow l) (l_activate l) q n).
Proof.
  intros Hinv Hl Hs. pose proof (life_inv_no_window l Hinv Hl) as Hnil.
  destruct Hinv as (Hw & Ha & Hf & Hm).
  unfold life_inv; simpl. rewrite Hnil in *. split_and!; try done.
  split; [intros Ht; by apply Ha in Ht | done].
Qed.

Lemma after_init_inv (l : life) : l_windows l = [] -> life_inv (after_init proc l).
Proof.
  intros Hw. unfold life_inv, after_init, createWindow, set_init; simpl. rewrite Hw; simpl.
  split_and!; [by intros|by split|by repeat constructor|done].
Qed.

Lemma life_step_inv (l : life) (ev : life_event) : life_inv l -> life_inv (life_step proc l ev).
Proof.
  intros Hinv. unfold life_step. destruct (l_quit l); [done|].
  destruct ev as [| [e|] | [e|] | | id];
    try (destruct (l_init l) eqn:Ei; try done; apply life_inv_unresolved; congruence).
  - destruct (l_init l) eqn:Ei; try done.
    apply after_init_inv, life_inv_no_window; congruence.
  - destruct (l_activate l && _) eqn:Ea; [|done]. bool_facts.
    apply Nat.eqb_eq, length_zero_iff_nil in H0.
    apply createWindow_inv; auto. by apply Hinv.
  - by apply closeWindow_inv.
Qed.

Lemma life_reachable_inv (l : life) : life_reachable proc l -> life_inv l.
Proof. induction 1; auto using life_inv_init, life_step_inv. Qed.

End LifecycleFacts.

Lemma run_life_reachable (proc : process_info) (l : life) (evs : list life_event) :
  life_reachable proc l -> life_reachable proc (run_life proc l evs).
Proof. revert l; induction evs; simpl; auto using life_reachable. Qed.

(** A rejected [initDatabase] is final: no event changes the state. *)
Lemma life_step_rejected (proc : process_info) (l : life) (e : js_error) (ev : life_event) :
  l_init l = InitRejected e -> l_activate l = false -> l_windows l = [] ->
  life_step proc l ev = l.
Proof.
  intros Hi Ha Hw. unfold life_step. destruct (l_quit l); [done|].
  destruct ev; rewrite ?Hi, ?Ha; try done. unfold closeWindow. by rewrite Hw.
Qed.

Lemma run_life_rejected (proc : process_info) (l : life) (e : js_error) (evs : list life_event) :
  l_init l = InitRejected e -> l_activate l = false -> l_windows l = [] ->
  run_life proc l evs = l.
Proof.
  intros Hi Ha Hw. induction evs as [|ev evs IH]; [done|].
  simpl. by rewrite (life_step_rejected proc l e ev).
Qed.

(** * Theorems *)

(** C8. Every window of the main process is created after [initDatabase]
    resolved, with context isolation, without Node integration and with
    the preload script, and loads the start URL of line 22. *)
Theorem window_requires_database (proc : process_info) (l : life) (w : window) :
  life_reachable proc l -> w ∈ l_windows l ->
  l_init l = InitResolved /\ win_prefs w = main_prefs proc /\ win_url w = startUrl proc.
Proof.
  intros Hr Hw. destruct (life_reachable_inv proc l Hr) as (Hi & _ & Hf & _).
  split; [apply Hi; intros E; rewrite E in Hw; by apply not_elem_of_nil in Hw|].
  rewrite Forall_forall in Hf. apply Hf. by apply list_elem_of_In.
Qed.

(** At most one window is open, and [mainWindow] is that window, or
    [null] when none is. *)
Theorem single_main_window (proc : process_info) (l : life) :
  life_reachable proc l ->
  match l_windows l with
  | [] => l_mainWindow l = None
  | [w] => l_mainWindow l = Some (win_id w)
  | _ => False
  end.
Proof. intros Hr. apply (life_reachable_inv proc l Hr). Qed.

(** C15. When the database cannot be opened, or the last table cannot be
    created, [initDatabase] rejects, the rejection of the [whenReady]
    continuation is unhandled, and whatever happens next no window is
    ever created and the application never quits: the process stays up
    without a user interface. *)
Theorem database_failure_no_window (proc : process_info) (e : js_error)
    (first evs : list life_event) :
  first = [AppReady; DbOpened (Some e)] \/ first = [AppReady; DbOpened None; TablesCreated (Some e)] ->
  let l := run_life proc life_init (first ++ evs) in
  l_windows l = [] /\ l_quit l = false /\ l_init l = InitRejected e.
Proof.
  intros Hf. simpl. unfold run_life. rewrite fold_left_app.
  destruct Hf as [-> | ->]; simpl;
    match goal with |- context [fold_left (life_step proc) evs ?x] =>
      change (fold_left (life_step proc) evs x) with (run_life proc x evs);
      rewrite (run_life_rejected proc x e evs) end; done.
Qed.

(** Closing the last window clears [mainWindow]; except on macOS the
    application quits, and on macOS the next [activate] opens a window
    again. *)
Theorem last_window_closed (proc : process_info) (l : life) (w : window) :
  life_reachable proc l -> l_windows l = [w] -> l_quit l = false ->
  let l' := life_step proc l (CloseWindow (win_id w)) in
  l_windows l' = [] /\ l_mainWindow l' = None /\
  (p_platform proc <> js "darwin" -> l_quit l' = true) /\
  (p_platform proc = js "darwin" ->
     exists w', l_windows (life_step proc l' Activate) = [w'] /\ win_url w' = startUrl proc).
Proof.
  intros Hr Hw Hq. destruct (life_reachable_inv proc l Hr) as (Hi & Ha & _).
  assert (Hact : l_activate l = true) by (apply Ha, Hi; congruence).
  assert (Hc : life_step proc l (CloseWindow (win_id w)) =
    window_all_closed proc (mkLife (l_db_file l) (l_init l) [] None (l_activate l) (l_quit l) (l_next_id l))).
  { unfold life_step, closeWindow. rewrite Hq, Hw. simpl. by rewrite Nat.eqb_refl. }
  simpl. rewrite Hc. unfold window_all_closed.
  destruct (bool_decide_reflect (p_platform proc = js "darwin")) as [Hd|Hd]; simpl.
  - split_and!; [done|done|by intros []|]. intros _.
    unfold life_step; simpl. rewrite Hq, Hact. simpl. by eexists.
  - split_and!; [done|done|done|by intros].
Qed.

(** * Witnesses *)

Definition windows_proc : process_info := mkProcess None (js "win32") (js "C:\app").
Definition mac_proc : process_info := mkProcess (Some (js "development")) (js "darwin") (js "/Applications/app").

Definition started (proc : process_info) : life :=
  run_life proc life_init [AppReady; DbOpened None; TablesCreated None].

Lemma window_requires_database_witness :
  exists w, l_init (started windows_proc) = InitResolved /\ win_prefs w = main_prefs windows_proc /\
            win_url w = js "file://C:\app\build\index.html".
Proof.
  exists (mkWindow 0 1200 800 (main_prefs windows_proc) (startUrl windows_proc) false).
  destruct (window_requires_database windows_proc (started windows_proc)
              (mkWindow 0 1200 800 (main_prefs windows_proc) (startUrl windows_proc) false))
    as (Hi & Hp & Hu).
  - apply run_life_reachable, life_reach_init.
  - vm_compute. left.
  - split_and!; [exact Hi | exact Hp | rewrite Hu; vm_compute; reflexivity].
Defined.

Lemma single_main_window_witness : l_mainWindow (started mac_proc) = Some 0.
Proof.
  pose proof (single_main_window mac_proc (started mac_proc)
                (run_life_reachable _ _ _ (life_reach_init _))) as H.
  revert H. vm_compute. exact (fun H => H).
Defined.

Lemma database_failure_no_window_witness :
  l_windows (run_life windows_proc life_init
               ([AppReady; DbOpened (Some (Error (js "SQLITE_CANTOPEN: unable to open database file")))]
                  ++ [Activate; AppReady])) = [].
Proof.
  apply (database_failure_no_window windows_proc (Error (js "SQLITE_CANTOPEN: unable to open database file"))).
  by left.
Defined.

Lemma last_window_closed_witness :
  l_quit (life_step windows_proc (started windows_proc) (CloseWindow 0)) = true.
Proof.
  apply (last_window_closed windows_proc (started windows_proc)
           (mkWindow 0 1200 800 (main_prefs windows_proc) (startUrl windows_proc) false)).
  - apply run_life_reachable, life_reach_init.
  - vm_compute. reflexivity.
  - reflexivity.
  - vm_compute. discriminate.
Defined.
