(* ===== verification/MainIpc.v ===== *)
(** * The [process-content] handler of the main process

    [ipcMain.handle('process-content', ...)] ([src/main.js], lines
    132-183) starts a worker on the job and returns a promise.  The
    worker's [message] listener (lines 138-176) rejects on an error
    message; otherwise it runs three statements one after the other, each
    awaited through its [db.run] callback: the [UPDATE] of the source
    (line 145), the [INSERT] of the summary with the key points as JSON
    (line 153) and, when a podcast path is set, the [INSERT] of the output
    (line 163); then it resolves with the new summary id.  A failing
    statement rejects with ["Database error: " + message].  The [error]
    and [exit] listeners (lines 178-181) reject on a worker error or a
    non-zero exit code.

    The handler is a state machine driven by events: the worker's
    [message], [error] and [exit] events, the completion of the statement
    a listener run awaits ([DbCallback]), and the statements the renderer
    runs through [db-run] in between ([Renderer]): every interleaving is
    an event list.  A statement runs atomically when its callback is
    delivered.  The promise is settled by its first [resolve] or [reject];
    later calls do nothing, as for every JavaScript promise. *)

From Stdlib Require Import String Ascii NArith ZArith Lia.
From stdpp Require Import base list numbers gmap.
From S2P Require Import Prelude JsString JsValue Json Effects Database.

(** ** Promises *)

(** The object the promise resolves with (line 171). *)
Record reply_value : Type := mkReply {
  rv_summaryId : Z; rv_summary : jsval; rv_keyPoints : jsval; rv_podcastPath : jsval
}.

Inductive promise : Type :=
| Pending
| Resolved (v : reply_value)
| Rejected (e : js_error).

(** [resolve] and [reject] on a promise: only the first call counts. *)
Definition settle (p new : promise) : promise :=
  match p with Pending => new | _ => p end.

(** ** The worker's message as the listener reads it *)

Definition msg_error (m : worker_message) : jsval :=
  match m with MsgError e => VStr e | MsgResult _ _ _ _ _ => VUndef end.
Definition msg_content (m : worker_message) : jsval :=
  match m with MsgResult c _ _ _ _ => VStr c | MsgError _ => VUndef end.
Definition msg_title (m : worker_message) : jsval :=
  match m with MsgResult _ t _ _ _ => t | MsgError _ => VUndef end.
Definition msg_summary (m : worker_message) : jsval :=
  match m with MsgResult _ _ s _ _ => VStr s | MsgError _ => VUndef end.
Definition msg_keyPoints (m : worker_message) : jsval :=
  match m with MsgResult _ _ _ ks _ => VArr (map VStr ks) | MsgError _ => VUndef end.
Definition msg_podcastPath (m : worker_message) : jsval :=
  match m with
  | MsgResult _ _ _ _ (Some p) => VStr p
  | MsgResult _ _ _ _ None => VNull
  | MsgError _ => VUndef
  end.

(** [JSON.stringify(result.keyPoints)] as a bound parameter: the JSON
    text, or [NULL] for [JSON.stringify(undefined)]. *)
Definition key_points_param (m : worker_message) : sqlval :=
  match m with MsgResult _ _ _ ks _ => SText (stringify_strings ks) | MsgError _ => SNull end.

(** ** The listener runs *)

(** The statement a run of the [message] listener awaits. *)
Inductive phase : Type :=
| AwaitUpdate
| AwaitSummary
| AwaitOutput (summaryId : Z).

Record run : Type := mkRun { run_msg : worker_message; run_phase : phase }.

Record ipc_state : Type := mkIpc {
  st_db : db;
  st_promise : promise;
  st_runs : list (option run)  (** the listener runs, [None] once finished *)
}.

Inductive ipc_event : Type :=
| WorkerMessage (m : worker_message)
| WorkerError (message : jsstr)
| WorkerExit (code : Z)
| DbCallback (run_index : nat) (io_error : option jsstr)
| Renderer (s : stmt).

Section Handler.
(** [contentData.sourceId] of the job. *)
Variable sourceId : Z.

(** Lines 145, 153 and 163. *)
Definition run_stmt (r : run) : stmt :=
  let m := run_msg r in
  match run_phase r with
  | AwaitUpdate =>
      UpdateSourceContent (bind_param (msg_content m)) (bind_param (msg_title m)) (SInt sourceId)
  | AwaitSummary =>
      InsertSummary (SInt sourceId) (bind_param (msg_summary m)) (key_points_param m)
  | AwaitOutput summaryId =>
      InsertOutput (SInt summaryId) (SText (js "podcast")) (bind_param (msg_podcastPath m))
  end.

Definition reject_with (st : ipc_state) (e : js_error) : ipc_state :=
  mkIpc (st_db st) (settle (st_promise st) (Rejected e)) (st_runs st).

(** Line 171, with the run finished. *)
Definition resolve_run (st : ipc_state) (d : db) (i : nat) (m : worker_message) (summaryId : Z) :
    ipc_state :=
  mkIpc d (settle (st_promise st)
             (Resolved (mkReply summaryId (msg_summary m) (msg_keyPoints m) (msg_podcastPath m))))
    (<[i := None]> (st_runs st)).

(** The callback of the statement run [i] awaits: lines 147-148, 155-156,
    165-166, and the [catch] of lines 172-174. *)
Definition db_callback (st : ipc_state) (i : nat) (io_error : option jsstr) : ipc_state :=
  match st_runs st !! i with
  | Some (Some r) =>
      let m := run_msg r in
      let outcome := match io_error with
                     | Some msg => Throw (Error msg)
                     | None => exec (st_db st) (run_stmt r)
                     end in
      match outcome with
      | Throw e =>
          mkIpc (st_db st)
            (settle (st_promise st) (Rejected (Error (js "Database error: " ++ error_message e))))
            (<[i := None]> (st_runs st))
      | Ok (d, info) =>
          match run_phase r with
          | AwaitUpdate => mkIpc d (st_promise st) (<[i := Some (mkRun m AwaitSummary)]> (st_runs st))
          | AwaitSummary =>
              if truthy (msg_podcastPath m)
              then mkIpc d (st_promise st) (<[i := Some (mkRun m (AwaitOutput (lastID info)))]> (st_runs st))
              else resolve_run st d i m (lastID info)
          | AwaitOutput summaryId => resolve_run st d i m summaryId
          end
      end
  | _ => st
  end.

Definition step (st : ipc_state) (ev : ipc_event) : ipc_state :=
  match ev with
  | WorkerMessage m =>
      if truthy (msg_error m) then reject_with st (Error (to_js_string (msg_error m)))
      else mkIpc (st_db st) (st_promise st) (st_runs st ++ [Some (mkRun m AwaitUpdate)])
  | WorkerError message => reject_with st (Error message)
  | WorkerExit code =>
      if Z.eqb code 0 then st
      else reject_with st (Error (js "Worker stopped with exit code " ++ z_to_js code))
  | DbCallback i io_error => db_callback st i io_error
  | Renderer s =>
      mkIpc (match exec (st_db st) s with Ok (d, _) => d | Throw _ => st_db st end)
        (st_promise st) (st_runs st)
  end.

Definition run_events (st : ipc_state) (evs : list ipc_event) : ipc_state :=
  fold_left step evs st.

(** The states the handler reaches from [init] through any events. *)
Inductive reachable (init : ipc_state) : ipc_state -> Prop :=
| reach_init : reachable init init
| reach_step st ev : reachable init st -> reachable init (step st ev).

End Handler.

(** The handler's state when it is invoked on a database [d]. *)
Definition start (d : db) : ipc_state := mkIpc d Pending [].

(** ** Progress of a listener run

    Run [i] waits for the callback of its statement; the database and the
    worker deliver, meanwhile, any other events.  A move of the
    environment is any sequence of other events followed by the callback
    of run [i], with any outcome: the callback is assumed to come, as
    SQLite calls back every statement. *)
Definition other_event (i : nat) (ev : ipc_event) : bool :=
  match ev with DbCallback j _ => negb (Nat.eqb i j) | _ => true end.

Definition callback_move (sid : Z) (i : nat) (st : ipc_state) (mid : ipc_state -> Prop) : Prop :=
  forall evs io, forallb (other_event i) evs = true ->
    mid (db_callback sid (run_events sid st evs) i io).

(** The statements run [i] still has to await. *)
Definition phase_measure (p : phase) : nat :=
  match p with AwaitUpdate => 2 | AwaitSummary => 1 | AwaitOutput _ => 0 end.

(** * Lemmas *)

Lemma settle_settled (p new : promise) : p <> Pending -> settle p new = p.
Proof. by destruct p. Qed.

Lemma settle_resolved (p new : promise) (v : reply_value) :
  settle p new = Resolved v -> p = Resolved v \/ (p = Pending /\ new = Resolved v).
Proof. destruct p; simpl; auto. Qed.

(** Each event leaves a settled promise as it is. *)
Lemma step_settled (sid : Z) (st : ipc_state) (ev : ipc_event) :
  st_promise st <> Pending -> st_promise (step sid st ev) = st_promise st.
Proof.
  intros Hp. destruct ev; simpl; unfold reject_with, db_callback, resolve_run;
    repeat case_match; simpl; by rewrite ?settle_settled.
Qed.

(** The row the INSERT of line 153 writes for message [m]. *)
Definition summary_stored (sid : Z) (d : db) (summaryId : Z) (m : worker_message) : Prop :=
  t_rows (db_summaries d) !! summaryId =
    Some (mkSummary (SInt sid) (text_affinity (bind_param (msg_summary m)))
            (text_affinity (key_points_param m))).

(** The database stays well formed; a resolved promise, and a run about to
    insert the output, name a summary row that holds the message's
    summary and key points. *)
Definition handler_inv (sid : Z) (st : ipc_state) : Prop :=
  db_wf (st_db st) /\
  (forall v, st_promise st = Resolved v -> exists m,
     rv_summary v = msg_summary m /\ rv_keyPoints v = msg_keyPoints m /\
     rv_podcastPath v = msg_podcastPath m /\ summary_stored sid (st_db st) (rv_summaryId v) m) /\
  (forall i r summaryId, st_runs st !! i = Some (Some r) -> run_phase r = AwaitOutput summaryId ->
     summary_stored sid (st_db st) summaryId (run_msg r)).

Lemma summary_stored_exec (sid : Z) (d d' : db) (s : stmt) (info : run_info) (k : Z)
    (m : worker_message) :
  db_wf d -> exec d s = Ok (d', info) -> summary_stored sid d k m -> summary_stored sid d' k m.
Proof. unfold summary_stored. apply exec_keeps_summary. Qed.

Lemma inv_reject_with (sid : Z) (st : ipc_state) (e : js_error) :
  handler_inv sid st -> handler_inv sid (reject_with st e).
Proof.
  intros (Hwf & Hres & Hruns). split_and!; [done| |done]. simpl.
  intros v [Hv|[_ Hv]]%settle_resolved; [by apply Hres|discriminate].
Qed.

(** A run whose database step succeeded: the other runs keep their rows. *)
Lemma inv_runs_exec (sid : Z) (st : ipc_state) (d : db) (s : stmt) (info : run_info) (i : nat)
    (x : option run) :
  handler_inv sid st -> exec (st_db st) s = Ok (d, info) ->
  (forall r summaryId, x = Some r -> run_phase r = AwaitOutput summaryId ->
     summary_stored sid d summaryId (run_msg r)) ->
  forall j r summaryId, <[i := x]> (st_runs st) !! j = Some (Some r) ->
    run_phase r = AwaitOutput summaryId -> summary_stored sid d summaryId (run_msg r).
Proof.
  intros (Hwf & _ & Hruns) He Hx j r summaryId
    [(-> & -> & _)|(_ & Hj)]%list_lookup_insert_Some Hph; [by apply Hx|].
  eapply summary_stored_exec; [done|exact He|]. by apply (Hruns j).
Qed.

(** The run [i] goes on after a successful statement. *)
Lemma inv_continue (sid : Z) (st : ipc_state) (d : db) (s : stmt) (info : run_info) (i : nat)
    (x : option run) :
  handler_inv sid st -> exec (st_db st) s = Ok (d, info) ->
  (forall r summaryId, x = Some r -> run_phase r = AwaitOutput summaryId ->
     summary_stored sid d summaryId (run_msg r)) ->
  handler_inv sid (mkIpc d (st_promise st) (<[i := x]> (st_runs st))).
Proof.
  intros Hinv He Hx. pose proof Hinv as (Hwf & Hres & _). split_and!; simpl.
  - by apply (exec_wf _ _ _ _ Hwf He).
  - intros v Hv. destruct (Hres v Hv) as (m & ? & ? & ? & Hs). exists m. split_and!; try done.
    by apply (summary_stored_exec _ _ _ _ _ _ _ Hwf He).
  - by apply (inv_runs_exec _ _ _ _ _ _ _ Hinv He).
Qed.

(** The run [i] resolves with [summaryId] after a successful statement. *)
Lemma inv_resolve (sid : Z) (st : ipc_state) (d : db) (s : stmt) (info : run_info) (i : nat)
    (m : worker_message) (summaryId : Z) :
  handler_inv sid st -> exec (st_db st) s = Ok (d, info) -> summary_stored sid d summaryId m ->
  handler_inv sid (resolve_run st d i m summaryId).
Proof.
  intros Hinv He Hs. pose proof Hinv as (Hwf & Hres & _). split_and!; simpl.
  - by apply (exec_wf _ _ _ _ Hwf He).
  - intros v [Hv|[_ [= <-]]]%settle_resolved; [|by exists m].
    destruct (Hres v Hv) as (m' & ? & ? & ? & Hs'). exists m'. split_and!; try done.
    by apply (summary_stored_exec _ _ _ _ _ _ _ Hwf He).
  - apply (inv_runs_exec _ _ _ _ _ _ _ Hinv He). discriminate.
Qed.

(** The run [i] ends on a failed statement. *)
Lemma inv_fail (sid : Z) (st : ipc_state) (i : nat) (e : js_error) :
  handler_inv sid st ->
  handler_inv sid (mkIpc (st_db st) (settle (st_promise st) (Rejected e)) (<[i := None]> (st_runs st))).
Proof.
  intros (Hwf & Hres & Hruns). split_and!; simpl; [done| |].
  - intros v [Hv|[_ Hv]]%settle_resolved; [by apply Hres|discriminate].
  - intros j r summaryId [(_ & [=] & _)|(_ & Hj)]%list_lookup_insert_Some. by apply (Hruns j).
Qed.

Lemma inv_callback (sid : Z) (st : ipc_state) (i : nat) (io : option jsstr) :
  handler_inv sid st -> handler_inv sid (db_callback sid st i io).
Proof.
  intros Hinv. unfold db_callback.
  destruct (st_runs st !! i) as [[r|]|] eqn:Ei; [|done|done].
  destruct io as [msg|]; [by apply inv_fail|].
  destruct (exec (st_db st) (run_stmt sid r)) as [[d info]|e] eqn:He; [|by apply inv_fail].
  pose proof Hinv as (Hwf & _ & Hruns).
  destruct (run_phase r) as [| |summaryId] eqn:Hph.
  - apply (inv_continue _ _ _ _ _ _ _ Hinv He). by intros ? ? [= <-].
  - unfold run_stmt in He. rewrite Hph in He.
    destruct (exec_insert_summary _ _ _ _ _ _ Hwf He) as (_ & _ & Hd).
    assert (Hs : summary_stored sid d (lastID info) (run_msg r))
      by (unfold summary_stored; rewrite Hd; apply lookup_insert_eq).
    case_if; [|by apply (inv_resolve _ _ _ _ _ _ _ _ Hinv He)].
    apply (inv_continue _ _ _ _ _ _ _ Hinv He). by intros ? ? [= <-] [= <-].
  - apply (inv_resolve _ _ _ _ _ _ _ _ Hinv He).
    apply (summary_stored_exec _ _ _ _ _ _ _ Hwf He). by apply (Hruns i r).
Qed.

Lemma step_inv (sid : Z) (st : ipc_state) (ev : ipc_event) :
  handler_inv sid st -> handler_inv sid (step sid st ev).
Proof.
  intros Hinv. destruct ev as [m|msg|code|i io|s]; simpl.
  - case_if; [by apply inv_reject_with|].
    destruct Hinv as (Hwf & Hres & Hruns). split_and!; simpl; [done|done|].
    intros i r summaryId [[_ Hi]|[_ [= <-]]]%lookup_snoc_Some Hph; [by apply (Hruns i)|done].
  - by apply inv_reject_with.
  - case_if; [done|by apply inv_reject_with].
  - by apply inv_callback.
  - destruct (exec (st_db st) s) as [[d info]|e] eqn:He; [|by destruct st].
    pose proof Hinv as (Hwf & Hres & Hruns). split_and!; simpl.
    + by apply (exec_wf _ _ _ _ Hwf He).
    + intros v Hv. destruct (Hres v Hv) as (m & ? & ? & ? & Hs). exists m. split_and!; try done.
      by apply (summary_stored_exec _ _ _ _ _ _ _ Hwf He).
    + intros i r summaryId Hi Hph. apply (summary_stored_exec _ _ _ _ _ _ _ Hwf He).
      by apply (Hruns i).
Qed.

(** The invariant holds in every reachable state (rule induction). *)
Lemma reachable_inv (sid : Z) (d : db) (st : ipc_state) :
  db_wf d -> reachable sid (start d) st -> handler_inv sid st.
Proof.
  intros Hwf Hr. induction Hr as [|st ev _ IH]; [|by apply step_inv].
  split_and!; [done|discriminate|]. intros i r summaryId Hi. simpl in Hi. by rewrite lookup_nil in Hi.
Qed.

Lemma run_events_reachable (sid : Z) (init : ipc_state) (evs : list ipc_event) :
  reachable sid init (run_events sid init evs).
Proof.
  unfold run_events. rewrite <- (fold_left_rev_right (fun x y => step sid y x)).
  induction (rev evs) as [|ev l IH]; simpl; [constructor|]. by constructor.
Qed.

(** The events of a job whose message is [m] and whose three statements
    complete. *)
Definition message_events (m : worker_message) : list ipc_event :=
  [WorkerMessage m; DbCallback 0 None; DbCallback 0 None; DbCallback 0 None].

Lemma db_callback_ok (sid : Z) (st : ipc_state) (i : nat) (r : run) (d : db) (info : run_info) :
  st_runs st !! i = Some (Some r) -> exec (st_db st) (run_stmt sid r) = Ok (d, info) ->
  db_callback sid st i None =
    match run_phase r with
    | AwaitUpdate => mkIpc d (st_promise st) (<[i := Some (mkRun (run_msg r) AwaitSummary)]> (st_runs st))
    | AwaitSummary =>
        if truthy (msg_podcastPath (run_msg r))
        then mkIpc d (st_promise st)
               (<[i := Some (mkRun (run_msg r) (AwaitOutput (lastID info)))]> (st_runs st))
        else resolve_run st d i (run_msg r) (lastID info)
    | AwaitOutput summaryId => resolve_run st d i (run_msg r) summaryId
    end.
Proof. intros Hi He. unfold db_callback. rewrite Hi. cbv zeta. by rewrite He. Qed.

Lemma db_callback_error (sid : Z) (st : ipc_state) (i : nat) (r : run) (msg : jsstr) :
  st_runs st !! i = Some (Some r) ->
  db_callback sid st i (Some msg) =
    mkIpc (st_db st) (settle (st_promise st) (Rejected (Error (js "Database error: " ++ msg))))
      (<[i := None]> (st_runs st)).
Proof. intros Hi. unfold db_callback. by rewrite Hi. Qed.

Lemma message_events_result (sid : Z) (d : db) (content summary p : jsstr) (title : jsval)
    (ks : list jsstr) :
  db_wf d -> (t_seq (db_summaries d) < max_rowid)%Z -> (t_seq (db_outputs d) < max_rowid)%Z ->
  p <> [] ->
  exists t n,
    run_events sid (start d) (message_events (MsgResult content title summary ks (Some p))) =
    (let m := MsgResult content title summary ks (Some p) in
    let d1 := set_sources d t in
    let sum := (t_seq (db_summaries d) + 1)%Z in
    let d2 := set_last_id (set_summaries d1
                (mkTable (<[sum := mkSummary (SInt sid) (SText summary) (SText (stringify_strings ks))]>
                   (t_rows (db_summaries d))) sum)) sum in
    let out := (t_seq (db_outputs d) + 1)%Z in
    let d3 := set_last_id (set_outputs d2
                (mkTable (<[out := mkOutput (SInt sum) (SText (js "podcast")) SNull (SText p)]>
                   (t_rows (db_outputs d))) out)) out in
    resolve_run (mkIpc d3 Pending [Some (mkRun m (AwaitOutput sum))]) d3 0 m sum) /\
    exec d (UpdateSourceContent (SText content) (bind_param title) (SInt sid)) =
      Ok (set_sources d t, changed d n).
Proof.
  intros Hwf Hs Ho Hp.
  destruct (exec_update_content_ok d (SText content) (bind_param title) sid) as (t & n & Hu & Ht).
  exists t, n. split; [|done].
  set (m := MsgResult content title summary ks (Some p)).
  set (d1 := set_sources d t).
  assert (Hwf1 : db_wf d1) by (apply (exec_wf _ _ _ _ Hwf Hu)).
  pose proof (exec_insert_summary_ok d1 (SInt sid) (SText summary) (SText (stringify_strings ks))
                Hwf1 Hs) as Hi.
  set (d2 := set_last_id _ _) in Hi.
  assert (Hwf2 : db_wf d2) by (apply (exec_wf _ _ _ _ Hwf1 Hi)).
  pose proof (exec_insert_podcast_ok d2 (SInt (t_seq (db_summaries d) + 1)) (SText p) Hwf2 Ho) as Hp2.
  unfold run_events, message_events. cbn [fold_left].
  change (step sid (start d) (WorkerMessage m)) with (mkIpc d Pending [Some (mkRun m AwaitUpdate)]).
  cbn [step].
  rewrite (db_callback_ok sid (mkIpc d Pending [Some (mkRun m AwaitUpdate)]) 0 _ d1 _ eq_refl Hu).
  cbn [run_phase run_msg st_promise st_runs insert list_insert].
  rewrite (db_callback_ok sid (mkIpc d1 Pending [Some (mkRun m AwaitSummary)]) 0 _ d2 _ eq_refl Hi).
  cbn [run_phase run_msg st_promise st_runs lastID msg_podcastPath m insert list_insert].
  destruct p as [|c p']; [done|]. cbn [truthy].
  rewrite (db_callback_ok sid
    (mkIpc d2 Pending [Some (mkRun m (AwaitOutput (t_seq (db_summaries d1) + 1)))]) 0 _ _ _ eq_refl Hp2).
  reflexivity.
Qed.

Lemma settle_not_pending (p new : promise) : new <> Pending -> settle p new <> Pending.
Proof. by destruct p. Qed.

(** Events other than run [i]'s callback leave run [i] where it is. *)
Lemma step_other (sid : Z) (st : ipc_state) (ev : ipc_event) (i : nat) (x : option run) :
  other_event i ev = true -> st_runs st !! i = Some x -> st_runs (step sid st ev) !! i = Some x.
Proof.
  intros Ho Hi. destruct ev as [m|msg|code|j io|s]; simpl; unfold reject_with; try done.
  - case_if; simpl; [done|]. by apply lookup_app_l_Some.
  - case_if; done.
  - simpl in Ho. apply negb_true_iff, Nat.eqb_neq in Ho.
    unfold db_callback, resolve_run. repeat case_match; simpl; by rewrite ?list_lookup_insert_ne.
Qed.

Lemma run_events_other (sid : Z) (st : ipc_state) (evs : list ipc_event) (i : nat) (x : option run) :
  forallb (other_event i) evs = true -> st_runs st !! i = Some x ->
  st_runs (run_events sid st evs) !! i = Some x.
Proof.
  revert st. induction evs as [|ev evs IH]; intros st Ho Hi; [done|].
  simpl in Ho. apply andb_true_iff in Ho as [H1 H2]. apply IH; [done|]. by apply step_other.
Qed.

(** The callback of run [i] finishes it, settling the promise, or moves
    it to a later statement. *)
Lemma db_callback_progress (sid : Z) (st : ipc_state) (i : nat) (r : run) (io : option jsstr) :
  st_runs st !! i = Some (Some r) ->
  let st' := db_callback sid st i io in
  (st_runs st' !! i = Some None /\ st_promise st' <> Pending) \/
  (exists r', st_runs st' !! i = Some (Some r') /\
              (phase_measure (run_phase r') < phase_measure (run_phase r))%nat).
Proof.
  intros Hi. pose proof (lookup_lt_Some _ _ _ Hi) as Hlt. cbv zeta. unfold db_callback, resolve_run.
  rewrite Hi.
  destruct (match io with Some msg => Throw (Error msg) | None => exec (st_db st) (run_stmt sid r) end)
    as [[d info]|e].
  - destruct (run_phase r) eqn:Ep; [|case_if|]; cbn [st_runs st_promise];
      rewrite ?list_lookup_insert_eq by done.
    + right. eexists; split; [done|]. simpl. lia.
    + right. eexists; split; [done|]. simpl. lia.
    + left. split; [done|]. by apply settle_not_pending.
    + left. split; [done|]. by apply settle_not_pending.
  - left. cbn [st_runs st_promise]. rewrite list_lookup_insert_eq by done.
    split; [done|]. by apply settle_not_pending.
Qed.

Lemma run_settles_measure (sid : Z) (n : nat) (st : ipc_state) (i : nat) (r : run) :
  st_runs st !! i = Some (Some r) -> (phase_measure (run_phase r) < n)%nat ->
  eventually (callback_move sid i) (fun st' => st_runs st' !! i = Some None /\ st_promise st' <> Pending) st.
Proof.
  revert st r. induction n as [|n IH]; intros st r Hi Hn; [lia|].
  apply (eventually_step _ _ _ (fun st' => exists evs io, forallb (other_event i) evs = true /\
                                           st' = db_callback sid (run_events sid st evs) i io)).
  - intros evs io Ho. eauto.
  - intros st' (evs & io & Ho & ->).
    destruct (db_callback_progress sid (run_events sid st evs) i r io (run_events_other _ _ _ _ _ Ho Hi))
      as [Hdone | (r' & Hr' & Hlt)].
    + by apply eventually_done.
    + apply (IH _ r' Hr'). lia.
Qed.

(** * Theorems *)

(** The reply is settled once: after the first [resolve] or [reject],
    no event of the worker, of the database or of the renderer changes it. *)
Theorem promise_settled_once (sid : Z) (st0 st : ipc_state) :
  reachable sid st0 st -> st_promise st0 <> Pending -> st_promise st = st_promise st0.
Proof.
  intros Hr Hp. induction Hr as [|st ev _ IH]; [done|].
  rewrite step_settled; [done|]. by rewrite IH.
Qed.

(** C3. Whatever the renderer stored before and runs in between, and in
    whatever order the events come, a resolved reply names a summary row
    that holds the job's source id, the summary and the JSON of the key
    points it replies with. *)
Theorem resolved_reply_stored (sid : Z) (pre : list stmt) (evs : list ipc_event) (v : reply_value) :
  st_promise (run_events sid (start (run_stmts empty_db pre)) evs) = Resolved v ->
  exists m, rv_summary v = msg_summary m /\ rv_keyPoints v = msg_keyPoints m /\
    rv_podcastPath v = msg_podcastPath m /\
    summary_stored sid (st_db (run_events sid (start (run_stmts empty_db pre)) evs)) (rv_summaryId v) m.
Proof.
  intros Hv.
  destruct (reachable_inv sid (run_stmts empty_db pre) _ (run_stmts_wf _ _ empty_db_wf)
              (run_events_reachable sid _ evs)) as (_ & Hres & _).
  by apply Hres.
Qed.

(** C18. A result message with a podcast path, whose three statements
    complete: the reply carries the new summary id, the summary row holds
    the summary and the JSON of the key points, the output row the path. *)
Theorem process_content_stores_result (sid : Z) (d : db) (content summary p : jsstr) (title : jsval)
    (ks : list jsstr) :
  db_wf d -> (t_seq (db_summaries d) < max_rowid)%Z -> (t_seq (db_outputs d) < max_rowid)%Z ->
  p <> [] ->
  st_promise (run_events sid (start d) (message_events (MsgResult content title summary ks (Some p))))
    = Resolved (mkReply (t_seq (db_summaries d) + 1) (VStr summary) (VArr (map VStr ks)) (VStr p)) /\
  t_rows (db_summaries (st_db (run_events sid (start d)
                                 (message_events (MsgResult content title summary ks (Some p))))))
    !! (t_seq (db_summaries d) + 1)%Z =
    Some (mkSummary (SInt sid) (SText summary) (SText (stringify_strings ks))) /\
  t_rows (db_outputs (st_db (run_events sid (start d)
                               (message_events (MsgResult content title summary ks (Some p))))))
    !! (t_seq (db_outputs d) + 1)%Z =
    Some (mkOutput (SInt (t_seq (db_summaries d) + 1)) (SText (js "podcast")) SNull (SText p)).
Proof.
  intros Hwf Hs Ho Hp. destruct (message_events_result sid d content summary p title ks Hwf Hs Ho Hp)
    as (t & n & -> & _).
  split_and!; [reflexivity|apply lookup_insert_eq|apply lookup_insert_eq].
Qed.

(** An error message of the worker rejects the reply with its text
    and writes nothing. *)
Theorem error_message_rejects (sid : Z) (d : db) (e : jsstr) :
  e <> [] ->
  run_events sid (start d) [WorkerMessage (MsgError e); WorkerExit 0] = mkIpc d (Rejected (Error e)) [].
Proof. intros He. destruct e; [done|reflexivity]. Qed.

(** C17. The three statements run outside a transaction: when the INSERT of
    the summary fails, the reply is rejected but the source keeps the
    content and title the UPDATE wrote. *)
Theorem summary_insert_failure_partial (sid : Z) (d : db) (content summary msg : jsstr) (title : jsval)
    (ks : list jsstr) (podcastPath : option jsstr) (r : source_row) :
  t_rows (db_sources d) !! sid = Some r ->
  st_promise (run_events sid (start d) [WorkerMessage (MsgResult content title summary ks podcastPath);
                                        DbCallback 0 None; DbCallback 0 (Some msg)]) =
    Rejected (Error (js "Database error: " ++ msg)) /\
  t_rows (db_sources (st_db (run_events sid (start d)
     [WorkerMessage (MsgResult content title summary ks podcastPath);
      DbCallback 0 None; DbCallback 0 (Some msg)]))) !! sid =
    Some (mkSource (sr_project_id r) (sr_url r) (sr_type r)
            (text_affinity (bind_param title)) (SText content)) /\
  db_summaries (st_db (run_events sid (start d)
     [WorkerMessage (MsgResult content title summary ks podcastPath);
      DbCallback 0 None; DbCallback 0 (Some msg)])) = db_summaries d.
Proof.
  intros Hr. set (m := MsgResult content title summary ks podcastPath).
  pose proof (exec_update_content d (SText content) (bind_param title) sid) as Hu. rewrite Hr in Hu.
  unfold run_events. cbn [fold_left].
  change (step sid (start d) (WorkerMessage m)) with (mkIpc d Pending [Some (mkRun m AwaitUpdate)]).
  cbn [step]. rewrite (db_callback_ok sid (mkIpc d Pending [Some (mkRun m AwaitUpdate)]) 0 _ _ _ eq_refl Hu).
  cbn [run_phase run_msg st_promise st_runs insert list_insert].
  erewrite db_callback_error; [|reflexivity]. split_and!; [reflexivity| |reflexivity].
  simpl. apply lookup_insert_eq.
Qed.

(** C27. The handler does not check that its source still exists, and ON
    DELETE CASCADE is inert: on any well-formed database, a source the
    renderer deletes while its job is saved (after the worker's message,
    before the UPDATE runs) still gets a summary row naming it, and the
    reply resolves with that orphan summary's id. *)
Theorem deleted_source_orphan_summary (sid : Z) (d : db) (content summary : jsstr) (title : jsval)
    (ks : list jsstr) :
  db_wf d -> (t_seq (db_summaries d) < max_rowid)%Z ->
  let m := MsgResult content title summary ks None in
  let st := run_events sid (start d) [WorkerMessage m; Renderer (DeleteSource (SInt sid));
                                      DbCallback 0 None; DbCallback 0 None] in
  st_promise st = Resolved (mkReply (t_seq (db_summaries d) + 1) (VStr summary) (VArr (map VStr ks)) VNull) /\
  t_rows (db_sources (st_db st)) !! sid = None /\
  t_rows (db_summaries (st_db st)) !! (t_seq (db_summaries d) + 1)%Z =
    Some (mkSummary (SInt sid) (SText summary) (SText (stringify_strings ks))).
Proof.
  intros Hwf Hs m st.
  destruct (delete_source_no_cascade d sid) as (d1 & info1 & Hdel & Hrows & Hsum & _).
  assert (Hnone : t_rows (db_sources d1) !! sid = None) by (rewrite Hrows; apply lookup_delete_eq).
  assert (Hwf1 : db_wf d1) by (apply (exec_wf _ _ _ _ Hwf Hdel)).
  pose proof (exec_update_content d1 (SText content) (bind_param title) sid) as Hu. rewrite Hnone in Hu.
  set (d2 := set_sources d1 (db_sources d1)) in Hu.
  assert (Hwf2 : db_wf d2) by (apply (exec_wf _ _ _ _ Hwf1 Hu)).
  assert (Hs2 : (t_seq (db_summaries d2) < max_rowid)%Z) by (subst d2; simpl; by rewrite Hsum).
  pose proof (exec_insert_summary_ok d2 (SInt sid) (SText summary) (SText (stringify_strings ks))
                Hwf2 Hs2) as Hi.
  subst st. unfold run_events. cbn [fold_left].
  change (step sid (start d) (WorkerMessage m)) with (mkIpc d Pending [Some (mkRun m AwaitUpdate)]).
  cbn [step st_db st_promise st_runs]. rewrite Hdel.
  rewrite (db_callback_ok sid (mkIpc d1 Pending [Some (mkRun m AwaitUpdate)]) 0 _ _ _ eq_refl Hu).
  cbn [run_phase run_msg st_promise st_runs insert list_insert].
  rewrite (db_callback_ok sid (mkIpc d2 Pending [Some (mkRun m AwaitSummary)]) 0 _ _ _ eq_refl Hi).
  cbn [run_phase run_msg lastID msg_podcastPath m truthy]. unfold resolve_run. cbn [st_db st_promise].
  replace (t_seq (db_summaries d2)) with (t_seq (db_summaries d)) by (subst d2; simpl; by rewrite Hsum).
  split_and!; [reflexivity| |apply lookup_insert_eq]. subst d2. exact Hnone.
Qed.

(** C5. Liveness of a listener run: once the [message] listener has
    started saving a result, whatever other events interleave, the
    callbacks of its own statements (at most three, each with any
    outcome) finish the run, and the promise is then settled. *)
Theorem run_settles (sid : Z) (st : ipc_state) (i : nat) (r : run) :
  st_runs st !! i = Some (Some r) ->
  eventually (callback_move sid i)
    (fun st' => st_runs st' !! i = Some None /\ st_promise st' <> Pending) st.
Proof. intros Hi. apply (run_settles_measure sid 3 st i r Hi). destruct (run_phase r); simpl; lia. Qed.

(** * Witnesses *)

Definition failed_job_state : ipc_state :=
  run_events 7 (start empty_db) [WorkerMessage (MsgError (js "Failed to process content: timeout"))].

Lemma promise_settled_once_witness :
  st_promise failed_job_state <> Pending /\
  st_promise (run_events 7 failed_job_state
                (message_events (MsgResult (js "c") VNull (js "s") [] None) ++ [WorkerExit 1])) =
    st_promise failed_job_state.
Proof.
  assert (H : st_promise failed_job_state <> Pending) by (vm_compute; discriminate).
  split; [exact H|]. apply (promise_settled_once 7 failed_job_state _ (run_events_reachable _ _ _) H).
Defined.

Definition renderer_setup : list stmt :=
  [InsertProject (SText (js "Research"));
   InsertSource (SInt 1) (SText (js "https://example.com/a")) (SText (js "article"))].

Definition sample_result : worker_message :=
  MsgResult (js "Body") (VStr (js "Title")) (js "Summary") [js "First point of the summary"]
    (Some (js "C:\app\outputs\podcast_1_1.wav")).

Lemma resolved_reply_stored_witness :
  st_promise (run_events 1 (start (run_stmts empty_db renderer_setup)) (message_events sample_result)) =
    Resolved (mkReply 1 (VStr (js "Summary")) (VArr [VStr (js "First point of the summary")])
                (VStr (js "C:\app\outputs\podcast_1_1.wav"))) /\
  exists m, rv_summary (mkReply 1 (VStr (js "Summary")) (VArr [VStr (js "First point of the summary")])
                (VStr (js "C:\app\outputs\podcast_1_1.wav"))) = msg_summary m /\
    rv_keyPoints (mkReply 1 (VStr (js "Summary")) (VArr [VStr (js "First point of the summary")])
                (VStr (js "C:\app\outputs\podcast_1_1.wav"))) = msg_keyPoints m /\
    rv_podcastPath (mkReply 1 (VStr (js "Summary")) (VArr [VStr (js "First point of the summary")])
                (VStr (js "C:\app\outputs\podcast_1_1.wav"))) = msg_podcastPath m /\
    summary_stored 1 (st_db (run_events 1 (start (run_stmts empty_db renderer_setup))
                               (message_events sample_result))) 1 m.
Proof.
  assert (H : st_promise (run_events 1 (start (run_stmts empty_db renderer_setup)) (message_events sample_result)) =
    Resolved (mkReply 1 (VStr (js "Summary")) (VArr [VStr (js "First point of the summary")])
                (VStr (js "C:\app\outputs\podcast_1_1.wav")))) by (vm_compute; reflexivity).
  split; [exact H|]. apply (resolved_reply_stored 1 renderer_setup _ _ H).
Defined.

Lemma process_content_stores_result_witness :
  st_promise (run_events 1 (start empty_db) (message_events sample_result)) =
    Resolved (mkReply (t_seq (db_summaries empty_db) + 1) (VStr (js "Summary"))
                (VArr (map VStr [js "First point of the summary"]))
                (VStr (js "C:\app\outputs\podcast_1_1.wav"))) /\
  t_rows (db_summaries (st_db (run_events 1 (start empty_db) (message_events sample_result))))
    !! (t_seq (db_summaries empty_db) + 1)%Z =
    Some (mkSummary (SInt 1) (SText (js "Summary"))
            (SText (stringify_strings [js "First point of the summary"]))) /\
  t_rows (db_outputs (st_db (run_events 1 (start empty_db) (message_events sample_result))))
    !! (t_seq (db_outputs empty_db) + 1)%Z =
    Some (mkOutput (SInt (t_seq (db_summaries empty_db) + 1)) (SText (js "podcast")) SNull
            (SText (js "C:\app\outputs\podcast_1_1.wav"))).
Proof.
  apply (process_content_stores_result 1 empty_db (js "Body") (js "Summary")
           (js "C:\app\outputs\podcast_1_1.wav") (VStr (js "Title")) [js "First point of the summary"]
           empty_db_wf); [vm_compute; reflexivity|vm_compute; reflexivity|discriminate].
Defined.

Lemma error_message_rejects_witness :
  run_events 7 (start empty_db) [WorkerMessage (MsgError (js "Failed to process content: timeout"));
                                 WorkerExit 0] =
    mkIpc empty_db (Rejected (Error (js "Failed to process content: timeout"))) [].
Proof. apply error_message_rejects. discriminate. Defined.

Lemma summary_insert_failure_partial_witness :
  st_promise (run_events 1 (start (run_stmts empty_db renderer_setup))
    [WorkerMessage sample_result; DbCallback 0 None; DbCallback 0 (Some (js "SQLITE_BUSY: database is locked"))]) =
    Rejected (Error (js "Database error: " ++ js "SQLITE_BUSY: database is locked")) /\
  t_rows (db_sources (st_db (run_events 1 (start (run_stmts empty_db renderer_setup))
    [WorkerMessage sample_result; DbCallback 0 None;
     DbCallback 0 (Some (js "SQLITE_BUSY: database is locked"))]))) !! 1%Z =
    Some (mkSource (SInt 1) (SText (js "https://example.com/a")) (SText (js "article"))
            (text_affinity (bind_param (VStr (js "Title")))) (SText (js "Body"))) /\
  db_summaries (st_db (run_events 1 (start (run_stmts empty_db renderer_setup))
    [WorkerMessage sample_result; DbCallback 0 None;
     DbCallback 0 (Some (js "SQLITE_BUSY: database is locked"))])) =
    db_summaries (run_stmts empty_db renderer_setup).
Proof.
  apply (summary_insert_failure_partial 1 _ (js "Body") (js "Summary") _ (VStr (js "Title"))
           [js "First point of the summary"] (Some (js "C:\app\outputs\podcast_1_1.wav"))
           (mkSource (SInt 1) (SText (js "https://example.com/a")) (SText (js "article")) SNull SNull)).
  vm_compute. reflexivity.
Defined.

Definition saving_state : ipc_state :=
  run_events 7 (start empty_db) [WorkerMessage (MsgResult (js "c") VNull (js "s") [] None)].

Lemma run_settles_witness :
  eventually (callback_move 7 0)
    (fun st' => st_runs st' !! 0 = Some None /\ st_promise st' <> Pending) saving_state.
Proof.
  apply (run_settles 7 saving_state 0 (mkRun (MsgResult (js "c") VNull (js "s") [] None) AwaitUpdate)).
  reflexivity.
Defined.


Lemma deleted_source_orphan_summary_witness :
  t_rows (db_summaries (st_db (run_events 1 (start (run_stmts empty_db renderer_setup))
    [WorkerMessage (MsgResult (js "Body") (VStr (js "Title")) (js "Summary") [] None);
     Renderer (DeleteSource (SInt 1)); DbCallback 0 None; DbCallback 0 None]))) !! 1%Z =
    Some (mkSummary (SInt 1) (SText (js "Summary")) (SText (js "[]"))).
Proof.
  destruct (deleted_source_orphan_summary 1 (run_stmts empty_db renderer_setup) (js "Body") (js "Summary")
              (VStr (js "Title")) [] (run_stmts_wf _ _ empty_db_wf) ltac:(vm_compute; reflexivity))
    as (_ & _ & H).
  exact H.
Defined.
