(* ===== verification/Query.v ===== *)
(** * The renderer's queries ([src/src/App.js], lines 20, 29, 34 and 40)

    The renderer reads the tables with four [SELECT]s through [db-query].
    They return rows in rowid order, as SQLite scans these tables, which
    [scan] computes by sorting the entries of the table's map.
    [db-query] binds at most [SQLITE_MAX_VARIABLE_NUMBER] = 32766
    parameters (the default of the SQLite node-sqlite3 bundles); a query
    with more fails with [too many SQL variables].

    The file also gives the abstract specification of a filtered scan,
    [query_spec]: the rows of the table that pass the filter, each once,
    in increasing rowid order; [scan_filter_spec] shows that the
    specification determines the result and that the queries meet it. *)

From Stdlib Require Import String Ascii NArith ZArith Lia.
From stdpp Require Import base list numbers gmap sorting.
From S2P Require Import Prelude JsString JsValue Database.

(** ** Queries *)

(** SQL [=] between a column and a bound parameter: [NULL] equals nothing. *)
Definition sql_eq (a b : sqlval) : bool :=
  match a, b with
  | SInt x, SInt y => Z.eqb x y
  | SText x, SText y => bool_decide (x = y)
  | _, _ => false
  end.

Definition sql_in (a : sqlval) (bs : list sqlval) : bool := existsb (sql_eq a) bs.

Definition rowid_le {A} (x y : Z * A) : Prop := (x.1 <= y.1)%Z.

#[export] Instance rowid_le_dec {A} : RelDecision (@rowid_le A) :=
  fun x y => Z.le_dec x.1 y.1.

(** A full scan: the rows in rowid order. *)
Definition scan {A} (t : table A) : list (Z * A) :=
  merge_sort rowid_le (map_to_list (t_rows t)).

Definition max_variable_number : nat := 32766.

Definition too_many_variables : js_error :=
  sqlite_error (js "SQLITE_ERROR") (js "too many SQL variables").

(** [SELECT * FROM projects] (line 20). *)
Definition select_projects (d : db) : list (Z * project_row) := scan (db_projects d).

(** [SELECT * FROM sources WHERE project_id = ?] (line 29). *)
Definition select_sources (d : db) (projectId : sqlval) : list (Z * source_row) :=
  filter (fun x => sql_eq (sr_project_id x.2) projectId = true) (scan (db_sources d)).

(** [SELECT * FROM summaries WHERE source_id IN (?, ...)] (line 34). *)
Definition select_summaries_in (d : db) (ids : list sqlval) : result (list (Z * summary_row)) :=
  if Nat.ltb max_variable_number (length ids) then Throw too_many_variables
  else Ok (filter (fun x => sql_in (su_source_id x.2) ids = true) (scan (db_summaries d))).

(** [SELECT * FROM outputs WHERE summary_id IN (?, ...)] (line 40). *)
Definition select_outputs_in (d : db) (ids : list sqlval) : result (list (Z * output_row)) :=
  if Nat.ltb max_variable_number (length ids) then Throw too_many_variables
  else Ok (filter (fun x => sql_in (ou_summary_id x.2) ids = true) (scan (db_outputs d))).

(** The query text of lines 34 and 40: one placeholder per id. *)
Definition in_query {A} (prefix : jsstr) (ids : list A) : jsstr :=
  prefix ++ join (js ",") (map (fun _ => js "?") ids) ++ js ")".

(** ** The abstract specification of a filtered scan *)

Definition rowid_lt {A} (x y : Z * A) : Prop := (x.1 < y.1)%Z.

(** The rows of [m] that pass [P], each once, in increasing rowid order. *)
Definition query_spec {A} (m : gmap Z A) (P : A -> bool) (res : list (Z * A)) : Prop :=
  StronglySorted rowid_lt res /\ forall k r, (k, r) ∈ res <-> m !! k = Some r /\ P r = true.

(** * Lemmas *)

#[export] Instance rowid_le_trans {A} : Transitive (@rowid_le A).
Proof. intros x y z; unfold rowid_le; lia. Qed.

#[export] Instance rowid_le_total {A} : Total (@rowid_le A).
Proof. intros x y; unfold rowid_le; lia. Qed.

Lemma StronglySorted_strict {A} (l : list (Z * A)) :
  StronglySorted rowid_le l -> NoDup l.*1 -> StronglySorted rowid_lt l.
Proof.
  induction 1 as [|x l Hl IH Hx]; simpl; intros Hnd; constructor.
  - apply IH. by inversion Hnd.
  - inversion Hnd as [|? ? Hnin _]; subst. clear -Hx Hnin.
    induction Hx as [|y l Hy Hl IHl]; constructor.
    + unfold rowid_le, rowid_lt in *. destruct (decide (x.1 = y.1)) as [E|]; [|lia].
      destruct Hnin. rewrite E. by left.
    + apply IHl. intros Hin. apply Hnin. by right.
Qed.

Lemma StronglySorted_filter {A} (R : relation A) (P : A -> Prop) `{!forall x, Decision (P x)}
    (l : list A) :
  StronglySorted R l -> StronglySorted R (filter P l).
Proof.
  induction 1 as [|x l Hl IH Hx]; simpl; [constructor|].
  rewrite filter_cons. case_decide; [|done]. constructor; [done|].
  clear -Hx. induction Hx as [|y l Hy Hl IHl]; simpl; [constructor|].
  rewrite filter_cons. case_decide; [by constructor|done].
Qed.

Lemma StronglySorted_lt_NoDup {A} (l : list (Z * A)) : StronglySorted rowid_lt l -> NoDup l.
Proof.
  induction 1 as [|x l Hl IH Hx]; constructor; [|done].
  intros Hin. apply list_elem_of_In, (proj1 (List.Forall_forall _ _) Hx x) in Hin.
  unfold rowid_lt in Hin; lia.
Qed.

Lemma scan_sorted {A} (t : table A) : StronglySorted rowid_lt (scan t).
Proof.
  apply StronglySorted_strict; [apply StronglySorted_merge_sort; apply _|].
  unfold scan. rewrite merge_sort_Permutation.
  apply NoDup_fst_map_to_list.
Qed.

Lemma elem_of_scan {A} (t : table A) (k : Z) (r : A) : (k, r) ∈ scan t <-> t_rows t !! k = Some r.
Proof. unfold scan. rewrite merge_sort_Permutation. apply elem_of_map_to_list. Qed.

(** The specification determines the result, and a filtered scan meets
    it. *)
Lemma scan_filter_spec {A} (t : table A) (P : A -> bool) (res : list (Z * A)) :
  query_spec (t_rows t) P res <-> res = filter (fun x => P x.2 = true) (scan t).
Proof.
  assert (Hs : query_spec (t_rows t) P (filter (fun x => P x.2 = true) (scan t))).
  { split; [apply StronglySorted_filter, scan_sorted|].
    intros k r. rewrite list_elem_of_filter, elem_of_scan. simpl. tauto. }
  split; [|by intros ->].
  intros [Hsorted Hin]. destruct Hs as [Hsorted' Hin'].
  apply StronglySorted_unique_strong with (R := rowid_lt); try done.
  - intros x1 x2 _ _ H1 H2. unfold rowid_lt in *. lia.
  - apply NoDup_Permutation; try by apply StronglySorted_lt_NoDup.
    intros [k r]. by rewrite Hin, Hin'.
Qed.

Lemma filter_all_true {A} (l : list A) : filter (fun _ => true = true) l = l.
Proof. induction l as [|x l IH]; [done|]. rewrite filter_cons. case_decide; [by rewrite IH|done]. Qed.

Lemma sql_eq_int (a : sqlval) (y : Z) : sql_eq a (SInt y) = true <-> a = SInt y.
Proof. destruct a; simpl; [done| |done]. rewrite Z.eqb_eq. naive_solver. Qed.

Lemma sql_in_ints (a : sqlval) (ids : list Z) : sql_in a (map SInt ids) = true <-> a ∈ map SInt ids.
Proof.
  unfold sql_in. induction ids as [|y ids IH]; simpl.
  - split; [done|]. intros Hin. by apply not_elem_of_nil in Hin.
  - rewrite orb_true_iff, elem_of_cons, IH, sql_eq_int. done.
Qed.

Lemma filter_none {A} (P : A -> Prop) `{!forall x, Decision (P x)} (l : list A) :
  (forall x, ~ P x) -> filter P l = [].
Proof. intros HP. induction l as [|x l IH]; [done|]. rewrite filter_cons. case_decide as Hx; [by destruct (HP x)|done]. Qed.

Lemma length_filter_scan {A} (P : Z * A -> Prop) `{!forall x, Decision (P x)} (t : table A) :
  (length (filter P (scan t)) <= size (t_rows t))%nat.
Proof.
  etransitivity; [apply length_filter|]. unfold scan. rewrite merge_sort_Permutation.
  by rewrite length_map_to_list.
Qed.

(** The three queries of [loadSources] against their tables, with the
    WHERE clauses read as plain equalities and memberships. *)
Lemma select_sources_spec (d : db) (pid : Z) :
  query_spec (t_rows (db_sources d)) (fun r => bool_decide (sr_project_id r = SInt pid))
    (select_sources d (SInt pid)).
Proof.
  apply scan_filter_spec. apply list_filter_iff. intros x. by rewrite bool_decide_eq_true, sql_eq_int.
Qed.

Lemma select_summaries_in_spec (d : db) (ids : list Z) :
  (length ids <= max_variable_number)%nat ->
  exists res, select_summaries_in d (map SInt ids) = Ok res /\
    query_spec (t_rows (db_summaries d)) (fun r => bool_decide (su_source_id r ∈ map SInt ids)) res.
Proof.
  intros Hl. unfold select_summaries_in. rewrite length_map, (proj2 (Nat.ltb_ge _ _) Hl).
  eexists; split; [reflexivity|]. apply scan_filter_spec. apply list_filter_iff.
  intros x. by rewrite bool_decide_eq_true, sql_in_ints.
Qed.

Lemma select_outputs_in_spec (d : db) (ids : list Z) :
  (length ids <= max_variable_number)%nat ->
  exists res, select_outputs_in d (map SInt ids) = Ok res /\
    query_spec (t_rows (db_outputs d)) (fun r => bool_decide (ou_summary_id r ∈ map SInt ids)) res.
Proof.
  intros Hl. unfold select_outputs_in. rewrite length_map, (proj2 (Nat.ltb_ge _ _) Hl).
  eexists; split; [reflexivity|]. apply scan_filter_spec. apply list_filter_iff.
  intros x. by rewrite bool_decide_eq_true, sql_in_ints.
Qed.

(** With no ids, the [IN] predicate holds of no row: the empty list is
    the answer. *)
Lemma query_spec_no_ids {A} (t : table A) (f : A -> sqlval) :
  query_spec (t_rows t) (fun r => bool_decide (f r ∈ map SInt [])) [].
Proof.
  apply scan_filter_spec. symmetry. apply filter_none. intros x.
  rewrite bool_decide_eq_true. simpl. apply not_elem_of_nil.
Qed.

Lemma StronglySorted_snoc {A} (R : relation A) (l : list A) (x : A) :
  StronglySorted R l -> Forall (fun y => R y x) l -> StronglySorted R (l ++ [x]).
Proof.
  induction 1 as [|y l Hl IH Hy]; intros Hx; simpl; [repeat constructor|].
  inversion Hx as [|? ? Hyx Hx']; subst. constructor; [by apply IH|].
  apply Forall_app; split; [done|by constructor].
Qed.

(** A row inserted under a rowid larger than every rowid of the table
    comes last in a scan. *)
Lemma scan_insert_last {A} (t : table A) (k : Z) (r : A) (seq : Z) :
  (forall j x, t_rows t !! j = Some x -> (j < k)%Z) ->
  scan (mkTable (<[k := r]> (t_rows t)) seq) = scan t ++ [(k, r)].
Proof.
  intros Hlt. symmetry. rewrite <- (filter_all_true (scan (mkTable _ seq))).
  apply (scan_filter_spec _ (fun _ => true)). split.
  - apply StronglySorted_snoc; [apply scan_sorted|].
    apply List.Forall_forall. intros [j x] Hin. apply (Hlt j x). apply elem_of_scan, list_elem_of_In, Hin.
  - intros j x. rewrite elem_of_app, elem_of_scan, list_elem_of_singleton. simpl.
    rewrite lookup_insert_Some. split.
    + intros [Hj|[= -> ->]]; (split; [|done]); [|by left]. right. split; [|done].
      intros ->. specialize (Hlt _ _ Hj). lia.
    + intros [[[-> ->]|[_ Hj]] _]; [by right|by left].
Qed.

(** * Theorems *)

(** Refinement of the queries: [SELECT * FROM projects], [SELECT *
    FROM sources WHERE project_id = ?] and the two [IN (?, ...)] queries,
    when they bind at most 32766 parameters, return exactly the rows of
    their table that satisfy the WHERE clause, each once, in increasing
    rowid order; no other list meets that specification. *)
Theorem queries_meet_spec (d : db) (projectId : sqlval) (sourceIds summaryIds : list sqlval) :
  (length sourceIds <= max_variable_number)%nat -> (length summaryIds <= max_variable_number)%nat ->
  (forall res, query_spec (t_rows (db_projects d)) (fun _ => true) res <-> select_projects d = res) /\
  (forall res, query_spec (t_rows (db_sources d)) (fun r => sql_eq (sr_project_id r) projectId) res <->
               select_sources d projectId = res) /\
  (forall res, query_spec (t_rows (db_summaries d)) (fun r => sql_in (su_source_id r) sourceIds) res <->
               select_summaries_in d sourceIds = Ok res) /\
  (forall res, query_spec (t_rows (db_outputs d)) (fun r => sql_in (ou_summary_id r) summaryIds) res <->
               select_outputs_in d summaryIds = Ok res).
Proof.
  intros Hs Ho. unfold select_projects, select_sources, select_summaries_in, select_outputs_in.
  rewrite (proj2 (Nat.ltb_ge _ _) Hs), (proj2 (Nat.ltb_ge _ _) Ho).
  split_and!; intros res; rewrite scan_filter_spec; [rewrite filter_all_true| | |];
    split; intros E; by simplify_eq.
Qed.

(** * Witnesses *)

Lemma queries_meet_spec_witness :
  select_sources empty_db (SInt 1) = [] /\ select_summaries_in empty_db [SInt 1] = Ok [].
Proof.
  assert (H1 : (length [SInt 1] <= max_variable_number)%nat) by (apply Nat.leb_le; vm_compute; reflexivity).
  destruct (queries_meet_spec empty_db (SInt 1) [SInt 1] [SInt 1] H1 H1) as (_ & Hs & Hm & _).
  split; [apply Hs|apply Hm]; (split; [apply SSorted_nil|]); intros k r; simpl; rewrite lookup_empty;
    (split; [intros Hin; by apply not_elem_of_nil in Hin|by intros []]).
Defined.
