(* ===== verification/App.v ===== *)
(** * The renderer ([src/src/App.js])

    The React component [App] keeps the projects, the current project, its
    sources, their summaries and outputs, and the text of its inputs.  Its
    handlers read the database through [db-query] and change it through
    [db-run]; each handler is modelled as a function of the component's
    state and of the database to the new state and database, the queries
    and statements running one after the other as the [await]s order
    them.  An exception caught by a handler's [catch] only logs, so the
    state keeps what was set before it.

    The queries of the handlers are those of [Query].

    The rendering reads the key points with
    [JSON.parse(summary.key_points || '[]')] and shows the podcast file
    name with [file_path.split('\\').pop()]. *)

From Stdlib Require Import String Ascii NArith ZArith Lia.
From stdpp Require Import base list numbers gmap sorting.
From S2P Require Import Prelude JsString JsValue Json Effects Extractor Database MainIpc Query.

(** ** The component's state *)

Record app_state : Type := mkApp {
  a_projects : list (Z * project_row);
  a_currentProject : option (Z * project_row);
  a_newProjectName : jsstr;
  a_sources : list (Z * source_row);
  a_newSourceUrl : jsstr;
  a_newSourceType : jsstr;
  a_summaries : list (Z * summary_row);
  a_outputs : list (Z * output_row);
  a_editingSourceId : option Z;
  a_editUrl : jsstr;
  a_editType : jsstr;
  a_selectedModel : jsstr
}.

(** Lines 5-16. *)
Definition initial_app : app_state :=
  mkApp [] None [] [] [] (js "article") [] [] None [] (js "article")
    (js "meta-llama/llama-3-8b-instruct").

Definition set_projects_st (s : app_state) (ps : list (Z * project_row)) : app_state :=
  mkApp ps (a_currentProject s) (a_newProjectName s) (a_sources s) (a_newSourceUrl s)
    (a_newSourceType s) (a_summaries s) (a_outputs s) (a_editingSourceId s) (a_editUrl s)
    (a_editType s) (a_selectedModel s).

Definition set_listing (s : app_state) (srcs : list (Z * source_row)) (sums : list (Z * summary_row))
    (outs : list (Z * output_row)) : app_state :=
  mkApp (a_projects s) (a_currentProject s) (a_newProjectName s) srcs (a_newSourceUrl s)
    (a_newSourceType s) sums outs (a_editingSourceId s) (a_editUrl s) (a_editType s)
    (a_selectedModel s).

Definition set_current (s : app_state) (p : option (Z * project_row)) : app_state :=
  mkApp (a_projects s) p (a_newProjectName s) (a_sources s) (a_newSourceUrl s)
    (a_newSourceType s) (a_summaries s) (a_outputs s) (a_editingSourceId s) (a_editUrl s)
    (a_editType s) (a_selectedModel s).

Definition set_newProjectName (s : app_state) (n : jsstr) : app_state :=
  mkApp (a_projects s) (a_currentProject s) n (a_sources s) (a_newSourceUrl s)
    (a_newSourceType s) (a_summaries s) (a_outputs s) (a_editingSourceId s) (a_editUrl s)
    (a_editType s) (a_selectedModel s).

Definition set_newSourceUrl (s : app_state) (u : jsstr) : app_state :=
  mkApp (a_projects s) (a_currentProject s) (a_newProjectName s) (a_sources s) u
    (a_newSourceType s) (a_summaries s) (a_outputs s) (a_editingSourceId s) (a_editUrl s)
    (a_editType s) (a_selectedModel s).

Definition set_editing (s : app_state) (id : option Z) (u t : jsstr) : app_state :=
  mkApp (a_projects s) (a_currentProject s) (a_newProjectName s) (a_sources s) (a_newSourceUrl s)
    (a_newSourceType s) (a_summaries s) (a_outputs s) id u t (a_selectedModel s).

(** The text of a TEXT NOT NULL column as the renderer receives it. *)
Definition text_of (v : sqlval) : jsstr :=
  match v with SText u => u | SInt z => z_to_js z | SNull => [] end.

(** ** Handlers *)

(** Lines 18-25. *)
Definition loadProjects (s : app_state) (d : db) : app_state := set_projects_st s (select_projects d).

(** Lines 27-52: [setSources] happens before the summaries are read, so a
    failing summaries query leaves the old summaries beside the new
    sources. *)
Definition loadSources (s : app_state) (d : db) (projectId : Z) : app_state :=
  let result := select_sources d (SInt projectId) in
  let s1 := set_listing s result (a_summaries s) (a_outputs s) in
  let sourceIds := map fst result in
  if 0 <? length sourceIds then
    match select_summaries_in d (map SInt sourceIds) with
    | Throw _ => s1
    | Ok summariesResult =>
        let s2 := set_listing s1 result summariesResult (a_outputs s) in
        let summaryIds := map fst summariesResult in
        if 0 <? length summaryIds then
          match select_outputs_in d (map SInt summaryIds) with
          | Throw _ => s2
          | Ok outputsResult => set_listing s2 result summariesResult outputsResult
          end
        else set_listing s2 result summariesResult []
    end
  else set_listing s1 result [] [].

(** The list item click of lines 143-146. *)
Definition selectProject (s : app_state) (d : db) (p : Z * project_row) : app_state :=
  loadSources (set_current s (Some p)) d p.1.

Definition is_blank (u : jsstr) : bool := match trim u with [] => true | _ => false end.

(** Lines 99-108. *)
Definition createProject (s : app_state) (d : db) : app_state * db :=
  if is_blank (a_newProjectName s) then (s, d)
  else match exec d (InsertProject (SText (trim (a_newProjectName s)))) with
       | Ok (d', _) => (loadProjects (set_newProjectName s []) d', d')
       | Throw _ => (s, d)
       end.

(** Lines 88-97. *)
Definition addSource (s : app_state) (d : db) : app_state * db :=
  if is_blank (a_newSourceUrl s) then (s, d)
  else match a_currentProject s with
       | None => (s, d)
       | Some (projectId, _) =>
           match exec d (InsertSource (SInt projectId) (SText (trim (a_newSourceUrl s)))
                           (SText (a_newSourceType s))) with
           | Ok (d', _) => (loadSources (set_newSourceUrl s []) d' projectId, d')
           | Throw _ => (s, d)
           end
       end.

(** Lines 59-66: [currentProject.id] throws on [null]; the [catch] only
    logs, after the deletion. *)
Definition deleteSource (s : app_state) (d : db) (sourceId : Z) : app_state * db :=
  match exec d (DeleteSource (SInt sourceId)) with
  | Ok (d', _) =>
      match a_currentProject s with
      | Some (projectId, _) => (loadSources s d' projectId, d')
      | None => (s, d')
      end
  | Throw _ => (s, d)
  end.

(** Lines 68-72. *)
Definition startEdit (s : app_state) (source : Z * source_row) : app_state :=
  set_editing s (Some source.1) (text_of (sr_url source.2)) (text_of (sr_type source.2)).

(** Lines 74-82: the URL is trimmed but, unlike [addSource], not checked. *)
Definition saveEdit (s : app_state) (d : db) : app_state * db :=
  let id := match a_editingSourceId s with Some i => SInt i | None => SNull end in
  match exec d (UpdateSource (SText (trim (a_editUrl s))) (SText (a_editType s)) id) with
  | Ok (d', _) =>
      let s' := set_editing s None (a_editUrl s) (a_editType s) in
      match a_currentProject s with
      | Some (projectId, _) => (loadSources s' d' projectId, d')
      | None => (s', d')
      end
  | Throw _ => (s, d)
  end.

(** Lines 84-86. *)
Definition cancelEdit (s : app_state) : app_state :=
  set_editing s None (a_editUrl s) (a_editType s).

(** Line 112: the job the Process button sends to the main process. *)
Definition process_request (s : app_state) (source : Z * source_row) : content_data :=
  mkContentData source.1 (text_of (sr_url source.2)) (text_of (sr_type source.2)) (a_selectedModel s).

(** ** Rendering *)

(** [summary.key_points || '[]'] as the string [JSON.parse] receives. *)
Definition key_points_text (v : sqlval) : jsstr :=
  match v with
  | SNull => js "[]"
  | SText [] => js "[]"
  | SText u => u
  | SInt 0 => js "[]"
  | SInt z => z_to_js z
  end.

(** Line 231: [JSON.parse(summary.key_points || '[]').map(...)]; the
    elements of the array it renders, or the exception that ends the
    rendering. *)
Definition render_key_points (v : sqlval) : parse_result (result (list jsval)) :=
  match parse_json (key_points_text v) with
  | POk parsed => POk (array_receiver parsed (js "JSON.parse(...).map"))
  | PSyntax => POk (Throw (SyntaxError (js "Unexpected token in JSON")))
  | PUnsupported => PUnsupported
  end.

(** Lines 222-223: the first podcast output of a summary. *)
Definition podcast_output (outs : list (Z * output_row)) (summaryId : Z) : option (Z * output_row) :=
  find (fun o => sql_eq (ou_type o.2) (SText (js "podcast")))
    (filter (fun o => sql_eq (ou_summary_id o.2) (SInt summaryId) = true) outs).

(** Line 240: [file_path.split('\\').pop()]. *)
Definition file_name (path : jsstr) : jsstr :=
  match last (split_on 92%N path) with Some x => x | None => [] end.

(** * Lemmas and theorems *)

Lemma render_stringify (ks : list jsstr) :
  render_key_points (SText (stringify_strings ks)) = POk (Ok (map VStr ks)).
Proof.
  unfold render_key_points.
  replace (key_points_text _) with (stringify_strings ks) by reflexivity.
  by rewrite parse_json_stringify.
Qed.

(** C4. What the renderer shows is what the job replied: after any
    statements and events, a resolved reply names a summary row whose
    [key_points], read back by [JSON.parse] in the renderer, are exactly
    the key points of the reply. *)
Theorem displayed_key_points (sid : Z) (pre : list stmt) (evs : list ipc_event) (v : reply_value) :
  st_promise (run_events sid (start (run_stmts empty_db pre)) evs) = Resolved v ->
  exists row, t_rows (db_summaries (st_db (run_events sid (start (run_stmts empty_db pre)) evs)))
                !! rv_summaryId v = Some row /\
    render_key_points (su_key_points row) =
      POk (Ok (match rv_keyPoints v with VArr vs => vs | _ => [] end)).
Proof.
  intros Hv.
  destruct (reachable_inv sid (run_stmts empty_db pre) _ (run_stmts_wf _ _ empty_db_wf)
              (run_events_reachable sid _ evs)) as (_ & Hres & _).
  destruct (Hres v Hv) as (m & _ & Hk & _ & Hs). eexists. split; [exact Hs|].
  rewrite Hk. destruct m as [c t s ks p|e]; simpl; [apply render_stringify|reflexivity].
Qed.

(** The podcast line shows the file name: for a path built by
    [path.join] whose last component holds no backslash, [split('\\').pop()]
    gives that component, whatever the directory. *)
Theorem file_name_path_join (dir name : jsstr) :
  92%N ∉ name -> file_name (path_join dir name) = name.
Proof.
  intros Hn. unfold file_name, path_join. simpl.
  rewrite split_on_app_sep_split, (split_on_no_sep _ name Hn), last_snoc. reflexivity.
Qed.

(** Every source row has a URL that is not blank. *)
Definition urls_nonblank (d : db) : bool :=
  forallb (fun x => match sr_url x.2 with SText u => negb (is_blank u) | _ => false end)
    (map_to_list (t_rows (db_sources d))).

Lemma is_blank_trim (u : jsstr) : is_blank (trim u) = is_blank u.
Proof.
  pose proof (proj1 (trim_nil_trim u)) as H. unfold is_blank.
  destruct (trim u) as [|c l] eqn:E; [reflexivity|].
  destruct (trim (c :: l)) eqn:E'; [|reflexivity]. by specialize (H eq_refl).
Qed.

Definition url_ok (r : source_row) : Prop :=
  match sr_url r with SText u => is_blank u = false | _ => False end.

Lemma urls_nonblank_spec (d : db) :
  urls_nonblank d = true <-> map_Forall (fun _ r => url_ok r) (t_rows (db_sources d)).
Proof.
  unfold urls_nonblank, url_ok. rewrite forallb_forall, map_Forall_to_list, List.Forall_forall.
  split; intros H [k r] Hin; specialize (H _ Hin); simpl in *;
    destruct (sr_url r); try done; by destruct (is_blank _).
Qed.

Lemma query_spec_length {A} (t : table A) (P : A -> bool) (res : list (Z * A)) :
  query_spec (t_rows t) P res -> (length res <= size (t_rows t))%nat.
Proof. intros H%scan_filter_spec. subst. apply length_filter_scan. Qed.

(** What [loadSources] shows, against the tables: the sources of the
    project, the summaries of those sources and the outputs of those
    summaries, each in rowid order, provided the [IN] lists stay within
    SQLite's bound. *)
Lemma loadSources_spec (s : app_state) (d : db) (pid : Z) :
  (size (t_rows (db_sources d)) <= max_variable_number)%nat ->
  (size (t_rows (db_summaries d)) <= max_variable_number)%nat ->
  a_currentProject (loadSources s d pid) = a_currentProject s /\
  query_spec (t_rows (db_sources d)) (fun r => bool_decide (sr_project_id r = SInt pid))
    (a_sources (loadSources s d pid)) /\
  query_spec (t_rows (db_summaries d))
    (fun r => bool_decide (su_source_id r ∈ map SInt (map fst (a_sources (loadSources s d pid)))))
    (a_summaries (loadSources s d pid)) /\
  query_spec (t_rows (db_outputs d))
    (fun r => bool_decide (ou_summary_id r ∈ map SInt (map fst (a_summaries (loadSources s d pid)))))
    (a_outputs (loadSources s d pid)).
Proof.
  intros Hsrc Hsum. pose proof (select_sources_spec d pid) as Hs.
  assert (Hl1 : (length (map fst (select_sources d (SInt pid))) <= max_variable_number)%nat)
    by (rewrite length_map; etransitivity; [apply (query_spec_length _ _ _ Hs)|done]).
  unfold loadSources. destruct (0 <? length _) eqn:E1; cbn [a_currentProject a_sources a_summaries a_outputs set_listing].
  - destruct (select_summaries_in_spec d _ Hl1) as (sums & -> & Hm).
    assert (Hl2 : (length (map fst sums) <= max_variable_number)%nat)
      by (rewrite length_map; etransitivity; [apply (query_spec_length _ _ _ Hm)|done]).
    destruct (0 <? length (map fst sums)) eqn:E2; cbn [a_currentProject a_sources a_summaries a_outputs set_listing].
    + destruct (select_outputs_in_spec d _ Hl2) as (outs & -> & Ho). done.
    + apply Nat.ltb_ge in E2. destruct (map fst sums) eqn:E; [|simpl in E2; lia].
      split_and!; [done|done|done|apply query_spec_no_ids].
  - apply Nat.ltb_ge in E1. destruct (map fst (select_sources d (SInt pid))) eqn:E; [|simpl in E1; lia].
    split_and!; [done|done|apply query_spec_no_ids|apply query_spec_no_ids].
Qed.

(** C28. The Add Resource button never stores a blank URL: every source it
    inserts has the trimmed, non-blank text of the input, so a database
    whose URLs are all non-blank stays so. *)
Theorem add_source_keeps_urls (s : app_state) (d : db) :
  urls_nonblank d = true -> urls_nonblank (addSource s d).2 = true.
Proof.
  rewrite !urls_nonblank_spec. intros Hd. unfold addSource.
  destruct (is_blank (a_newSourceUrl s)) eqn:Hb; [done|].
  destruct (a_currentProject s) as [[projectId p]|]; [|done].
  destruct (exec d _) as [[d' info]|e] eqn:He; [|done]. simpl.
  apply exec_insert_source_row in He as [id ->].
  apply map_Forall_insert_2; [|done]. unfold url_ok. simpl. by rewrite is_blank_trim.
Qed.

(** C32. Editing does not keep that guarantee: Save trims the URL but does
    not check it.  Whatever the state, when the form edits an existing
    source with a type the CHECK accepts and a blank URL, the source's URL
    becomes the empty string and the database has a blank URL. *)
Theorem save_edit_blank_url (s : app_state) (d : db) (id : Z) (r : source_row) :
  a_editingSourceId s = Some id -> t_rows (db_sources d) !! id = Some r ->
  a_editType s ∈ source_types -> is_blank (a_editUrl s) = true ->
  t_rows (db_sources (saveEdit s d).2) !! id =
    Some (mkSource (sr_project_id r) (SText []) (SText (a_editType s)) (sr_title r) (sr_content r)) /\
  urls_nonblank (saveEdit s d).2 = false.
Proof.
  intros Hid Hr Hty Hb.
  assert (Ht : trim (a_editUrl s) = []) by (unfold is_blank in Hb; by case_match).
  assert (Hsave : (saveEdit s d).2 =
    set_sources d (mkTable (<[id := mkSource (sr_project_id r) (SText []) (SText (a_editType s))
                                     (sr_title r) (sr_content r)]> (t_rows (db_sources d)))
                           (t_seq (db_sources d)))).
  { unfold saveEdit. rewrite Hid, Ht. cbn [exec table_update key_of]. rewrite Hr.
    unfold rbind, source_ok, not_null, check_in, in_list. cbn [sr_url sr_type text_affinity].
    rewrite (bool_decide_eq_true_2 _ Hty). simpl. by destruct (a_currentProject s) as [[]|]. }
  rewrite Hsave. split; [apply lookup_insert_eq|].
  apply not_true_iff_false. rewrite urls_nonblank_spec. intros Hall.
  eapply map_Forall_lookup_1 in Hall; [|simpl; apply lookup_insert_eq]. unfold url_ok in Hall. simpl in Hall. discriminate.
Qed.

(** C29. Create: a blank or whitespace name changes nothing; any other
    name is inserted trimmed under the next [sqlite_sequence] id, the
    input is cleared, and the project list becomes the table's projects
    in rowid order with the new project last; provided rowids are not
    exhausted. *)
Theorem create_project_listed (s : app_state) (d : db) :
  db_wf d -> (t_seq (db_projects d) < max_rowid)%Z ->
  (is_blank (a_newProjectName s) = true -> createProject s d = (s, d)) /\
  (is_blank (a_newProjectName s) = false ->
   a_projects (createProject s d).1 =
     select_projects d ++ [((t_seq (db_projects d) + 1)%Z, mkProject (SText (trim (a_newProjectName s))))] /\
   a_newProjectName (createProject s d).1 = []).
Proof.
  intros Hwf Hlt. unfold createProject. split; intros Hb; rewrite Hb; [done|].
  rewrite (exec_insert_project_ok d _ Hwf Hlt). split; [|done].
  cbn [fst loadProjects set_projects_st a_projects]. unfold select_projects.
  cbn [db_projects set_last_id set_projects]. apply scan_insert_last.
  intros j x Hj. destruct Hwf as ([_ Hk] & _). specialize (Hk _ _ Hj). lia.
Qed.

(** C30. Delete: when a project is open, the page lists exactly the
    project's other sources after [deleteSource], and no summary of the
    deleted source, although the database keeps every summary (foreign
    keys are off); provided the [IN] lists stay within SQLite's bound. *)
Theorem delete_source_unlisted (s : app_state) (d : db) (sid pid : Z) (pr : project_row) :
  a_currentProject s = Some (pid, pr) ->
  (size (t_rows (db_sources d)) <= max_variable_number)%nat ->
  (size (t_rows (db_summaries d)) <= max_variable_number)%nat ->
  (forall k r, (k, r) ∈ a_sources (deleteSource s d sid).1 <->
     t_rows (db_sources d) !! k = Some r /\ sr_project_id r = SInt pid /\ k <> sid) /\
  (forall k r, (k, r) ∈ a_summaries (deleteSource s d sid).1 -> su_source_id r <> SInt sid) /\
  db_summaries (deleteSource s d sid).2 = db_summaries d.
Proof.
  intros Hcur Hsrc Hsum. destruct (delete_source_no_cascade d sid) as (d' & info & Hdel & Hrows & Hm & _).
  unfold deleteSource. rewrite Hdel, Hcur. cbn [fst snd].
  assert (Hsrc' : (size (t_rows (db_sources d')) <= max_variable_number)%nat)
    by (rewrite Hrows, map_size_delete; destruct (_ !! sid); simpl; lia).
  assert (Hsum' : (size (t_rows (db_summaries d')) <= max_variable_number)%nat) by (by rewrite Hm).
  destruct (loadSources_spec s d' pid Hsrc' Hsum') as (_ & [_ Hs] & [_ Hu] & _).
  assert (Hlist : forall k r, (k, r) ∈ a_sources (loadSources s d' pid) <->
     t_rows (db_sources d) !! k = Some r /\ sr_project_id r = SInt pid /\ k <> sid).
  { intros k r. rewrite Hs, Hrows, lookup_delete_Some, bool_decide_eq_true. naive_solver. }
  split_and!; [exact Hlist| |exact Hm].
  intros k r Hin Heq. apply Hu in Hin as [_ Hin]. rewrite bool_decide_eq_true, Heq in Hin.
  apply list_elem_of_fmap in Hin as (k' & [= ->] & Hin).
  apply list_elem_of_fmap in Hin as ([k'' r'] & -> & Hin). simpl in Hin.
  by apply Hlist in Hin as (_ & _ & []).
Qed.

(** C31. Add: with a project open, a non-blank URL and a type of the list,
    [addSource] inserts a source under a fresh id, the next value of
    [sqlite_sequence], with the trimmed URL, clears the input, and the
    page lists exactly the project's sources, the new one included;
    provided rowids are not exhausted and the [IN] lists stay within
    SQLite's bound. *)
Theorem add_source_listed (s : app_state) (d : db) (pid : Z) (pr : project_row) :
  a_currentProject s = Some (pid, pr) -> is_blank (a_newSourceUrl s) = false ->
  a_newSourceType s ∈ source_types -> db_wf d -> (t_seq (db_sources d) < max_rowid)%Z ->
  (size (t_rows (db_sources d)) < max_variable_number)%nat ->
  (size (t_rows (db_summaries d)) <= max_variable_number)%nat ->
  let id := (t_seq (db_sources d) + 1)%Z in
  t_rows (db_sources d) !! id = None /\
  a_newSourceUrl (addSource s d).1 = [] /\
  forall k r, (k, r) ∈ a_sources (addSource s d).1 <->
    (t_rows (db_sources d) !! k = Some r /\ sr_project_id r = SInt pid) \/
    (k = id /\ r = mkSource (SInt pid) (SText (trim (a_newSourceUrl s))) (SText (a_newSourceType s)) SNull SNull).
Proof.
  intros Hcur Hb Hty Hwf Hlt Hsrc Hsum id.
  assert (Hfresh : t_rows (db_sources d) !! id = None).
  { destruct (t_rows (db_sources d) !! id) as [r|] eqn:E; [|done].
    destruct Hwf as (_ & [_ Hk] & _). specialize (Hk _ _ E). subst id. lia. }
  unfold addSource. rewrite Hb, Hcur, (exec_insert_source_ok d _ _ _ Hwf Hlt Hty). cbn [fst].
  set (d' := set_last_id _ _).
  assert (Hsrc' : (size (t_rows (db_sources d')) <= max_variable_number)%nat)
    by (subst d'; cbn [db_sources set_last_id set_sources t_rows]; rewrite map_size_insert;
        fold id; rewrite Hfresh; simpl; lia).
  destruct (loadSources_spec (set_newSourceUrl s []) d' pid Hsrc' Hsum) as (_ & [_ Hs] & _).
  split_and!; [done| |].
  - unfold loadSources. by case_if; repeat case_match.
  - intros k r. rewrite Hs. subst d'. cbn [db_sources set_last_id set_sources t_rows].
    rewrite lookup_insert_Some, bool_decide_eq_true. subst id. split.
    + intros [[[<- <-]|[_ Hk]] Hp]; [by right|by left].
    + intros [[Hk Hp]|[-> ->]]; [|split; [by left|done]]. split; [|done]. right.
      split; [|done]. intros <-. congruence.
Qed.

(** * Witnesses *)

Definition job_events : list ipc_event :=
  [WorkerMessage (MsgResult (js "Body") (VStr (js "Title")) (js "Summary")
                    [js "A first key point"; js "A second key point"] None);
   DbCallback 0 None; DbCallback 0 None; WorkerExit 0].

Definition job_setup : list stmt :=
  [InsertProject (SText (js "Research"));
   InsertSource (SInt 1) (SText (js "https://example.com/a")) (SText (js "article"))].

Lemma displayed_key_points_witness :
  st_promise (run_events 1 (start (run_stmts empty_db job_setup)) job_events) =
    Resolved (mkReply 1 (VStr (js "Summary")) (VArr [VStr (js "A first key point"); VStr (js "A second key point")]) VNull) /\
  exists row, t_rows (db_summaries (st_db (run_events 1 (start (run_stmts empty_db job_setup)) job_events)))
                !! rv_summaryId (mkReply 1 (VStr (js "Summary"))
                     (VArr [VStr (js "A first key point"); VStr (js "A second key point")]) VNull) = Some row /\
    render_key_points (su_key_points row) =
      POk (Ok [VStr (js "A first key point"); VStr (js "A second key point")]).
Proof.
  assert (H : st_promise (run_events 1 (start (run_stmts empty_db job_setup)) job_events) =
    Resolved (mkReply 1 (VStr (js "Summary"))
                (VArr [VStr (js "A first key point"); VStr (js "A second key point")]) VNull))
    by (vm_compute; reflexivity).
  split; [exact H|]. exact (displayed_key_points 1 job_setup job_events _ H).
Defined.

Lemma file_name_path_join_witness :
  92%N ∉ js "podcast_1_1700000000002.wav" /\
  file_name (path_join (js "C:\app\outputs") (js "podcast_1_1700000000002.wav")) =
    js "podcast_1_1700000000002.wav".
Proof.
  assert (H : 92%N ∉ js "podcast_1_1700000000002.wav") by decide_by_compute.
  split; [exact H|]. exact (file_name_path_join _ _ H).
Defined.

Definition adding_state : app_state :=
  set_newSourceUrl (set_current initial_app (Some (1%Z, mkProject (SText (js "Research")))))
    (js "  https://example.com/b  ").

Lemma add_source_keeps_urls_witness :
  urls_nonblank (run_stmts empty_db job_setup) = true /\
  urls_nonblank (addSource adding_state (run_stmts empty_db job_setup)).2 = true.
Proof.
  assert (H : urls_nonblank (run_stmts empty_db job_setup) = true) by (vm_compute; reflexivity).
  split; [exact H|]. exact (add_source_keeps_urls _ _ H).
Defined.

Lemma save_edit_blank_url_witness :
  urls_nonblank (saveEdit (set_editing (set_current initial_app (Some (1%Z, mkProject (SText (js "P")))))
                             (Some 1%Z) (js "   ") (js "article"))
                  (run_stmts empty_db job_setup)).2 = false.
Proof.
  refine (proj2 (save_edit_blank_url
    (set_editing (set_current initial_app (Some (1%Z, mkProject (SText (js "P"))))) (Some 1%Z) (js "   ") (js "article"))
    (run_stmts empty_db job_setup) 1
    (mkSource (SInt 1) (SText (js "https://example.com/a")) (SText (js "article")) SNull SNull)
    eq_refl _ _ _));
    [vm_compute; reflexivity|apply (bool_decide_unpack _); vm_compute; reflexivity|vm_compute; reflexivity].
Defined.

Definition research_open : app_state :=
  set_current initial_app (Some (1%Z, mkProject (SText (js "Research")))).

Lemma delete_source_unlisted_witness :
  db_summaries (deleteSource research_open (run_stmts empty_db job_setup) 1).2 =
    db_summaries (run_stmts empty_db job_setup).
Proof.
  refine (proj2 (proj2 (delete_source_unlisted research_open (run_stmts empty_db job_setup) 1 1
    (mkProject (SText (js "Research"))) _ _ _)));
    [reflexivity|apply Nat.leb_le; vm_compute; reflexivity|apply Nat.leb_le; vm_compute; reflexivity].
Defined.

Lemma add_source_listed_witness :
  a_newSourceUrl (addSource (set_newSourceUrl research_open (js " https://example.com/b "))
                            (run_stmts empty_db job_setup)).1 = [].
Proof.
  refine (proj1 (proj2 (add_source_listed (set_newSourceUrl research_open (js " https://example.com/b "))
    (run_stmts empty_db job_setup) 1 (mkProject (SText (js "Research"))) _ _ _ _ _ _ _)));
    [reflexivity|vm_compute; reflexivity|decide_by_compute|apply run_stmts_wf, empty_db_wf
    |vm_compute; reflexivity|apply Nat.ltb_lt; vm_compute; reflexivity
    |apply Nat.leb_le; vm_compute; reflexivity].
Defined.

Lemma create_project_listed_witness :
  a_projects (createProject (set_newProjectName initial_app (js "  Rust  ")) (run_stmts empty_db job_setup)).1 =
    select_projects (run_stmts empty_db job_setup) ++ [(2%Z, mkProject (SText (js "Rust")))].
Proof.
  refine (proj1 ((proj2 (create_project_listed (set_newProjectName initial_app (js "  Rust  "))
    (run_stmts empty_db job_setup) (run_stmts_wf _ _ empty_db_wf) _)) _));
    vm_compute; reflexivity.
Defined.
