(* ===== verification/View.v ===== *)
(** * The renderer's view and its events ([src/src/App.js], lines 119-253)

    [App] returns a JSX tree computed from its state: the header with the
    model [<select>], the project list with its input and button, and,
    when a project is selected, its sources (each shown either as the edit
    form or with its Process, Edit and Delete buttons), the form that adds
    a source, and the summaries with their key points and podcast line.
    [render] computes that tree as a [vnode]; it fails as React does when
    an expression of the tree throws ([JSON.parse], [.map] on a
    non-array, [.split] on a null path, an object as a child).

    The listeners of the tree are the events of the user ([ui_event]);
    [handle_ui] runs each one with the handlers of [App], each handler
    atomically, and the effect that loads the projects after the first
    render as one more event.  A user can only
    act on what is rendered: a click on an element that is not in the tree,
    or a [<select>] value that is not one of its options, is no event.
    [ui_reachable] closes the initial state under these events and under
    any statement the rest of the program runs on the database meanwhile.
    The invariant [ui_inv] shows that the type the forms send is always
    one the [CHECK] of the [sources] table accepts. *)

From Stdlib Require Import String Ascii NArith ZArith Lia.
From stdpp Require Import base list numbers gmap.
From S2P Require Import Prelude JsString JsValue Json Extractor Database DbTypes MainIpc Query App.

(** ** The rendered tree *)

#[warnings="-register-all"]
Inductive vnode : Type :=
| VText (t : jsstr)
| VElem (tag : jsstr) (attrs : list (jsstr * jsstr)) (children : list vnode).

(** Lines 127-133. *)
Definition model_options : list (jsstr * jsstr) :=
  [(js "meta-llama/llama-3-8b-instruct", js "Llama 3 8B (Free)");
   (js "microsoft/wizardlm-2-8x22b", js "WizardLM 2 8x22B (Free)");
   (js "google/gemini-flash-1.0", js "Gemini Flash 1.0 (Free)");
   (js "mistralai/mistral-7b-instruct", js "Mistral 7B (Free)");
   (js "openai/gpt-3.5-turbo", js "GPT-3.5 Turbo (Paid)");
   (js "openai/gpt-4", js "GPT-4 (Paid)");
   (js "anthropic/claude-3-haiku", js "Claude 3 Haiku (Paid)")].

(** Lines 175-179 and 206-210. *)
Definition type_options : list (jsstr * jsstr) :=
  [(js "article", js "Article"); (js "youtube", js "YouTube"); (js "podcast", js "Podcast");
   (js "social", js "Social Media"); (js "forum", js "Forum")].

Definition option_nodes (opts : list (jsstr * jsstr)) : list vnode :=
  map (fun '(v, l) => VElem (js "option") [(js "value", v)] [VText l]) opts.

(** A column value as a JSX child: [null] renders nothing. *)
Definition show (v : sqlval) : list vnode :=
  match v with SNull => [] | SText t => [VText t] | SInt z => [VText (z_to_js z)] end.

(** A value of the parsed key points as a JSX child. *)
Fixpoint show_jsval (v : jsval) : result (list vnode) :=
  match v with
  | VUndef | VNull | VBool _ => Ok []
  | VNum z => Ok [VText (z_to_js z)]
  | VStr t => Ok [VText t]
  | VArr vs =>
      (fix go (l : list jsval) : result (list vnode) :=
         match l with
         | [] => Ok []
         | x :: l' => match show_jsval x with
                      | Ok a => match go l' with Ok b => Ok (a ++ b) | Throw e => Throw e end
                      | Throw e => Throw e
                      end
         end) vs
  | VObj _ => Throw (Error (js "Objects are not valid as a React child"))
  end.

(** [source.title || source.type]. *)
Definition sql_truthy (v : sqlval) : bool :=
  match v with SNull | SText [] | SInt 0 => false | _ => true end.

Definition elem (tag : jsstr) (children : list vnode) : vnode := VElem tag [] children.
Definition button (label : jsstr) : vnode := elem (js "button") [VText label].

(** Lines 121-135. *)
Definition header_view (s : app_state) : vnode :=
  VElem (js "header") [(js "className", js "App-header")]
    [elem (js "h1") [VText (js "Maximus Resource Scraper")];
     elem (js "p") [VText (js "Content Aggregation Research Tool")];
     elem (js "div") [elem (js "label") [VText (js "AI Model: ")];
                      VElem (js "select") [(js "value", a_selectedModel s)] (option_nodes model_options)]].

(** Lines 138-158. *)
Definition projects_view (s : app_state) : vnode :=
  elem (js "section")
    [elem (js "h2") [VText (js "Projects")];
     elem (js "ul") (map (fun p => VElem (js "li") [(js "key", z_to_js p.1)] (show (pr_name p.2)))
                       (a_projects s));
     VElem (js "input") [(js "type", js "text"); (js "value", a_newProjectName s);
                         (js "placeholder", js "Enter project name")] [];
     button (js "Create New Project")].

(** Lines 166-197: the edit form for the source being edited, the
    source's line with its buttons otherwise. *)
Definition source_item (s : app_state) (src : Z * source_row) : vnode :=
  VElem (js "li") [(js "key", z_to_js src.1)]
    [if bool_decide (a_editingSourceId s = Some src.1) then
       elem (js "div")
         [VElem (js "input") [(js "type", js "url"); (js "value", a_editUrl s);
                              (js "placeholder", js "Enter source URL")] [];
          VElem (js "select") [(js "value", a_editType s)] (option_nodes type_options);
          button (js "Save"); button (js "Cancel")]
     else
       elem (js "div")
         ([elem (js "strong") (show (if sql_truthy (sr_title src.2) then sr_title src.2 else sr_type src.2));
           VText (js ": ")] ++ show (sr_url src.2) ++
          [button (js "Process"); button (js "Edit"); button (js "Delete")])].

(** Line 240: [podcastOutput.file_path.split('\\').pop()]. *)
Definition podcast_file_name (o : output_row) : result jsstr :=
  match ou_file_path o with
  | SText p => Ok (file_name p)
  | SNull => Throw (cannot_read (js "null") (js "split"))
  | SInt _ => Throw (TypeError (js "podcastOutput.file_path.split is not a function"))
  end.

(** Lines 220-246: one summary. *)
Definition summary_item (s : app_state) (sum : Z * summary_row) : parse_result (result vnode) :=
  match render_key_points (su_key_points sum.2) with
  | PSyntax => PSyntax
  | PUnsupported => PUnsupported
  | POk points =>
      POk (rbind points (fun points =>
      rbind (map_result show_jsval points) (fun shown =>
      let items := imap (fun i kids => VElem (js "li") [(js "key", z_to_js (Z.of_nat i))] kids) shown in
      let podcast :=
        match podcast_output (a_outputs s) sum.1 with
        | None => Ok []
        | Some (_, o) =>
            rbind (podcast_file_name o) (fun name =>
              Ok [elem (js "div")
                    [elem (js "br") []; elem (js "strong") [VText (js "Podcast Generated:")];
                     VElem (js "span") [(js "style", js "margin-left: 10px; color: #666")]
                       [VText (js "Audio file saved to: " ++ name)]]])
        end in
      rbind podcast (fun podcast =>
      Ok (VElem (js "li") [(js "key", z_to_js sum.1)]
            ([VElem (js "div") [(js "style", js "white-space: pre-wrap")] (show (su_summary sum.2));
              elem (js "br") []; elem (js "strong") [VText (js "Key Points:")];
              elem (js "ul") items] ++ podcast))))))
  end.

(** The summaries in order; the first failure ends the rendering. *)
Fixpoint render_summaries (s : app_state) (sums : list (Z * summary_row)) :
    parse_result (result (list vnode)) :=
  match sums with
  | [] => POk (Ok [])
  | x :: rest =>
      match summary_item s x with
      | POk (Ok n) =>
          match render_summaries s rest with
          | POk (Ok ns) => POk (Ok (n :: ns))
          | r => r
          end
      | POk (Throw e) => POk (Throw e)
      | PSyntax => PSyntax
      | PUnsupported => PUnsupported
      end
  end.

(** Lines 159-249: the selected project. *)
Definition current_view (s : app_state) (p : Z * project_row) : parse_result (result vnode) :=
  match render_summaries s (a_summaries s) with
  | POk (Ok sums) =>
      POk (Ok (elem (js "section")
        [elem (js "h2") (show (pr_name p.2)); elem (js "h3") [VText (js "Sources")];
         elem (js "ul") (map (source_item s) (a_sources s));
         VElem (js "input") [(js "type", js "url"); (js "value", a_newSourceUrl s);
                             (js "placeholder", js "Enter source URL")] [];
         VElem (js "select") [(js "value", a_newSourceType s)] (option_nodes type_options);
         button (js "Add Resource");
         elem (js "h3") [VText (js "Summaries")]; elem (js "ul") sums]))
  | POk (Throw e) => POk (Throw e)
  | PSyntax => PSyntax
  | PUnsupported => PUnsupported
  end.

(** Lines 119-253. *)
Definition render (s : app_state) : parse_result (result vnode) :=
  let page kids := VElem (js "div") [(js "className", js "App")]
                     [header_view s; elem (js "main") (projects_view s :: kids)] in
  match a_currentProject s with
  | None => POk (Ok (page []))
  | Some p =>
      match current_view s p with
      | POk (Ok c) => POk (Ok (page [c]))
      | r => r
      end
  end.

(** ** The user's events *)

Inductive ui_event : Type :=
| MountEffect                      (** lines 54-57, [useEffect(..., [])] *)
| SelectModel (v : jsstr)          (** line 126 *)
| ClickProject (i : nat)           (** lines 141-144, the [i]-th project *)
| TypeProjectName (v : jsstr)      (** line 151 *)
| ClickCreateProject               (** line 155 *)
| TypeEditUrl (v : jsstr)          (** line 171 *)
| SelectEditType (v : jsstr)       (** line 174 *)
| ClickSave                        (** line 181 *)
| ClickCancel                      (** line 182 *)
| ClickProcess (i : nat)           (** line 187, the [i]-th source *)
| ProcessResolved                  (** lines 113-114, a job's reply arrives *)
| ClickEdit (i : nat)              (** line 190 *)
| ClickDelete (i : nat)            (** line 193 *)
| TypeSourceUrl (v : jsstr)        (** line 203 *)
| SelectSourceType (v : jsstr)     (** line 206 *)
| ClickAddSource.                  (** line 213 *)

Definition set_selectedModel (s : app_state) (m : jsstr) : app_state :=
  mkApp (a_projects s) (a_currentProject s) (a_newProjectName s) (a_sources s) (a_newSourceUrl s)
    (a_newSourceType s) (a_summaries s) (a_outputs s) (a_editingSourceId s) (a_editUrl s)
    (a_editType s) m.

Definition set_newSourceType (s : app_state) (t : jsstr) : app_state :=
  mkApp (a_projects s) (a_currentProject s) (a_newProjectName s) (a_sources s) (a_newSourceUrl s)
    t (a_summaries s) (a_outputs s) (a_editingSourceId s) (a_editUrl s) (a_editType s)
    (a_selectedModel s).

Definition is_option (opts : list (jsstr * jsstr)) (v : jsstr) : bool :=
  bool_decide (v ∈ map fst opts).

(** The source whose edit form is rendered, if any. *)
Definition editing_shown (s : app_state) : bool :=
  match a_editingSourceId s with
  | Some id => existsb (fun x => Z.eqb x.1 id) (a_sources s)
  | None => false
  end.

(** A source whose line, with its three buttons, is rendered. *)
Definition shown_source (s : app_state) (i : nat) : option (Z * source_row) :=
  match a_currentProject s, a_sources s !! i with
  | Some _, Some src => if bool_decide (a_editingSourceId s = Some src.1) then None else Some src
  | _, _ => None
  end.

(** The handler of each listener: the new state, the database, and the
    job sent by the Process button. *)
Definition handle_ui (s : app_state) (d : db) (ev : ui_event) : app_state * db * option content_data :=
  let project_section := match a_currentProject s with Some _ => true | None => false end in
  let form := project_section && editing_shown s in
  match ev with
  | MountEffect => (loadProjects s d, d, None)
  | SelectModel v => if is_option model_options v then (set_selectedModel s v, d, None) else (s, d, None)
  | ClickProject i =>
      match a_projects s !! i with Some p => (selectProject s d p, d, None) | None => (s, d, None) end
  | TypeProjectName v => (set_newProjectName s v, d, None)
  | ClickCreateProject => let '(s', d') := createProject s d in (s', d', None)
  | TypeEditUrl v =>
      if form then (set_editing s (a_editingSourceId s) v (a_editType s), d, None) else (s, d, None)
  | SelectEditType v =>
      if form && is_option type_options v
      then (set_editing s (a_editingSourceId s) (a_editUrl s) v, d, None) else (s, d, None)
  | ClickSave => if form then let '(s', d') := saveEdit s d in (s', d', None) else (s, d, None)
  | ClickCancel => if form then (cancelEdit s, d, None) else (s, d, None)
  | ClickProcess i =>
      match shown_source s i with Some src => (s, d, Some (process_request s src)) | None => (s, d, None) end
  | ProcessResolved =>
      (* [currentProject.id] throws on [null]; the [catch] only logs *)
      match a_currentProject s with
      | Some (projectId, _) => (loadSources s d projectId, d, None)
      | None => (s, d, None)
      end
  | ClickEdit i =>
      match shown_source s i with Some src => (startEdit s src, d, None) | None => (s, d, None) end
  | ClickDelete i =>
      match shown_source s i with
      | Some src => let '(s', d') := deleteSource s d src.1 in (s', d', None)
      | None => (s, d, None)
      end
  | TypeSourceUrl v => if project_section then (set_newSourceUrl s v, d, None) else (s, d, None)
  | SelectSourceType v =>
      if project_section && is_option type_options v then (set_newSourceType s v, d, None)
      else (s, d, None)
  | ClickAddSource => if project_section then let '(s', d') := addSource s d in (s', d', None) else (s, d, None)
  end.

(** The statements the program issues: the renderer's four, with any
    parameters, and the handler's three, whose key points are the JSON of
    a list of strings (or [NULL]) and whose podcast path is a string
    ([handler_stmts_program] below). *)
Definition program_stmt (st : stmt) : Prop :=
  match st with
  | InsertSummary _ _ key_points => key_points = SNull \/ exists ks, key_points = SText (stringify_strings ks)
  | InsertOutput _ _ file_path => exists p, file_path = SText p
  | _ => True
  end.

(** The states of the renderer and the database from a database the
    program built: the user's events, and the statements the rest of the
    program runs in between (the [process-content] handler). *)
Inductive ui_reachable : app_state -> db -> Prop :=
| ui_init (ss : list stmt) : Forall program_stmt ss -> ui_reachable initial_app (run_stmts empty_db ss)
| ui_user s d ev : ui_reachable s d ->
    ui_reachable (handle_ui s d ev).1.1 (handle_ui s d ev).1.2
| ui_other s d st d' info : ui_reachable s d -> program_stmt st -> exec d st = Ok (d', info) ->
    ui_reachable s d'.

(** * Lemmas *)

(** The type the CHECK of the [sources] table accepts. *)
Definition type_ok (t : jsstr) : bool := bool_decide (t ∈ source_types).

(** A summary row whose key points [JSON.parse] reads as an array of
    strings, and an output row whose path [.split] can read. *)
Definition renders_summary (r : summary_row) : Prop :=
  su_key_points r = SNull \/ exists ks, su_key_points r = SText (stringify_strings ks).

Definition renders_output (r : output_row) : Prop := exists p, ou_file_path r = SText p.

Definition db_renders (d : db) : Prop :=
  map_Forall (fun _ => renders_summary) (t_rows (db_summaries d)) /\
  map_Forall (fun _ => renders_output) (t_rows (db_outputs d)).

Definition db_inv (d : db) : Prop := db_typed d /\ db_renders d.

(** The lists of the state are rows of such databases, and the two type
    selectors hold types the CHECK accepts. *)
Definition state_inv (s : app_state) : Prop :=
  Forall (fun x => source_typed x.2 = true) (a_sources s) /\
  type_ok (a_newSourceType s) = true /\ type_ok (a_editType s) = true /\
  Forall (fun x => renders_summary x.2) (a_summaries s) /\
  Forall (fun x => renders_output x.2) (a_outputs s).

Definition ui_inv (s : app_state) (d : db) : Prop := db_inv d /\ state_inv s.

Lemma type_option_ok (v : jsstr) : is_option type_options v = true -> type_ok v = true.
Proof.
  unfold is_option, type_ok. intros Hv. apply bool_decide_eq_true_1 in Hv.
  apply bool_decide_eq_true_2. simpl in Hv. rewrite !elem_of_cons, elem_of_nil in Hv.
  decompose [or] Hv; subst; [..|done]; apply (bool_decide_unpack _); vm_compute; exact I.
Qed.

Lemma typed_text_of (r : source_row) : source_typed r = true -> type_ok (text_of (sr_type r)) = true.
Proof.
  unfold source_typed. intros H. bool_facts. unfold type_ok.
  destruct (sr_type r); simpl in *; try discriminate. done.
Qed.

Lemma empty_db_inv : db_inv empty_db.
Proof. split; [apply empty_db_typed|split; apply map_Forall_empty]. Qed.

Lemma exec_db_inv (d d' : db) (st : stmt) (info : run_info) :
  db_inv d -> program_stmt st -> exec d st = Ok (d', info) -> db_inv d'.
Proof.
  intros [Ht [Hm Ho]] Hp Ex. split; [by apply (exec_typed d d' st info)|]. revert Ex.
  destruct st; simpl in *; unfold insert_into, rbind.
  all: repeat match goal with
    | |- context [match ?r with Ok _ => _ | Throw _ => _ end] =>
        let E := fresh "E" in destruct r as [[]|] eqn:E; [|discriminate]
    | |- context [let '(_, _) := ?p in _] => let E := fresh "E" in destruct p eqn:E
    end; intros [= <- _]; split; try done; simpl.
  - eapply (table_insert_forall _ _ _ _ _ Hm); [|exact E].
    unfold renders_summary; simpl. destruct Hp as [-> | [ks ->]]; [by left|right; by exists ks].
  - eapply (table_insert_forall _ _ _ _ _ Ho); [|exact E0].
    destruct Hp as [p ->]. by exists p.
Qed.

Lemma run_stmts_db_inv (d : db) (ss : list stmt) :
  Forall program_stmt ss -> db_inv d -> db_inv (run_stmts d ss).
Proof.
  revert d. induction ss as [|st ss IH]; intros d Hss Hd; simpl; [done|].
  apply Forall_cons in Hss as [Hst Hss].
  destruct (exec d st) as [[d' info]|] eqn:E; apply IH; try done. by apply (exec_db_inv d d' st info).
Qed.

(** The rows a filtered scan returns are rows of the table. *)
Lemma filter_scan_forall {A} (P : A -> Prop) (Q : Z * A -> Prop) `{!forall x, Decision (Q x)}
    (t : table A) :
  map_Forall (fun _ => P) (t_rows t) -> Forall (fun x => P x.2) (filter Q (scan t)).
Proof.
  intros Ht. apply Forall_forall. intros [k r] Hin.
  apply list_elem_of_filter in Hin as [_ Hin]. apply elem_of_scan in Hin. apply (Ht k r Hin).
Qed.

Lemma select_in_forall {A} (P : A -> Prop) (Q : Z * A -> Prop) `{!forall x, Decision (Q x)}
    (t : table A) (n : nat) (l : list (Z * A)) :
  map_Forall (fun _ => P) (t_rows t) ->
  (if Nat.ltb max_variable_number n then Throw too_many_variables else Ok (filter Q (scan t))) = Ok l ->
  Forall (fun x => P x.2) l.
Proof. intros Ht. case_if; [discriminate|]. intros [= <-]. by apply filter_scan_forall. Qed.

Lemma loadSources_inv (s : app_state) (d : db) (p : Z) :
  db_inv d -> state_inv s -> state_inv (loadSources s d p).
Proof.
  intros [(_ & Hs & _) [Hm Ho]] (Hsrc & Hn & He & Hsum & Hout). unfold loadSources.
  assert (Hsel : Forall (fun x => source_typed x.2 = true) (select_sources d (SInt p)))
    by (apply (filter_scan_forall (fun r => source_typed r = true)); apply Hs).
  repeat case_match; unfold state_inv; simpl; split_and!; auto.
  all: match goal with
       | E : select_summaries_in _ _ = Ok _ |- _ => apply (select_in_forall _ _ _ _ _ Hm E)
       | E : select_outputs_in _ _ = Ok _ |- _ => apply (select_in_forall _ _ _ _ _ Ho E)
       end.
Qed.

#[local] Hint Resolve loadSources_inv : core.

(** A handler that runs one statement of the renderer, then reloads. *)
Ltac renderer_stmt_inv :=
  match goal with
  | Hinv : ui_inv ?s ?d, Ex : exec ?d ?st = Ok (?d1, ?info) |- _ =>
      destruct Hinv as [Hdb Hst];
      pose proof (exec_db_inv d d1 st info Hdb I Ex) as Hdb1
  end.

Lemma createProject_inv (s s' : app_state) (d d' : db) :
  createProject s d = (s', d') -> ui_inv s d -> ui_inv s' d'.
Proof.
  unfold createProject. intros Hc Hinv. revert Hc. case_if; [by intros [= <- <-]|].
  destruct (exec _ _) as [[d1 info]|] eqn:Ex; intros [= <- <-]; [|done].
  renderer_stmt_inv. split; [done|]. exact Hst.
Qed.

Lemma saveEdit_inv (s s' : app_state) (d d' : db) :
  saveEdit s d = (s', d') -> ui_inv s d -> ui_inv s' d'.
Proof.
  unfold saveEdit. intros Hc Hinv. revert Hc.
  destruct (exec _ _) as [[d1 info]|] eqn:Ex; [|by intros [= <- <-]].
  renderer_stmt_inv.
  destruct (a_currentProject s) as [[pid pr]|]; intros [= <- <-]; split; auto; exact Hst.
Qed.

Lemma deleteSource_inv (s s' : app_state) (d d' : db) (id : Z) :
  deleteSource s d id = (s', d') -> ui_inv s d -> ui_inv s' d'.
Proof.
  unfold deleteSource. intros Hc Hinv. revert Hc.
  destruct (exec _ _) as [[d1 info]|] eqn:Ex; [|by intros [= <- <-]].
  renderer_stmt_inv.
  destruct (a_currentProject s) as [[pid pr]|]; intros [= <- <-]; split; auto.
Qed.

Lemma addSource_inv (s s' : app_state) (d d' : db) :
  addSource s d = (s', d') -> ui_inv s d -> ui_inv s' d'.
Proof.
  unfold addSource. intros Hc Hinv. revert Hc. case_if; [by intros [= <- <-]|].
  destruct (a_currentProject s) as [[pid pr]|]; [|by intros [= <- <-]].
  destruct (exec _ _) as [[d1 info]|] eqn:Ex; intros [= <- <-]; [|done].
  renderer_stmt_inv. split; [done|]. apply loadSources_inv; [done|exact Hst].
Qed.

Lemma shown_source_typed (s : app_state) (i : nat) (src : Z * source_row) :
  state_inv s -> shown_source s i = Some src -> source_typed src.2 = true.
Proof.
  intros (Hsrc & _) Hs. unfold shown_source in Hs.
  destruct (a_currentProject s), (a_sources s !! i) as [x|] eqn:Ei; try discriminate.
  revert Hs. case_if; [discriminate|]. intros [= <-].
  rewrite Forall_lookup in Hsrc. by apply (Hsrc i).
Qed.

Lemma handle_ui_inv (s : app_state) (d : db) (ev : ui_event) :
  ui_inv s d -> ui_inv (handle_ui s d ev).1.1 (handle_ui s d ev).1.2.
Proof.
  intros Hinv. pose proof Hinv as [Hd Hs]. pose proof Hs as (Hsrc & Hn & He & Hsum & Hout).
  destruct ev; simpl; repeat case_match; simplify_eq; simpl; try done.
  - split; [done|]. unfold selectProject. by apply loadSources_inv.
  - by apply (createProject_inv s _ d).
  - bool_facts. split; [done|]. unfold state_inv; simpl. split_and!; auto using type_option_ok.
  - by apply (saveEdit_inv s _ d).
  - split; [done|]. by apply loadSources_inv.
  - split; [done|]. unfold state_inv; simpl. split_and!; auto.
    by apply typed_text_of, (shown_source_typed s i).
  - by eapply deleteSource_inv.
  - bool_facts. split; [done|]. unfold state_inv; simpl. split_and!; auto using type_option_ok.
  - by apply (addSource_inv s _ d).
Qed.

Lemma ui_reachable_inv (s : app_state) (d : db) : ui_reachable s d -> ui_inv s d.
Proof.
  induction 1 as [ss Hss|s d ev _ IH|s d st d' info _ IH Hp Ex].
  - split; [by apply run_stmts_db_inv, empty_db_inv|]. split_and!; by constructor.
  - by apply handle_ui_inv.
  - destruct IH as [Hd Hs]. split; [by apply (exec_db_inv d d' st info)|done].
Qed.

(** A source row with a text URL and a type of the CHECK list passes the
    constraints. *)
Lemma source_ok_valid (p : sqlval) (u t : jsstr) (ti co : sqlval) :
  type_ok t = true -> source_ok (mkSource p (SText u) (SText t) ti co) = Ok tt.
Proof. intros Ht. unfold source_ok, check_in; simpl. unfold type_ok in Ht. by rewrite Ht. Qed.

Lemma table_update_ok {A} (t : table A) (k : sqlval) (f : A -> result A) :
  (forall r, exists r', f r = Ok r') -> exists res, table_update t k f = Ok res.
Proof.
  intros Hf. unfold table_update. destruct (key_of k); [|by eexists].
  destruct (t_rows t !! z) as [r|]; [|by eexists]. destruct (Hf r) as [r' ->]. by eexists.
Qed.

Lemma map_result_show_strings (ks : list jsstr) :
  map_result show_jsval (map VStr ks) = Ok (map (fun k => [VText k]) ks).
Proof. induction ks as [|k ks IH]; simpl; [done|]. by rewrite IH. Qed.

(** ** What the view needs of the data *)

Lemma podcast_output_in (outs : list (Z * output_row)) (id : Z) (x : Z * output_row) :
  podcast_output outs id = Some x -> x ∈ outs.
Proof.
  unfold podcast_output. intros Hf. apply find_some in Hf as [Hin _].
  apply list_elem_of_In in Hin. by apply list_elem_of_filter in Hin as [_ Hin].
Qed.

Lemma summary_item_ok (s : app_state) (sum : Z * summary_row) :
  renders_summary sum.2 -> Forall (fun x => renders_output x.2) (a_outputs s) ->
  exists v, summary_item s sum = POk (Ok v).
Proof.
  intros Hk Ho. destruct sum as [id row]. unfold summary_item. simpl in *.
  destruct Hk as [-> | [ks ->]].
  - replace (render_key_points SNull) with (POk (Ok (map VStr [])) : parse_result (result (list jsval)))
      by reflexivity.
    simpl. destruct (podcast_output (a_outputs s) id) as [[oid o]|] eqn:Eo; [|by eexists].
    apply podcast_output_in in Eo. rewrite Forall_forall in Ho.
    destruct (Ho _ Eo) as [p Hp]. simpl in Hp.
    unfold podcast_file_name. rewrite Hp. by eexists.
  - rewrite render_stringify. simpl. rewrite map_result_show_strings. simpl.
    destruct (podcast_output (a_outputs s) id) as [[oid o]|] eqn:Eo; [|by eexists].
    apply podcast_output_in in Eo. rewrite Forall_forall in Ho.
    destruct (Ho _ Eo) as [p Hp]. simpl in Hp.
    unfold podcast_file_name. rewrite Hp. by eexists.
Qed.

Lemma render_summaries_ok (s : app_state) (sums : list (Z * summary_row)) :
  Forall (fun x => renders_summary x.2) sums -> Forall (fun x => renders_output x.2) (a_outputs s) ->
  exists vs, render_summaries s sums = POk (Ok vs).
Proof.
  intros Hs Ho. induction Hs as [|x sums Hx _ IH]; [by eexists|].
  destruct (summary_item_ok s x Hx Ho) as [v Hv]. destruct IH as [vs Hvs].
  simpl. rewrite Hv, Hvs. by eexists.
Qed.

(** ** The handler writes only what the view can render *)

(** A run about to insert the output has a podcast path. *)
Definition run_ok (r : run) : Prop :=
  match run_phase r with
  | AwaitOutput _ => truthy (msg_podcastPath (run_msg r)) = true
  | _ => True
  end.

Definition runs_ok (st : ipc_state) : Prop :=
  forall i r, st_runs st !! i = Some (Some r) -> run_ok r.

Lemma runs_ok_insert (st : ipc_state) (i : nat) (x : option run) (l : list (option run)) :
  runs_ok st -> l = <[i := x]> (st_runs st) -> (forall r, x = Some r -> run_ok r) ->
  forall j r, l !! j = Some (Some r) -> run_ok r.
Proof.
  intros Hst -> Hx j r Hj. apply list_lookup_insert_Some in Hj as [(_ & -> & _)|(_ & Hj)].
  - by apply Hx.
  - by apply (Hst j).
Qed.

Lemma step_runs_ok (sid : Z) (st : ipc_state) (ev : ipc_event) :
  runs_ok st -> runs_ok (step sid st ev).
Proof.
  intros Hst. destruct ev as [m|msg|code|i io|s]; simpl; unfold reject_with; try done.
  - case_if; [done|]. intros j r; simpl. intros Hj.
    apply lookup_app_Some in Hj as [Hj|[_ Hj]]; [by apply (Hst j)|].
    apply list_lookup_singleton_Some in Hj as [_ [= <-]]. done.
  - case_if; done.
  - unfold db_callback, resolve_run. destruct (st_runs st !! i) as [[r|]|] eqn:Ei; try done.
    repeat case_match; intros j r' Hj; simpl in Hj;
      (eapply runs_ok_insert; [exact Hst|reflexivity| |exact Hj]);
      intros r'' [= <-]; unfold run_ok; simpl; done.
Qed.

Lemma run_ok_program (sid : Z) (r : run) : run_ok r -> program_stmt (run_stmt sid r).
Proof.
  destruct r as [m ph]. unfold run_ok, run_stmt; simpl.
  destruct ph; simpl; [done| |].
  - intros _. destruct m; simpl; [right; by eexists|by left].
  - destruct m as [c t su ks [p|]|e]; simpl; try discriminate. intros _. by exists p.
Qed.

(** Every statement a run of the [process-content] handler awaits, in any
    state it reaches, is one of the program's statements: what the handler
    writes in [summaries] and [outputs] is data the view can render. *)
Lemma handler_writes_program (sid : Z) (d : db) (st : ipc_state) (i : nat) (r : run) :
  reachable sid (start d) st -> st_runs st !! i = Some (Some r) -> program_stmt (run_stmt sid r).
Proof.
  intros Hr Hi. apply run_ok_program. revert i r Hi.
  induction Hr as [|st ev _ IH]; [intros i r; simpl; rewrite lookup_nil; discriminate|].
  by apply step_runs_ok.
Qed.

(** * Theorems *)

(** C20. The forms never send a type the [sources] table refuses: in every
    state the user can reach, from any database the program built and
    whatever the rest of the program writes meanwhile, the [UPDATE] of
    Save always succeeds, and the [INSERT] of Add Resource fails only when
    the rowids are exhausted, never on its NOT NULL or CHECK
    constraints. *)
Theorem ui_forms_pass_check (s : app_state) (d : db) :
  ui_reachable s d ->
  (forall url id, exists r, exec d (UpdateSource (SText url) (SText (a_editType s)) id) = Ok r) /\
  (forall pid url e, exec d (InsertSource pid (SText url) (SText (a_newSourceType s))) = Throw e ->
     e = sqlite_error (js "SQLITE_FULL") (js "database or disk is full")).
Proof.
  intros Hr. destruct (ui_reachable_inv s d Hr) as (_ & _ & Hn & He & _). split.
  - intros url id. simpl.
    match goal with |- context [table_update ?t ?k ?f] =>
      destruct (table_update_ok t k f) as [[t' n] ->] end; [|by eexists].
    intros r. simpl. rewrite source_ok_valid by done. by eexists.
  - intros pid url e. simpl. rewrite source_ok_valid by done. simpl.
    unfold insert_into, table_insert, rbind. case_if; [by intros [= <-]|discriminate].
Qed.

(** C23. The Summaries list shows the key points as they were stored: for
    a summary whose [key_points] column holds [JSON.stringify] of a list of
    strings, the rendered item lists exactly those strings, in order, one
    [<li>] each, after the summary text; the podcast line follows when
    the summary has a podcast output with a text path. *)
Theorem summary_view_key_points (s : app_state) (id : Z) (row : summary_row) (ks : list jsstr) :
  su_key_points row = SText (stringify_strings ks) ->
  (forall oid o, podcast_output (a_outputs s) id = Some (oid, o) -> exists p, ou_file_path o = SText p) ->
  exists extra, summary_item s (id, row) =
    POk (Ok (VElem (js "li") [(js "key", z_to_js id)]
      ([VElem (js "div") [(js "style", js "white-space: pre-wrap")] (show (su_summary row));
        elem (js "br") []; elem (js "strong") [VText (js "Key Points:")];
        elem (js "ul") (imap (fun i kids => VElem (js "li") [(js "key", z_to_js (Z.of_nat i))] kids)
                          (map (fun k => [VText k]) ks))] ++ extra))).
Proof.
  intros Hk Hp. unfold summary_item. simpl. rewrite Hk, render_stringify. simpl.
  rewrite map_result_show_strings. simpl.
  destruct (podcast_output (a_outputs s) id) as [[oid o]|] eqn:Eo.
  - destruct (Hp oid o eq_refl) as [p Hpath]. unfold podcast_file_name. rewrite Hpath. simpl. by eexists.
  - exists []. done.
Qed.

(** C21. The view never throws on the data the program writes: in every
    state the user can reach, from any database the program's statements
    built and whatever they write meanwhile, [render] returns a tree:
    [JSON.parse] reads every stored key point list, [.map] finds an array
    of strings, and every podcast path has the [.split] the podcast line
    calls. *)
Theorem render_total (s : app_state) (d : db) :
  ui_reachable s d -> exists v, render s = POk (Ok v).
Proof.
  intros Hr. destruct (ui_reachable_inv s d Hr) as [_ (_ & _ & _ & Hsum & Hout)].
  unfold render. destruct (a_currentProject s) as [p|]; [|by eexists].
  unfold current_view. destruct (render_summaries_ok s (a_summaries s) Hsum Hout) as [vs ->].
  by eexists.
Qed.

(** * Witnesses *)

Lemma ui_forms_pass_check_witness :
  exists r, exec empty_db (UpdateSource (SText (js "https://example.org")) (SText (js "article")) (SInt 1)) = Ok r.
Proof.
  destruct (ui_forms_pass_check initial_app empty_db (ui_init [] (List.Forall_nil _))) as [Hu _].
  apply (Hu (js "https://example.org") (SInt 1)).
Defined.

Lemma summary_view_key_points_witness :
  exists extra, summary_item initial_app (1%Z, mkSummary (SInt 1) (SText (js "S"))
                                           (SText (stringify_strings [js "one"; js "two"]))) =
    POk (Ok (VElem (js "li") [(js "key", z_to_js 1)]
      ([VElem (js "div") [(js "style", js "white-space: pre-wrap")] [VText (js "S")];
        elem (js "br") []; elem (js "strong") [VText (js "Key Points:")];
        elem (js "ul") [VElem (js "li") [(js "key", z_to_js 0)] [VText (js "one")];
                        VElem (js "li") [(js "key", z_to_js 1)] [VText (js "two")]]] ++ extra))).
Proof.
  destruct (summary_view_key_points initial_app 1
              (mkSummary (SInt 1) (SText (js "S")) (SText (stringify_strings [js "one"; js "two"])))
              [js "one"; js "two"]) as [extra E]; [reflexivity|intros oid o H; discriminate H|].
  exists extra. rewrite E. reflexivity.
Defined.

Lemma render_total_witness :
  exists v, render (handle_ui initial_app (run_stmts empty_db [InsertProject (SText (js "P"))]) MountEffect).1.1
    = POk (Ok v).
Proof.
  apply (render_total _ (handle_ui initial_app (run_stmts empty_db [InsertProject (SText (js "P"))]) MountEffect).1.2).
  apply ui_user, ui_init. repeat constructor.
Defined.
