(* ===== verification/Async.v ===== *)
(** * The renderer's loads as asynchronous steps ([src/src/App.js], lines 27-52)

    [loadSources] awaits three [db-query] calls in turn; between them the
    renderer keeps running, and the replies of two calls in flight can
    arrive in either order.  Here a call in flight is a continuation of
    [loadSources] with the reply the main process computed for it; the
    user's click on a project ([AClickProject], lines 141-144) sets the
    current project and sends the first query, and [ADeliver i] delivers
    the [i]-th reply in flight, which resumes its continuation: the
    setters of lines 30, 35, 41, 43 and 46-47 on the state of that moment,
    and the next query.

    [App.loadSources] runs the three awaits at once.  [click_drain_sync]
    shows that the two agree when the replies of one click are delivered
    before anything else happens, and [click_shows_project] what the page
    then lists, against the tables; [stale_sources_shown] shows what the
    code does when the replies of two clicks cross. *)

From Stdlib Require Import String Ascii NArith ZArith Lia.
From stdpp Require Import base list numbers gmap.
From S2P Require Import Prelude JsString JsValue Database Query App.

(** ** Calls in flight *)

(** The point of [loadSources] a reply resumes, with the reply. *)
Inductive inflight : Type :=
| FSources (result : list (Z * source_row))                 (** line 29 *)
| FSummaries (result : result (list (Z * summary_row)))     (** line 34 *)
| FOutputs (result : result (list (Z * output_row))).       (** line 40 *)

Record astate : Type := mkAstate {
  as_app : app_state;
  as_db : db;
  as_flight : list inflight
}.

Inductive aevent : Type :=
| AClickProject (i : nat)
| ADeliver (i : nat).

Definition set_sources_st (s : app_state) (l : list (Z * source_row)) : app_state :=
  set_listing s l (a_summaries s) (a_outputs s).
Definition set_summaries_st (s : app_state) (l : list (Z * summary_row)) : app_state :=
  set_listing s (a_sources s) l (a_outputs s).
Definition set_outputs_st (s : app_state) (l : list (Z * output_row)) : app_state :=
  set_listing s (a_sources s) (a_summaries s) l.

(** The reply of a query, computed when the main process serves it. *)
Definition send (st : astate) (f : inflight) : astate :=
  mkAstate (as_app st) (as_db st) (as_flight st ++ [f]).

Definition set_app (st : astate) (s : app_state) : astate :=
  mkAstate s (as_db st) (as_flight st).

(** Resuming [loadSources] with a reply. *)
Definition resume (st : astate) (f : inflight) : astate :=
  let s := as_app st in
  let d := as_db st in
  match f with
  | FSources result =>
      let st1 := set_app st (set_sources_st s result) in
      let sourceIds := map fst result in
      if 0 <? length sourceIds then send st1 (FSummaries (select_summaries_in d (map SInt sourceIds)))
      else set_app st1 (set_outputs_st (set_summaries_st (as_app st1) []) [])
  | FSummaries (Throw _) => st
  | FSummaries (Ok summariesResult) =>
      let st1 := set_app st (set_summaries_st s summariesResult) in
      let summaryIds := map fst summariesResult in
      if 0 <? length summaryIds then send st1 (FOutputs (select_outputs_in d (map SInt summaryIds)))
      else set_app st1 (set_outputs_st (as_app st1) [])
  | FOutputs (Throw _) => st
  | FOutputs (Ok outputsResult) => set_app st (set_outputs_st s outputsResult)
  end.

Definition astep (st : astate) (ev : aevent) : astate :=
  match ev with
  | AClickProject i =>
      match a_projects (as_app st) !! i with
      | Some p =>
          send (set_app st (set_current (as_app st) (Some p)))
            (FSources (select_sources (as_db st) (SInt p.1)))
      | None => st
      end
  | ADeliver i =>
      match as_flight st !! i with
      | Some f => resume (mkAstate (as_app st) (as_db st) (delete i (as_flight st))) f
      | None => st
      end
  end.

Definition arun (st : astate) (evs : list aevent) : astate := fold_left astep evs st.

(** * Lemmas *)

Lemma select_sources_project (d : db) (pid : Z) :
  Forall (fun x => sr_project_id x.2 = SInt pid) (select_sources d (SInt pid)).
Proof.
  apply Forall_forall. intros [k r] Hin. unfold select_sources in Hin.
  apply list_elem_of_filter in Hin as [Heq _]. simpl in Heq |- *.
  destruct (sr_project_id r); simpl in Heq; try discriminate. apply Z.eqb_eq in Heq. by subst.
Qed.

(** Delivering the sources reply of one project: the sources are set,
    whatever the rest of the reply does. *)
Lemma resume_sources (st : astate) (result : list (Z * source_row)) :
  a_sources (as_app (resume st (FSources result))) = result /\
  a_currentProject (as_app (resume st (FSources result))) = a_currentProject (as_app st).
Proof. simpl. case_if; simpl; auto. Qed.

(** A reply never touches the database, and only appends to the calls in flight. *)
Lemma resume_frame (st : astate) (f : inflight) :
  as_db (resume st f) = as_db st /\ exists l, as_flight (resume st f) = as_flight st ++ l.
Proof.
  destruct f as [r|[r|e]|[r|e]]; simpl; try case_if; simpl;
    split; eauto using app_nil_r.
Qed.

(** * Theorems *)

(** Refinement of the atomic model: when the replies of a click are
    delivered before anything else happens, the asynchronous [loadSources]
    ends in the state [App.selectProject] computes in one step. *)
Lemma click_drain_sync (st : astate) (i : nat) (p : Z * project_row) :
  as_flight st = [] -> a_projects (as_app st) !! i = Some p ->
  as_app (arun st [AClickProject i; ADeliver 0; ADeliver 0; ADeliver 0]) =
  selectProject (as_app st) (as_db st) p.
Proof.
  destruct st as [s d fl]; simpl. intros -> Hp. rewrite Hp. simpl.
  unfold selectProject, loadSources, set_sources_st, set_summaries_st, set_outputs_st.
  simpl. case_if; simpl; [|reflexivity].
  destruct (select_summaries_in _ _) as [sums|e]; simpl; [|reflexivity].
  case_if; simpl; [|reflexivity].
  destruct (select_outputs_in _ _) as [outs|e]; simpl; reflexivity.
Qed.

(** C7. A project click whose replies settle in order shows that project:
    the current project is the one clicked, the listed sources are exactly
    its rows of [sources], the summaries exactly the rows of [summaries]
    whose [source_id] is a listed source, and the outputs exactly the
    rows of [outputs] whose [summary_id] is a listed summary, each list in
    rowid order; provided the [IN] lists stay within SQLite's bound of
    32766 parameters. *)
Theorem click_shows_project (st : astate) (i : nat) (p : Z * project_row) :
  as_flight st = [] -> a_projects (as_app st) !! i = Some p ->
  (size (t_rows (db_sources (as_db st))) <= max_variable_number)%nat ->
  (size (t_rows (db_summaries (as_db st))) <= max_variable_number)%nat ->
  let s' := as_app (arun st [AClickProject i; ADeliver 0; ADeliver 0; ADeliver 0]) in
  a_currentProject s' = Some p /\
  query_spec (t_rows (db_sources (as_db st))) (fun r => bool_decide (sr_project_id r = SInt p.1))
    (a_sources s') /\
  query_spec (t_rows (db_summaries (as_db st)))
    (fun r => bool_decide (su_source_id r ∈ map SInt (map fst (a_sources s')))) (a_summaries s') /\
  query_spec (t_rows (db_outputs (as_db st)))
    (fun r => bool_decide (ou_summary_id r ∈ map SInt (map fst (a_summaries s')))) (a_outputs s').
Proof.
  intros Hf Hp Hsrc Hsum s'. subst s'. rewrite (click_drain_sync st i p Hf Hp).
  unfold selectProject. destruct (loadSources_spec (set_current (as_app st) (Some p)) (as_db st) p.1 Hsrc Hsum)
    as (-> & Hs & Hm & Ho). by split_and!.
Qed.

(** C16. Replies out of order: when the user clicks project A, then
    project B, and B's sources arrive before A's, the page shows project
    B with A's sources (every listed source has A's [project_id]); nothing
    in [loadSources] discards the reply of the earlier click. *)
Theorem stale_sources_shown (st : astate) (i j : nat) (pA pB : Z * project_row) :
  as_flight st = [] -> a_projects (as_app st) !! i = Some pA -> a_projects (as_app st) !! j = Some pB ->
  let st' := arun st [AClickProject i; AClickProject j; ADeliver 1; ADeliver 0] in
  a_currentProject (as_app st') = Some pB /\
  a_sources (as_app st') = select_sources (as_db st) (SInt pA.1) /\
  Forall (fun x => sr_project_id x.2 = SInt pA.1) (a_sources (as_app st')).
Proof.
  destruct st as [s d fl]; intros Hf HA HB st'; cbn [as_flight as_app as_db] in *; subst fl st'.
  set (rA := select_sources d (SInt pA.1)). set (rB := select_sources d (SInt pB.1)).
  set (sB := set_current (set_current s (Some pA)) (Some pB)).
  assert (H2 : arun (mkAstate s d []) [AClickProject i; AClickProject j] =
               mkAstate sB d [FSources rA; FSources rB]).
  { simpl. rewrite HA. simpl. rewrite HB. reflexivity. }
  destruct (resume_frame (mkAstate sB d [FSources rA]) (FSources rB)) as [Hdb [l Hfl]].
  set (st3 := resume (mkAstate sB d [FSources rA]) (FSources rB)) in *.
  assert (Hsplit : forall st0, arun st0 [AClickProject i; AClickProject j; ADeliver 1; ADeliver 0] =
    arun (arun st0 [AClickProject i; AClickProject j]) [ADeliver 1; ADeliver 0]) by reflexivity.
  rewrite Hsplit, H2. change (arun _ _) with (astep st3 (ADeliver 0)). simpl astep.
  rewrite Hfl. cbn [as_flight lookup list_lookup app delete list_delete]. destruct (resume_sources (mkAstate (as_app st3) (as_db st3) l) rA) as [Hs Hc].
  rewrite Hs, Hc. split_and!; [|done|apply select_sources_project].
  cbn [as_app]. subst st3. rewrite (proj2 (resume_sources _ _)). reflexivity.
Qed.

(** * Witnesses *)

Definition race_db : db :=
  run_stmts empty_db [InsertProject (SText (js "A")); InsertProject (SText (js "B"));
                      InsertSource (SInt 1) (SText (js "https://a.example")) (SText (js "article"))].

Definition race_start : astate := mkAstate (loadProjects initial_app race_db) race_db [].

Lemma click_shows_project_witness :
  a_currentProject (as_app (arun race_start [AClickProject 0; ADeliver 0; ADeliver 0; ADeliver 0])) =
    Some (1%Z, mkProject (SText (js "A"))) /\
  a_sources (as_app (arun race_start [AClickProject 0; ADeliver 0; ADeliver 0; ADeliver 0])) <> [].
Proof.
  destruct (click_shows_project race_start 0 (1%Z, mkProject (SText (js "A"))))
    as (Hc & _); [reflexivity|vm_compute; reflexivity|apply Nat.leb_le; vm_compute; reflexivity|apply Nat.leb_le; vm_compute; reflexivity|].
  split; [exact Hc|vm_compute; discriminate].
Defined.

Lemma stale_sources_shown_witness :
  option_map fst (a_currentProject (as_app (arun race_start
    [AClickProject 0; AClickProject 1; ADeliver 1; ADeliver 0]))) = Some 2%Z /\
  a_sources (as_app (arun race_start [AClickProject 0; AClickProject 1; ADeliver 1; ADeliver 0])) <> [].
Proof.
  destruct (stale_sources_shown race_start 0 1 (1%Z, mkProject (SText (js "A")))
              (2%Z, mkProject (SText (js "B")))) as (Hc & Hs & _);
    [reflexivity|vm_compute; reflexivity|vm_compute; reflexivity|].
  rewrite Hc, Hs. split; [reflexivity|]. vm_compute. discriminate.
Defined.
