(* ===== verification/Bridge.v ===== *)
(** * The preload bridge and the generic database handlers

    [src/preload.js] exposes [window.electronAPI] to the renderer: three
    functions that forward their arguments to [ipcRenderer.invoke] on the
    channels [db-query], [db-run] and [process-content].  The main process
    answers the first two with the handlers of [src/main.js], lines
    107-129: [db.all] or [db.run] on the SQL text and parameters it
    receives, resolving with the rows or with [{lastID, changes}], and
    rejecting with a new [Error] that carries the SQLite message.  The
    third starts the job of [MainIpc].

    The handlers run whatever SQL the renderer sends, so they are
    modelled against an interface, the class [SqlEngine] of the two
    driver calls, and its contract [SqlEngineSpec]: on the statements the
    renderer issues ([parse_query], [parse_stmt]) the engine computes what
    [App] and [Database] model ([eval_query], [exec]).  [program_engine]
    is an engine that knows exactly those statements.  The main theorem
    of the file shows that, for every engine meeting the contract, each
    call the renderer makes through the bridge returns what [App] uses
    directly. *)

From Stdlib Require Import String Ascii NArith ZArith Lia.
From stdpp Require Import base list numbers gmap.
From S2P Require Import Prelude JsString JsValue Extractor Database MainIpc Query App.

(** ** The renderer's API ([src/preload.js]) *)

Inductive api_call : Type :=
| DbQuery (query : jsstr) (params : option (list jsval))
| DbRun (query : jsstr) (params : option (list jsval))
| ProcessContent (contentData : content_data).

(** The job object of [App.js], line 112. *)
Definition content_object (c : content_data) : jsval :=
  VObj [(js "sourceId", VNum (cd_sourceId c)); (js "url", VStr (cd_url c));
        (js "type", VStr (cd_type c)); (js "model", VStr (cd_model c))].

(** An omitted [params] argument arrives as [undefined]. *)
Definition params_arg (p : option (list jsval)) : jsval :=
  match p with Some vs => VArr vs | None => VUndef end.

(** Lines 3-7: the channel and the arguments of [ipcRenderer.invoke]. *)
Definition electronAPI (c : api_call) : jsstr * list jsval :=
  match c with
  | DbQuery query params => (js "db-query", [VStr query; params_arg params])
  | DbRun query params => (js "db-run", [VStr query; params_arg params])
  | ProcessContent contentData => (js "process-content", [content_object contentData])
  end.

(** ** The statements the renderer issues ([src/src/App.js]) *)

Definition projects_sql : jsstr := js "SELECT * FROM projects".
Definition sources_sql : jsstr := js "SELECT * FROM sources WHERE project_id = ?".
Definition summaries_prefix : jsstr := js "SELECT * FROM summaries WHERE source_id IN (".
Definition outputs_prefix : jsstr := js "SELECT * FROM outputs WHERE summary_id IN (".
Definition delete_sql : jsstr := js "DELETE FROM sources WHERE id = ?".
Definition update_sql : jsstr := js "UPDATE sources SET url = ?, type = ? WHERE id = ?".
Definition insert_source_sql : jsstr := js "INSERT INTO sources (project_id, url, type) VALUES (?, ?, ?)".
Definition insert_project_sql : jsstr := js "INSERT INTO projects (name) VALUES (?)".

(** The rows [db.all] returns, by table. *)
Inductive rows : Type :=
| RProjects (l : list (Z * project_row))
| RSources (l : list (Z * source_row))
| RSummaries (l : list (Z * summary_row))
| ROutputs (l : list (Z * output_row)).

Inductive query : Type :=
| QProjects
| QSources (projectId : sqlval)
| QSummariesIn (ids : list sqlval)
| QOutputsIn (ids : list sqlval).

Definition rmap {A B} (f : A -> B) (r : result A) : result B :=
  match r with Ok a => Ok (f a) | Throw e => Throw e end.

Definition eval_query (d : db) (q : query) : result rows :=
  match q with
  | QProjects => Ok (RProjects (select_projects d))
  | QSources p => Ok (RSources (select_sources d p))
  | QSummariesIn ids => rmap RSummaries (select_summaries_in d ids)
  | QOutputsIn ids => rmap ROutputs (select_outputs_in d ids)
  end.

(** The queries of lines 20, 29, 34 and 40, with as many parameters as
    placeholders. *)
Definition parse_query (text : jsstr) (params : list sqlval) : option query :=
  if bool_decide (text = projects_sql) then
    match params with [] => Some QProjects | _ => None end
  else if bool_decide (text = sources_sql) then
    match params with [p] => Some (QSources p) | _ => None end
  else if bool_decide (text = in_query summaries_prefix params) then Some (QSummariesIn params)
  else if bool_decide (text = in_query outputs_prefix params) then Some (QOutputsIn params)
  else None.

(** The statements of lines 61, 76, 91 and 102. *)
Definition parse_stmt (text : jsstr) (params : list sqlval) : option stmt :=
  if bool_decide (text = delete_sql) then
    match params with [id] => Some (DeleteSource id) | _ => None end
  else if bool_decide (text = update_sql) then
    match params with [url; type; id] => Some (UpdateSource url type id) | _ => None end
  else if bool_decide (text = insert_source_sql) then
    match params with [p; url; type] => Some (InsertSource p url type) | _ => None end
  else if bool_decide (text = insert_project_sql) then
    match params with [name] => Some (InsertProject name) | _ => None end
  else None.

(** ** The driver as an interface *)

Class SqlEngine : Type := {
  sql_all : db -> jsstr -> list sqlval -> result rows;      (** [db.all] *)
  sql_run : db -> jsstr -> list sqlval -> result (db * run_info)  (** [db.run] *)
}.

Class SqlEngineSpec `{SqlEngine} : Prop := {
  sql_all_spec d text params q :
    parse_query text params = Some q -> sql_all d text params = eval_query d q;
  sql_run_spec d text params s :
    parse_stmt text params = Some s -> sql_run d text params = exec d s
}.

Definition unsupported_sql : js_error :=
  sqlite_error (js "SQLITE_ERROR") (js "statement outside the program").

#[export] Instance program_engine : SqlEngine := {
  sql_all d text params :=
    match parse_query text params with Some q => eval_query d q | None => Throw unsupported_sql end;
  sql_run d text params :=
    match parse_stmt text params with Some s => exec d s | None => Throw unsupported_sql end
}.

(** ** The handlers of the main process ([src/main.js], lines 107-129) *)

(** What [ipcMain.handle] resolves with: rows, the [this] of [db.run],
    or the pending promise of [process-content]. *)
Inductive reply : Type :=
| RRows (r : rows)
| RRun (info : run_info)
| RJob (contentData : jsval) (st : ipc_state).

Section Handlers.
Context `{SqlEngine}.

(** node-sqlite3 requires the SQL text to be a string. *)
Definition query_arg (v : jsval) : result jsstr :=
  match v with VStr q => Ok q | _ => Throw (TypeError (js "Argument 0 must be a string")) end.

(** The parameters bound: an array binds its elements in order; without
    parameters nothing is bound. *)
Definition params_of (v : jsval) : list sqlval :=
  match v with VArr vs => map bind_param vs | VUndef => [] | _ => [bind_param v] end.

(** Lines 107-117. *)
Definition handle_db_query (d : db) (query params : jsval) : result rows :=
  rbind (query_arg query) (fun q =>
    match sql_all d q (params_of params) with
    | Ok rows => Ok rows
    | Throw err => Throw (Error (error_message err))
    end).

(** Lines 119-129. *)
Definition handle_db_run (d : db) (query params : jsval) : db * result run_info :=
  match query_arg query with
  | Throw e => (d, Throw e)
  | Ok q =>
      match sql_run d q (params_of params) with
      | Ok (d', info) => (d', Ok info)
      | Throw err => (d, Throw (Error (error_message err)))
      end
  end.

Definition arg (args : list jsval) (i : nat) : jsval := default VUndef (args !! i).

(** [ipcRenderer.invoke(channel, ...args)] as the main process answers
    it: the handler registered for the channel, or Electron's rejection
    when there is none. *)
Definition invoke (d : db) (channel : jsstr) (args : list jsval) : db * result reply :=
  if bool_decide (channel = js "db-query") then
    (d, rmap RRows (handle_db_query d (arg args 0) (arg args 1)))
  else if bool_decide (channel = js "db-run") then
    let '(d', r) := handle_db_run d (arg args 0) (arg args 1) in (d', rmap RRun r)
  else if bool_decide (channel = js "process-content") then
    (d, Ok (RJob (arg args 0) (start d)))
  else (d, Throw (Error (js "No handler registered for " ++ quote ++ channel ++ quote))).

Definition api_invoke (d : db) (c : api_call) : db * result reply :=
  let '(channel, args) := electronAPI c in invoke d channel args.

End Handlers.

(** ** The calls of the renderer *)

Inductive renderer_call : Type :=
| CallLoadProjects
| CallLoadSources (projectId : Z)
| CallLoadSummaries (sourceIds : list Z)
| CallLoadOutputs (summaryIds : list Z)
| CallDeleteSource (sourceId : Z)
| CallSaveEdit (url type : jsstr) (editingSourceId : option Z)
| CallAddSource (projectId : Z) (url type : jsstr)
| CallCreateProject (name : jsstr).

(** [App.js] lines 20, 29, 34, 40, 61, 76, 91 and 102: the API call each
    handler makes. *)
Definition api_of (c : renderer_call) : api_call :=
  match c with
  | CallLoadProjects => DbQuery projects_sql None
  | CallLoadSources p => DbQuery sources_sql (Some [VNum p])
  | CallLoadSummaries ids => DbQuery (in_query summaries_prefix ids) (Some (map VNum ids))
  | CallLoadOutputs ids => DbQuery (in_query outputs_prefix ids) (Some (map VNum ids))
  | CallDeleteSource id => DbRun delete_sql (Some [VNum id])
  | CallSaveEdit url type id =>
      DbRun update_sql (Some [VStr url; VStr type; match id with Some i => VNum i | None => VNull end])
  | CallAddSource p url type => DbRun insert_source_sql (Some [VNum p; VStr url; VStr type])
  | CallCreateProject name => DbRun insert_project_sql (Some [VStr name])
  end.

(** The abstract specification: what [App] computes for each call, from
    the queries of [App] and the statements of [Database]. *)
Definition app_model (d : db) (c : renderer_call) : db * result reply :=
  let run s := match exec d s with Ok (d', info) => (d', Ok (RRun info)) | Throw e => (d, Throw e) end in
  match c with
  | CallLoadProjects => (d, Ok (RRows (RProjects (select_projects d))))
  | CallLoadSources p => (d, Ok (RRows (RSources (select_sources d (SInt p)))))
  | CallLoadSummaries ids => (d, rmap (fun l => RRows (RSummaries l)) (select_summaries_in d (map SInt ids)))
  | CallLoadOutputs ids => (d, rmap (fun l => RRows (ROutputs l)) (select_outputs_in d (map SInt ids)))
  | CallDeleteSource id => run (DeleteSource (SInt id))
  | CallSaveEdit url type id =>
      run (UpdateSource (SText url) (SText type) (match id with Some i => SInt i | None => SNull end))
  | CallAddSource p url type => run (InsertSource (SInt p) (SText url) (SText type))
  | CallCreateProject name => run (InsertProject (SText name))
  end.

(** * Lemmas *)

#[export] Instance program_engine_spec : @SqlEngineSpec program_engine.
Proof. split; intros d text params q Hq; simpl; by rewrite Hq. Qed.

Lemma in_query_map {A B} (f : A -> B) (p : jsstr) (l : list A) :
  in_query p (map f l) = in_query p l.
Proof. unfold in_query. by rewrite map_map. Qed.

Lemma take_in_query {A} (n : nat) (p : jsstr) (l : list A) :
  (n <= length p)%nat -> take n (in_query p l) = take n p.
Proof. intros Hn. unfold in_query. by rewrite take_app_le. Qed.

Lemma take_neq {A} (n : nat) (x y : list A) : take n x <> take n y -> x <> y.
Proof. intros H E. by subst. Qed.

(** Two texts that differ in their first 15 code units, which name the
    table, are different statements. *)
Ltac sql_text_neq :=
  apply (take_neq 15); rewrite ?take_in_query by (vm_compute; lia); vm_compute; discriminate.

(** Decides the comparisons of statement texts in the goal. *)
Ltac sql_texts :=
  repeat match goal with
  | |- context [bool_decide (?a = ?b)] =>
      (rewrite (bool_decide_eq_true_2 (a = b)) by (rewrite ?in_query_map; reflexivity)) ||
      (rewrite (bool_decide_eq_false_2 (a = b)) by sql_text_neq)
  end.

Lemma sqlite_error_Error (code msg : jsstr) :
  Error (error_message (sqlite_error code msg)) = sqlite_error code msg.
Proof. done. Qed.

Lemma params_of_nums (ids : list Z) : params_of (VArr (map VNum ids)) = map SInt ids.
Proof. simpl. by rewrite map_map. Qed.

Lemma rmap_rewrap {A B} (f : A -> B) (r : result A) :
  (forall e, r = Throw e -> Error (error_message e) = e) ->
  rmap f (match r with Ok rows => Ok rows | Throw err => Throw (Error (error_message err)) end) =
  rmap f r.
Proof. intros H. destruct r; simpl; [done|]. by rewrite H. Qed.

(** * Theorems *)

Section Refinement.
Context `{SqlEngineSpec}.

Lemma run_through_handler (d : db) (text : jsstr) (params : list sqlval) (s : stmt) :
  parse_stmt text params = Some s ->
  (let '(d', r) := match sql_run d text params with
                   | Ok (d', info) => (d', Ok info)
                   | Throw err => (d, Throw (Error (error_message err)))
                   end in (d', rmap RRun r)) =
  match exec d s with Ok (d', info) => (d', Ok (RRun info)) | Throw e => (d, Throw e) end.
Proof.
  intros Hs. rewrite (sql_run_spec d text params s Hs).
  destruct (exec d s) as [[d' info]|e] eqn:E; [done|]. simpl. by rewrite (exec_error _ _ _ E).
Qed.

Lemma query_through_handler (d : db) (text : jsstr) (params : list sqlval) (q : query) :
  parse_query text params = Some q ->
  (forall e, eval_query d q = Throw e -> Error (error_message e) = e) ->
  rmap RRows (match sql_all d text params with
              | Ok rows => Ok rows
              | Throw err => Throw (Error (error_message err))
              end) = rmap RRows (eval_query d q).
Proof.
  intros Hq He. rewrite (sql_all_spec d text params q Hq).
  destruct (eval_query d q) eqn:E; [done|]. simpl. by rewrite (He _ eq_refl).
Qed.

(** C6. Refinement of the renderer's model: for every engine that meets
    the contract, each call the renderer makes through [window.electronAPI]
    and the [db-query] or [db-run] handler returns the rows, the
    [{lastID, changes}] or the error, and leaves the database, exactly as
    [App] computes them with [select_projects], [select_sources],
    [select_summaries_in], [select_outputs_in] and [exec]. *)
Theorem bridge_refines_app (d : db) (c : renderer_call) :
  api_invoke d (api_of c) = app_model d c.
Proof.
  destruct c as [| | ids | ids | | url type [id|] | | ]; unfold api_invoke, api_of, electronAPI, invoke, app_model;
    sql_texts; unfold handle_db_query, handle_db_run, arg;
    cbn -[exec select_projects select_sources select_summaries_in select_outputs_in sql_all sql_run
      in_query js summaries_prefix outputs_prefix update_sql insert_source_sql insert_project_sql
      params_of];
    rewrite ?params_of_nums.
  - rewrite (sql_all_spec d projects_sql [] QProjects) by (unfold parse_query; by sql_texts). done.
  - rewrite (sql_all_spec d sources_sql [SInt projectId] (QSources (SInt projectId)))
      by (unfold parse_query; by sql_texts). done.
  - f_equal. rewrite (query_through_handler _ _ _ (QSummariesIn (map SInt ids))).
    + simpl. by destruct (select_summaries_in _ _).
    + unfold parse_query. by sql_texts.
    + intros e. simpl. unfold select_summaries_in. case_if; simpl; intros; by simplify_eq.
  - f_equal. rewrite (query_through_handler _ _ _ (QOutputsIn (map SInt ids))).
    + simpl. by destruct (select_outputs_in _ _).
    + unfold parse_query. by sql_texts.
    + intros e. simpl. unfold select_outputs_in. case_if; simpl; intros; by simplify_eq.
  - apply run_through_handler. unfold parse_stmt. by sql_texts.
  - apply run_through_handler. unfold parse_stmt. by sql_texts.
  - apply run_through_handler. unfold parse_stmt. by sql_texts.
  - apply run_through_handler. unfold parse_stmt. by sql_texts.
  - apply run_through_handler. unfold parse_stmt. by sql_texts.
Qed.

End Refinement.

(** * Witnesses *)

Lemma bridge_refines_app_witness :
  @api_invoke program_engine empty_db (api_of (CallLoadSummaries [1%Z; 2%Z])) =
  (empty_db, Ok (RRows (RSummaries []))).
Proof.
  rewrite (@bridge_refines_app program_engine program_engine_spec). vm_compute. reflexivity.
Defined.
