(* ===== verification/Pipeline.v ===== *)
(** * The whole job: worker, main process and renderer

    A job crosses three processes: the renderer sends it
    ([src/src/App.js], line 112), the worker processes it and posts one
    message ([src/contentProcessor.js]), and the main process stores the
    result ([src/main.js], lines 138-176).  This file connects the worker's
    posted message to the [message] event of the handler. *)

From Stdlib Require Import String Ascii NArith ZArith Lia.
From stdpp Require Import base list numbers gmap.
From S2P Require Import Prelude JsString JsValue KeyPoints Effects Extractor Summarize Tts Worker Database MainIpc.

(** The message [worker.on('message')] receives (lines 134-138): the
    one the worker posted last. *)
Definition posted_message (w : world) : option worker_message :=
  match last (w_trace w) with Some (EvPost m) => Some m | _ => None end.

(** The handler after the worker's message and its normal exit. *)
Definition job_outcome (sourceId : Z) (d : db) (m : worker_message) : ipc_state :=
  run_events sourceId (start d) [WorkerMessage m; WorkerExit 0].

Section Pipeline.
Context `{LC : LowerCase}.

Lemma pipeline_no_key (cd : content_data) (w : world) :
  key_present (w_env w (js "OPENROUTER_API_KEY")) = None -> exists e, fst (pipeline cd w) = Throw e.
Proof.
  intros Hk. destruct (extract_emits cd w) as (Henv & _).
  unfold pipeline, bind. destruct (extract cd w) as [[[c t]|e] w1]; simpl in *.
  - rewrite summarize_no_key by (by rewrite Henv). by eexists.
  - by eexists.
Qed.

Lemma processContent_posts_error (cd : content_data) (w : world) (e : js_error) :
  fst (pipeline cd w) = Throw e ->
  last (w_trace (snd (processContent cd w))) =
    Some (EvPost (MsgError (failure_prefix ++ error_message e))).
Proof.
  unfold processContent, try_catch. destruct (pipeline cd w) as [r w']. simpl. intros ->.
  apply last_snoc.
Qed.

(** C10. The spec's missing-credential scenario across processes: without
    an OpenRouter key the worker's last act is an error message, and the
    handler receiving it rejects the reply with that text and leaves the
    database as it was. *)
Theorem missing_key_job_rejected (cd : content_data) (w : world) (d : db) :
  key_present (w_env w (js "OPENROUTER_API_KEY")) = None ->
  exists e, posted_message (snd (processContent cd w)) = Some (MsgError e) /\
    job_outcome (cd_sourceId cd) d (MsgError e) = mkIpc d (Rejected (Error e)) [].
Proof.
  intros Hk. destruct (pipeline_no_key cd w Hk) as [e He].
  exists (failure_prefix ++ error_message e). split; [|reflexivity].
  unfold posted_message. by rewrite (processContent_posts_error cd w e He).
Qed.

End Pipeline.

(** * Witnesses *)

Lemma missing_key_job_rejected_witness :
  exists e, posted_message (snd (processContent article_job (sample_world (full_oracle engine_timeout)))) =
      Some (MsgError e) /\
    job_outcome (cd_sourceId article_job) empty_db (MsgError e) = mkIpc empty_db (Rejected (Error e)) [].
Proof. apply missing_key_job_rejected. vm_compute. reflexivity. Defined.
